(** * GeminiPdfSummarizer: a shallow embedding of the browser client

    The development follows the JavaScript sources:
    - [js/utils/fileHandler.js]  (module [FileHandler]),
    - [js/ui/uploadUI.js]        (module [UploadUI]),
    - [js/api/gemini.js]         (module [GeminiClient]),
    - [js/app.js]                (module [PDFSummarizerApp]).

    Asynchronous methods are interaction trees over the events the browser
    answers (network, timers, file reader, console, application state);
    a thrown exception is an abrupt completion of the tree's result. *)

From Stdlib Require Import String Ascii List ZArith Lia Bool DecimalString.
From ITree Require Import ITree ITreeFacts Events.State Events.StateFacts.
Import ListNotations.
Local Open Scope string_scope.
Local Open Scope list_scope.
Set Warnings "-register-all".

(** ** JavaScript values *)

Module JS.

(** The values the program handles: what [JSON.parse] can build, plus
    [undefined].  A Number is represented by the text that
    [Number.prototype.toString] prints for it: the program only tests
    numbers for truthiness and converts them to strings, and both are
    functions of that text.  An object is its list of own properties. *)
Inductive JsVal : Type :=
| JUndefined
| JNull
| JBool (b : bool)
| JNum (shown : string)
| JStr (s : string)
| JArr (items : list JsVal)
| JObj (props : list (string * JsVal)).

(** What can be thrown or be the reason of a rejected promise. *)
Inductive Exception : Type :=
| Error (message : string)        (* [new Error(message)] *)
| TypeError (message : string)    (* raised by the runtime and by [fetch] *)
| SyntaxError (message : string)  (* raised by [JSON.parse] *)
| ProgressEvent.                  (* the event [FileReader.onerror] passes on *)

(** Completion of an evaluation: a value, or an exception on its way up. *)
Inductive Completion (A : Type) : Type :=
| Normal (a : A)
| Throw (e : Exception).
Arguments Normal {A} a.
Arguments Throw {A} e.

Definition andThen {A B} (c : Completion A) (k : A -> Completion B) : Completion B :=
  match c with
  | Normal a => k a
  | Throw e => Throw e
  end.

Notation "'let?' x ':=' c 'in' k" := (andThen c (fun x => k))
  (at level 10, x name, c at level 200, k at level 200).

(** [ToBoolean]. *)
Definition truthy (v : JsVal) : bool :=
  match v with
  | JUndefined | JNull => false
  | JBool b => b
  | JNum shown => negb (String.eqb shown "0" || String.eqb shown "NaN")
  | JStr s => negb (String.eqb s "")
  | JArr _ | JObj _ => true
  end.

(** [a || b] *)
Definition or_else (a b : JsVal) : JsVal := if truthy a then a else b.

(** [v === 'literal'] *)
Definition strict_eq_str (v : JsVal) (lit : string) : bool :=
  match v with
  | JStr s => String.eqb s lit
  | _ => false
  end.

Fixpoint lookup (key : string) (props : list (string * JsVal)) : option JsVal :=
  match props with
  | [] => None
  | (k, v) :: rest => if String.eqb k key then Some v else lookup key rest
  end.

Definition hasOwn (key : string) (props : list (string * JsVal)) : bool :=
  match lookup key props with Some _ => true | None => false end.

Definition cannot_read (what key : string) : Exception :=
  TypeError ("Cannot read properties of " ++ what ++ " (reading '" ++ key ++ "')").

(** [v.key] for a data property name [key] that no built-in prototype
    defines (the program reads [candidates], [content], [parts], [text],
    [state], [file], [error] and [message]). *)
Definition getProp (v : JsVal) (key : string) : Completion JsVal :=
  match v with
  | JUndefined => Throw (cannot_read "undefined" key)
  | JNull => Throw (cannot_read "null" key)
  | JObj props =>
      match lookup key props with
      | Some x => Normal x
      | None => Normal JUndefined
      end
  | JBool _ | JNum _ | JStr _ | JArr _ => Normal JUndefined
  end.

(** [v?.key] *)
Definition getPropOpt (v : JsVal) (key : string) : Completion JsVal :=
  match v with
  | JUndefined | JNull => Normal JUndefined
  | _ => getProp v key
  end.

(** [v[0]] *)
Definition getIndex0 (v : JsVal) : Completion JsVal :=
  match v with
  | JUndefined => Throw (cannot_read "undefined" "0")
  | JNull => Throw (cannot_read "null" "0")
  | JArr items =>
      match items with
      | x :: _ => Normal x
      | [] => Normal JUndefined
      end
  | JStr s =>
      match s with
      | String c _ => Normal (JStr (String c EmptyString))
      | EmptyString => Normal JUndefined
      end
  | JObj props =>
      match lookup "0" props with
      | Some x => Normal x
      | None => Normal JUndefined
      end
  | JBool _ | JNum _ => Normal JUndefined
  end.

(** [ToString].  An array prints its elements separated by commas, with
    [null] and [undefined] elements printed as nothing.  A parsed object
    inherits [Object.prototype.toString] unless an own [toString] property
    (never callable in parsed JSON) hides it, in which case no conversion
    to a primitive exists. *)
Fixpoint ToString (v : JsVal) : Completion string :=
  match v with
  | JUndefined => Normal "undefined"
  | JNull => Normal "null"
  | JBool true => Normal "true"
  | JBool false => Normal "false"
  | JNum shown => Normal shown
  | JStr s => Normal s
  | JArr items =>
      let fix elements (l : list JsVal) : Completion (list string) :=
        match l with
        | [] => Normal []
        | x :: rest =>
            let? s := match x with
                    | JUndefined | JNull => Normal ""
                    | _ => ToString x
                    end in
            let? ss := elements rest in
            Normal (s :: ss)
        end in
      let? ss := elements items in
      Normal (String.concat "," ss)
  | JObj props =>
      if hasOwn "toString" props
      then Throw (TypeError "Cannot convert object to primitive value")
      else Normal "[object Object]"
  end.

(** The element conversion of [Array.prototype.join]. *)
Definition joinElement (x : JsVal) : Completion string :=
  match x with
  | JUndefined | JNull => Normal ""
  | _ => ToString x
  end.

Fixpoint traverse {A B} (f : A -> Completion B) (l : list A) : Completion (list B) :=
  match l with
  | [] => Normal []
  | x :: rest =>
      let? y := f x in
      let? ys := traverse f rest in
      Normal (y :: ys)
  end.

(** [items.join(sep)] *)
Definition Array_join (items : list JsVal) (sep : string) : Completion string :=
  let? ss := traverse joinElement items in
  Normal (String.concat sep ss).

(** [items.filter(callback)], where the callback may throw. *)
Fixpoint Array_filter (callback : JsVal -> Completion JsVal) (items : list JsVal)
  : Completion (list JsVal) :=
  match items with
  | [] => Normal []
  | x :: rest =>
      let? keep := callback x in
      let? kept := Array_filter callback rest in
      Normal (if truthy keep then x :: kept else kept)
  end.

(** [items.map(callback)] *)
Definition Array_map (callback : JsVal -> Completion JsVal) (items : list JsVal)
  : Completion (list JsVal) :=
  traverse callback items.

(** Decimal text of an integer, as a template literal prints it. *)
Definition showZ (z : Z) : string :=
  DecimalString.NilZero.string_of_int (Z.to_int z).

(** Code units that [String.prototype.trim] removes, among those below 256. *)
Definition isWhiteSpace (c : ascii) : bool :=
  let n := nat_of_ascii c in
  (Nat.eqb n 9 || Nat.eqb n 10 || Nat.eqb n 11 || Nat.eqb n 12 || Nat.eqb n 13
   || Nat.eqb n 32 || Nat.eqb n 160)%bool.

Fixpoint trimStart (s : string) : string :=
  match s with
  | String c rest => if isWhiteSpace c then trimStart rest else s
  | EmptyString => EmptyString
  end.

Fixpoint reverse (s : string) : string :=
  match s with
  | EmptyString => EmptyString
  | String c rest => reverse rest ++ String c EmptyString
  end.

(** [s.trim()] *)
Definition trim (s : string) : string :=
  reverse (trimStart (reverse (trimStart s))).

(** [s.startsWith(p)] *)
Definition startsWith (s p : string) : bool := String.prefix p s.

End JS.
Import JS.
Local Open Scope Z_scope.

(** ** Files *)

(** A [File]: display name, declared media type, byte length, content. *)
Record File : Type := mkFile {
  file_name : string;
  file_type : string;
  file_size : Z;
  file_content : string
}.

(** ** js/utils/fileHandler.js *)

Module FileHandler.

(** [static isValidPDF(file)]: [file && file.type === 'application/pdf'];
    the argument may be [null]. *)
Definition isValidPDF (file : option File) : bool :=
  match file with
  | None => false
  | Some f => String.eqb (file_type f) "application/pdf"
  end.

(** [static isValidFileSize(file, maxSizeMB = 20)]; an omitted second
    argument is [None].  Scaling by 1024 is exact on numbers, so the limit
    in bytes is computed on integers. *)
Definition isValidFileSize (file : File) (maxSizeMB : option Z) : bool :=
  let maxSizeMB := match maxSizeMB with Some m => m | None => 20 end in
  let maxSizeBytes := maxSizeMB * 1024 * 1024 in
  file_size file <=? maxSizeBytes.

End FileHandler.

(** ** js/ui/uploadUI.js *)

Module UploadUI.

(** The controller's fields together with the state of the page elements
    it holds references to, and the one entry of [localStorage] it owns. *)
Record t : Type := mk {
  selectedFile : option File;            (* this.selectedFile *)
  apiKey : option string;                (* this.apiKey; [None] is null *)
  storedApiKey : option string;          (* localStorage 'gemini_api_key' *)
  fileInput_value : string;
  apiKeyInput_value : string;
  fileInfo_display : string;
  fileName_textContent : string;
  summarizeBtn_disabled : bool;
  loadingSection_display : string;
  resultSection_display : string;
  summaryContent_textContent : string;
  errorSection_display : string;
  errorMessage_textContent : string
}.

(** [saveApiKey(key)] *)
Definition saveApiKey (key : string) (ui : t) : t :=
  if negb (String.eqb key "")
  then mk (selectedFile ui) (apiKey ui) (Some key)
          (fileInput_value ui) (apiKeyInput_value ui) (fileInfo_display ui)
          (fileName_textContent ui) (summarizeBtn_disabled ui)
          (loadingSection_display ui) (resultSection_display ui)
          (summaryContent_textContent ui) (errorSection_display ui)
          (errorMessage_textContent ui)
  else mk (selectedFile ui) (apiKey ui) None
          (fileInput_value ui) (apiKeyInput_value ui) (fileInfo_display ui)
          (fileName_textContent ui) (summarizeBtn_disabled ui)
          (loadingSection_display ui) (resultSection_display ui)
          (summaryContent_textContent ui) (errorSection_display ui)
          (errorMessage_textContent ui).

(** [loadApiKey()] *)
Definition loadApiKey (ui : t) : option string := storedApiKey ui.

(** [const hasFile = !!this.selectedFile] *)
Definition hasFile (ui : t) : bool :=
  match selectedFile ui with Some _ => true | None => false end.

(** [const hasApiKey = !!this.apiKey && this.apiKey.trim().length > 0] *)
Definition hasApiKey (ui : t) : bool :=
  match apiKey ui with
  | None => false
  | Some key =>
      negb (String.eqb key "") && (0 <? Z.of_nat (String.length (trim key)))
  end.

(** [updateUI()] *)
Definition updateUI (ui : t) : t :=
  mk (selectedFile ui) (apiKey ui) (storedApiKey ui)
     (fileInput_value ui) (apiKeyInput_value ui)
     (if hasFile ui then "block" else "none")
     (match selectedFile ui with
      | Some f => file_name f
      | None => fileName_textContent ui
      end)
     (negb (hasFile ui && hasApiKey ui))
     (loadingSection_display ui) (resultSection_display ui)
     (summaryContent_textContent ui) (errorSection_display ui)
     (errorMessage_textContent ui).

(** [showError(message)] *)
Definition showError (message : string) (ui : t) : t :=
  mk (selectedFile ui) (apiKey ui) (storedApiKey ui)
     (fileInput_value ui) (apiKeyInput_value ui) (fileInfo_display ui)
     (fileName_textContent ui) (summarizeBtn_disabled ui)
     (loadingSection_display ui)
     "none"
     (summaryContent_textContent ui)
     "block"
     message.

(** [showSummary(summary)] *)
Definition showSummary (summary : string) (ui : t) : t :=
  mk (selectedFile ui) (apiKey ui) (storedApiKey ui)
     (fileInput_value ui) (apiKeyInput_value ui) (fileInfo_display ui)
     (fileName_textContent ui) (summarizeBtn_disabled ui)
     (loadingSection_display ui)
     "block"
     summary
     "none"
     (errorMessage_textContent ui).

(** [showLoading()] *)
Definition showLoading (ui : t) : t :=
  mk (selectedFile ui) (apiKey ui) (storedApiKey ui)
     (fileInput_value ui) (apiKeyInput_value ui) (fileInfo_display ui)
     (fileName_textContent ui)
     true
     "block"
     "none"
     (summaryContent_textContent ui)
     "none"
     (errorMessage_textContent ui).

(** [hideLoading()] *)
Definition hideLoading (ui : t) : t :=
  updateUI
    (mk (selectedFile ui) (apiKey ui) (storedApiKey ui)
        (fileInput_value ui) (apiKeyInput_value ui) (fileInfo_display ui)
        (fileName_textContent ui)
        false
        "none"
        (resultSection_display ui)
        (summaryContent_textContent ui) (errorSection_display ui)
        (errorMessage_textContent ui)).

(** [handleFileSelect(file)]; [None] is the [undefined] of an empty
    file list. *)
Definition handleFileSelect (file : option File) (ui : t) : t :=
  match file with
  | None => ui
  | Some f =>
      if negb (String.eqb (file_type f) "application/pdf")
      then showError "Please select a PDF file" ui
      else updateUI
             (mk (Some f) (apiKey ui) (storedApiKey ui)
                 (fileInput_value ui) (apiKeyInput_value ui) (fileInfo_display ui)
                 (fileName_textContent ui) (summarizeBtn_disabled ui)
                 (loadingSection_display ui) (resultSection_display ui)
                 (summaryContent_textContent ui) (errorSection_display ui)
                 (errorMessage_textContent ui))
  end.

(** [clearFile()] *)
Definition clearFile (ui : t) : t :=
  updateUI
    (mk None (apiKey ui) (storedApiKey ui)
        "" (apiKeyInput_value ui) (fileInfo_display ui)
        (fileName_textContent ui) (summarizeBtn_disabled ui)
        (loadingSection_display ui) (resultSection_display ui)
        (summaryContent_textContent ui) (errorSection_display ui)
        (errorMessage_textContent ui)).

(** The listener of the key field's [input] event:
    [this.apiKey = e.target.value; this.saveApiKey(this.apiKey); this.updateUI()]. *)
Definition onApiKeyInput (value : string) (ui : t) : t :=
  updateUI
    (saveApiKey value
       (mk (selectedFile ui) (Some value) (storedApiKey ui)
           (fileInput_value ui) value (fileInfo_display ui)
           (fileName_textContent ui) (summarizeBtn_disabled ui)
           (loadingSection_display ui) (resultSection_display ui)
           (summaryContent_textContent ui) (errorSection_display ui)
           (errorMessage_textContent ui))).

(** [constructor()], run on the page as loaded: [page] gives the elements'
    initial state and the stored key. *)
Definition constructor (page : t) : t :=
  let key := loadApiKey page in
  updateUI
    (mk None key (storedApiKey page)
        (fileInput_value page)
        (match key with
         | Some k => if negb (String.eqb k "") then k else apiKeyInput_value page
         | None => apiKeyInput_value page
         end)
        (fileInfo_display page)
        (fileName_textContent page) (summarizeBtn_disabled page)
        (loadingSection_display page) (resultSection_display page)
        (summaryContent_textContent page) (errorSection_display page)
        (errorMessage_textContent page)).

(** [getSelectedFile()] *)
Definition getSelectedFile (ui : t) : option File := selectedFile ui.

(** [getApiKey()] *)
Definition getApiKey (ui : t) : option string := apiKey ui.

(** What can happen to the controller between two runs of the workflow:
    the user's actions on the page and the calls the application makes. *)
Inductive action : Type :=
| SelectFile (file : option File)   (* change and drop listeners *)
| RemoveFile                        (* click on the remove button *)
| TypeApiKey (value : string)       (* input listener *)
| ShowLoading
| HideLoading
| ShowSummary (summary : string)
| ShowError (message : string).

Definition perform (a : action) (ui : t) : t :=
  match a with
  | SelectFile file => handleFileSelect file ui
  | RemoveFile => clearFile ui
  | TypeApiKey value => onApiKeyInput value ui
  | ShowLoading => showLoading ui
  | HideLoading => hideLoading ui
  | ShowSummary summary => showSummary summary ui
  | ShowError message => showError message ui
  end.

(** The states the controller can be in: constructed, then acted upon. *)
Inductive reachable : t -> Prop :=
| reachable_init (page : t) : reachable (constructor page)
| reachable_step (a : action) (ui : t) : reachable ui -> reachable (perform a ui).

End UploadUI.

(** ** Objects of js/api/gemini.js and js/app.js *)

(** A [GeminiClient]; [new GeminiClient(apiKey)] is [newGeminiClient]. *)
Record GeminiClient : Type := mkClient {
  apiKey : string;
  baseUrl : string
}.

Definition newGeminiClient (apiKey : string) : GeminiClient :=
  mkClient apiKey "https://generativelanguage.googleapis.com/v1beta".

(** A [PDFSummarizerApp]; [geminiClient] is [null] until a run sets it. *)
Record PDFSummarizerApp : Type := mkApp {
  ui : UploadUI.t;
  geminiClient : option GeminiClient
}.

(** ** The browser: requests, responses and events *)

Module Browser.

(** A part of a multipart form. *)
Inductive FormEntry : Type :=
| FileEntry (name : string) (file : File) (filename : string)
    (* [formData.append(name, file, filename)] *)
| BlobEntry (name : string) (json : JsVal) (type : string).
    (* [formData.append(name, new Blob([JSON.stringify(json)], { type }))] *)

Inductive Body : Type :=
| NoBody
| FormData (entries : list FormEntry)
| JSON_stringify (v : JsVal).

(** The second argument of [fetch]. *)
Record RequestInit : Type := mkInit {
  method : string;
  headers : list (string * string);
  body : Body
}.

(** A [Response].  [text] is what [response.text()] resolves to, [json]
    what [response.json()] and [JSON.parse] of that text complete with. *)
Record Response : Type := mkResponse {
  status : Z;
  statusText : string;
  text : string;
  json : Completion JsVal
}.

(** [response.ok] *)
Definition ok (r : Response) : bool := (200 <=? status r) && (status r <=? 299).

(** An argument of a console call. *)
Inductive LogArg : Type :=
| LVal (v : JsVal)
| LExn (e : Exception).

(** What an asynchronous method asks of the browser, with the type of the
    answer it waits for. *)
Variant browserE : Type -> Type :=
| Fetch (url : string) (init : RequestInit) : browserE (Completion Response)
    (* [await fetch(url, init)]; an exception is a rejection *)
| SetTimeout (ms : Z) : browserE unit
    (* [await new Promise(resolve => setTimeout(resolve, ms))] *)
| ReadAsDataURL (file : File) : browserE (option string)
    (* [reader.readAsDataURL(file)]: [onload] with [reader.result], or [onerror] *)
| Console (level : string) (args : list LogArg) : browserE unit
| StatusUpdate (state : JsVal) : browserE unit
    (* the effect of a progress callback that records its argument *)
| GetThis : browserE PDFSummarizerApp
| SetThis (app : PDFSummarizerApp) : browserE unit.
    (* reads and writes of the application object's fields *)

(** An [async] method returning [A]. *)
Definition Async (A : Type) : Type := itree browserE (Completion A).

Definition ret {A} (a : A) : Async A := Ret (Normal a).

Definition throw {A} (e : Exception) : Async A := Ret (Throw e).

Definition bind {A B} (m : Async A) (k : A -> Async B) : Async B :=
  ITree.bind m (fun c =>
    match c with
    | Normal a => k a
    | Throw e => Ret (Throw e)
    end).

(** A synchronous evaluation inside an [async] method. *)
Definition eval {A} (c : Completion A) : Async A := Ret c.

(** An event that cannot fail. *)
Definition request {A} (e : browserE A) : Async A :=
  ITree.bind (ITree.trigger e) (fun a => Ret (Normal a)).

(** [await fetch(url, init)] *)
Definition fetch (url : string) (init : RequestInit) : Async Response :=
  ITree.trigger (Fetch url init).

(** [try { body } catch (error) { handler }] *)
Definition tryCatch {A} (body : Async A) (handler : Exception -> Async A) : Async A :=
  ITree.bind body (fun c =>
    match c with
    | Normal a => Ret (Normal a)
    | Throw e => handler e
    end).

(** [while (cond) { body }] over the variables [S] the loop assigns. *)
Definition while {S} (cond : S -> Completion bool) (body : S -> Async S) (s : S)
  : Async S :=
  ITree.iter (fun s =>
    match cond s with
    | Throw e => Ret (inr (Throw e))
    | Normal false => Ret (inr (Normal s))
    | Normal true =>
        ITree.bind (body s) (fun c =>
          match c with
          | Normal s' => Ret (inl s')
          | Throw e => Ret (inr (Throw e))
          end)
    end) s.

(** [new Error(message)] *)
Definition newError (message : JsVal) : Completion Exception :=
  let? s := ToString message in
  Normal (Error s).

(** [error.message] of a caught value. *)
Definition messageOf (e : Exception) : JsVal :=
  match e with
  | Error m | TypeError m | SyntaxError m => JStr m
  | ProgressEvent => JUndefined
  end.

(** [s.split(',')[1]] *)
Fixpoint upToComma (s : string) : string :=
  match s with
  | EmptyString => EmptyString
  | String c rest =>
      if Ascii.eqb c "," then EmptyString else String c (upToComma rest)
  end.

Fixpoint splitComma1 (s : string) : JsVal :=
  match s with
  | EmptyString => JUndefined
  | String c rest =>
      if Ascii.eqb c "," then JStr (upToComma rest) else splitComma1 rest
  end.

End Browser.
Import Browser.

Declare Scope async_scope.
Delimit Scope async_scope with async.
Notation "x <-- m ;; k" := (Browser.bind m (fun x => k))
  (at level 61, m at next level, right associativity) : async_scope.
Notation "m ;;; k" := (Browser.bind m (fun _ => k))
  (at level 61, right associativity) : async_scope.
Local Open Scope async_scope.

(** ** js/api/gemini.js *)

Module GeminiClient.

(** The line feed of ['\n']. *)
Definition LF : string := String (ascii_of_nat 10) EmptyString.

(** The value [uploadFileBase64] resolves with. *)
Record FileData : Type := mkFileData {
  name : string;
  mimeType : string;
  data : JsVal
}.

(** [async uploadFile(file)] *)
Definition uploadFile (this : GeminiClient) (file : File) : Async JsVal :=
  let formData := [FileEntry "file" file (file_name file)] in
  let metadata := JObj [("displayName", JStr (file_name file))] in
  let formData := formData ++ [BlobEntry "metadata" metadata "application/json"] in
  request (Console "log" [LVal (JStr "Uploading file:"); LVal (JStr (file_name file));
                          LVal (JStr "Size:"); LVal (JNum (showZ (file_size file)))]) ;;;
  response <-- fetch (baseUrl this ++ "/files?key=" ++ apiKey this)
                     (mkInit "POST" [] (FormData formData)) ;;
  let responseText := text response in
  request (Console "log" [LVal (JStr "Response status:");
                          LVal (JNum (showZ (status response)))]) ;;;
  request (Console "log" [LVal (JStr "Response text:"); LVal (JStr responseText)]) ;;;
  if negb (ok response) then
    match json response with
    | Throw _ =>
        throw (Error ("Failed to upload file: " ++ showZ (status response)
                      ++ " " ++ statusText response))
    | Normal error =>
        e <-- eval (let? inner := getProp error "error" in
                    let? message := getPropOpt inner "message" in
                    newError (or_else message
                                (JStr ("Failed to upload file: "
                                       ++ showZ (status response))))) ;;
        throw e
    end
  else if String.eqb responseText ""
          || String.eqb (trim responseText) ""
          || String.eqb responseText "{}" then
    request (Console "warn"
      [LVal (JStr "Empty response received. This might indicate a CORS issue or API format problem.")]) ;;;
    throw (Error "File upload returned empty response. Trying alternative method...")
  else
    match json response with
    | Throw _ => throw (Error ("Invalid JSON response: " ++ responseText))
    | Normal result =>
        request (Console "log" [LVal (JStr "Upload result:"); LVal result]) ;;;
        ret result
    end.

(** [async uploadFileBase64(file)] *)
Definition uploadFileBase64 (this : GeminiClient) (file : File) : Async FileData :=
  result <-- request (ReadAsDataURL file) ;;
  match result with
  | Some reader_result =>
      let base64 := splitComma1 reader_result in
      ret (mkFileData (file_name file) (file_type file) base64)
  | None => throw ProgressEvent
  end.

(** [async getFileStatus(fileName)] *)
Definition getFileStatus (this : GeminiClient) (fileName : string) : Async JsVal :=
  let filePath :=
    if startsWith fileName "files/" then fileName else ("files/" ++ fileName)%string in
  response <-- fetch (baseUrl this ++ "/" ++ filePath ++ "?key=" ++ apiKey this)
                     (mkInit "GET" [] NoBody) ;;
  if negb (ok response) then
    let errorText := text response in
    match json response with
    | Throw _ =>
        throw (Error ("Failed to get file status: " ++ showZ (status response)
                      ++ " " ++ statusText response))
    | Normal error =>
        e <-- eval (let? inner := getProp error "error" in
                    let? message := getPropOpt inner "message" in
                    newError (or_else message (JStr "Failed to get file status"))) ;;
        throw e
    end
  else
    eval (json response).

(** [const getState = (status) => status.state || status.file?.state] *)
Definition getState (status : JsVal) : Completion JsVal :=
  let? state := getProp status "state" in
  if truthy state then Normal state
  else
    let? file := getProp status "file" in
    getPropOpt file "state".

(** [async waitForFileProcessing(fileName, onStatusUpdate = null)] *)
Definition waitForFileProcessing (this : GeminiClient) (fileName : string)
    (onStatusUpdate : option (JsVal -> Async unit)) : Async JsVal :=
  fileStatus <-- getFileStatus this fileName ;;
  fileStatus <--
    while (fun fileStatus =>
             let? state := getState fileStatus in
             Normal (strict_eq_str state "PROCESSING"))
          (fun fileStatus =>
             currentState <-- eval (getState fileStatus) ;;
             match onStatusUpdate with
             | Some callback => callback currentState
             | None => ret tt
             end ;;;
             request (SetTimeout 5000) ;;;
             getFileStatus this fileName)
          fileStatus ;;
  failed <-- eval (let? state := getState fileStatus in
                   Normal (strict_eq_str state "FAILED")) ;;
  if (failed : bool) then throw (Error "File processing failed")
  else ret fileStatus.

(** [parts.filter(part => part.text)] on whatever [parts] is. *)
Definition parts_filter (parts : JsVal) : Completion (list JsVal) :=
  match parts with
  | JArr items => Array_filter (fun part => getProp part "text") items
  | JUndefined => Throw (cannot_read "undefined" "filter")
  | JNull => Throw (cannot_read "null" "filter")
  | _ => Throw (TypeError "result.candidates[0].content.parts.filter is not a function")
  end.

(** Lines 188 to 195: what [generateSummary] makes of the parsed body. *)
Definition generateSummary_result (result : JsVal) : Completion string :=
  let? cond :=
    let? candidates := getProp result "candidates" in
    if negb (truthy candidates) then Normal candidates
    else
      let? first := (let? candidates := getProp result "candidates" in
                     getIndex0 candidates) in
      if negb (truthy first) then Normal first
      else
        let? candidates := getProp result "candidates" in
        let? first := getIndex0 candidates in
        getProp first "content" in
  if truthy cond then
    let? candidates := getProp result "candidates" in
    let? first := getIndex0 candidates in
    let? content := getProp first "content" in
    let? parts := getProp content "parts" in
    let? filtered := parts_filter parts in
    let? textParts := Array_map (fun part => getProp part "text") filtered in
    Array_join textParts LF
  else
    Throw (Error "No summary generated").

(** [async generateSummary(fileUri, mimeType)] *)
Definition generateSummary (this : GeminiClient) (fileUri mimeType : string)
  : Async string :=
  let requestBody :=
    JObj [("contents", JArr [JObj [("parts", JArr [
      JObj [("text", JStr "Summarize this document")];
      JObj [("fileData", JObj [("fileUri", JStr fileUri);
                               ("mimeType", JStr mimeType)])]])]])] in
  response <-- fetch (baseUrl this ++ "/models/gemini-2.5-flash:generateContent?key="
                      ++ apiKey this)
                     (mkInit "POST" [("Content-Type", "application/json")]
                             (JSON_stringify requestBody)) ;;
  if negb (ok response) then
    error <-- eval (json response) ;;
    e <-- eval (let? inner := getProp error "error" in
                let? message := getPropOpt inner "message" in
                newError (or_else message (JStr "Failed to generate summary"))) ;;
    throw e
  else
    result <-- eval (json response) ;;
    eval (generateSummary_result result).

(** Lines 243 to 250: what [generateSummaryFromBase64] makes of the
    parsed body. *)
Definition generateSummaryFromBase64_result (result : JsVal) : Completion string :=
  let? cond :=
    let? candidates := getProp result "candidates" in
    if negb (truthy candidates) then Normal candidates
    else
      let? first := (let? candidates := getProp result "candidates" in
                     getIndex0 candidates) in
      if negb (truthy first) then Normal first
      else
        let? candidates := getProp result "candidates" in
        let? first := getIndex0 candidates in
        getProp first "content" in
  if truthy cond then
    let? candidates := getProp result "candidates" in
    let? first := getIndex0 candidates in
    let? content := getProp first "content" in
    let? parts := getProp content "parts" in
    let? filtered := parts_filter parts in
    let? textParts := Array_map (fun part => getProp part "text") filtered in
    Array_join textParts LF
  else
    Throw (Error "No summary generated").

(** [async generateSummaryFromBase64(base64Data, mimeType)]; [base64Data]
    is whatever [split(',')[1]] gave. *)
Definition generateSummaryFromBase64 (this : GeminiClient) (base64Data : JsVal)
    (mimeType : string) : Async string :=
  let requestBody :=
    JObj [("contents", JArr [JObj [("parts", JArr [
      JObj [("text", JStr "Summarize this document")];
      JObj [("inlineData", JObj [("mimeType", JStr mimeType);
                                 ("data", base64Data)])]])]])] in
  response <-- fetch (baseUrl this ++ "/models/gemini-2.5-flash:generateContent?key="
                      ++ apiKey this)
                     (mkInit "POST" [("Content-Type", "application/json")]
                             (JSON_stringify requestBody)) ;;
  if negb (ok response) then
    let errorText := text response in
    match json response with
    | Throw _ =>
        throw (Error ("Failed to generate summary: " ++ showZ (status response)
                      ++ " " ++ statusText response))
    | Normal error =>
        e <-- eval (let? inner := getProp error "error" in
                    let? message := getPropOpt inner "message" in
                    newError (or_else message (JStr "Failed to generate summary"))) ;;
        throw e
    end
  else
    result <-- eval (json response) ;;
    eval (generateSummaryFromBase64_result result).

End GeminiClient.

(** ** js/utils/fileHandler.js, the asynchronous method *)

Module FileHandlerAsync.

(** [static async fileToBase64(file)] of [FileHandler]. *)
Definition fileToBase64 (file : File) : Async JsVal :=
  result <-- request (ReadAsDataURL file) ;;
  match result with
  | Some reader_result => ret (splitComma1 reader_result)
  | None => throw ProgressEvent
  end.

End FileHandlerAsync.

(** ** js/app.js *)

Module PDFSummarizerApp.

(** [this.ui.method(...)], for a method [f] that updates the controller. *)
Definition ui_call (f : UploadUI.t -> UploadUI.t) : Async unit :=
  this <-- request GetThis ;;
  request (SetThis (mkApp (f (ui this)) (geminiClient this))).

(** [this.geminiClient], to call a method on it. *)
Definition this_geminiClient (method : string) : Async GeminiClient :=
  this <-- request GetThis ;;
  match geminiClient this with
  | Some client => ret client
  | None => throw (cannot_read "null" method)
  end.

(** [async handleSummarize()] *)
Definition handleSummarize : Async unit :=
  this <-- request GetThis ;;
  let file := UploadUI.getSelectedFile (ui this) in
  let apiKey := UploadUI.getApiKey (ui this) in
  match file, apiKey with
  | Some file, Some apiKey =>
      if String.eqb apiKey "" then
        ui_call (UploadUI.showError "Please select a PDF file and enter your API key")
      else if negb (FileHandler.isValidPDF (Some file)) then
        ui_call (UploadUI.showError "Please select a valid PDF file")
      else if negb (FileHandler.isValidFileSize file None) then
        ui_call (UploadUI.showError "File size exceeds 20MB limit")
      else
        tryCatch
          (ui_call UploadUI.showLoading ;;;
           (this <-- request GetThis ;;
            request (SetThis (mkApp (ui this) (Some (newGeminiClient apiKey))))) ;;;
           client <-- this_geminiClient "uploadFileBase64" ;;
           fileData <-- GeminiClient.uploadFileBase64 client file ;;
           client <-- this_geminiClient "generateSummaryFromBase64" ;;
           summary <-- GeminiClient.generateSummaryFromBase64 client
                         (GeminiClient.data fileData)
                         (GeminiClient.mimeType fileData) ;;
           ui_call UploadUI.hideLoading ;;;
           ui_call (UploadUI.showSummary summary))
          (fun error =>
             request (Console "error" [LVal (JStr "Error:"); LExn error]) ;;;
             ui_call UploadUI.hideLoading ;;;
             message <-- eval (ToString (or_else (messageOf error)
                                           (JStr "An unexpected error occurred"))) ;;
             ui_call (UploadUI.showError ("Error: " ++ message)))
  | _, _ =>
      (* [!file || !apiKey] *)
      ui_call (UploadUI.showError "Please select a PDF file and enter your API key")
  end.

End PDFSummarizerApp.

(** ** Runs against a scripted browser *)

(** What a run leaves behind, in order. *)
Inductive LogEntry : Type :=
| Requested (url : string) (init : RequestInit)
| Slept (ms : Z)
| FileRead (file : File)
| Logged (level : string) (args : list LogArg)
| Notified (state : JsVal).

(** The application object, the answers the network and the file reader
    will give to the coming requests, and the log of the run so far. *)
Record World : Type := mkWorld {
  application : PDFSummarizerApp;
  network : list (Completion Response);
  reader : list (option string);
  log : list LogEntry
}.

(** The browser answers each event from the world; a request that has no
    answer in the script stays pending for ever. *)
Definition handle : forall T, browserE T -> Monads.stateT World (itree void1) T :=
  fun T e w =>
    match e in browserE T return itree void1 (World * T) with
    | Fetch url init =>
        match network w with
        | answer :: rest =>
            Ret (mkWorld (application w) rest (reader w) (log w ++ [Requested url init]),
                 answer)
        | [] => ITree.spin
        end
    | SetTimeout ms =>
        Ret (mkWorld (application w) (network w) (reader w) (log w ++ [Slept ms]), tt)
    | ReadAsDataURL file =>
        match reader w with
        | answer :: rest =>
            Ret (mkWorld (application w) (network w) rest (log w ++ [FileRead file]), answer)
        | [] => ITree.spin
        end
    | Console level args =>
        Ret (mkWorld (application w) (network w) (reader w) (log w ++ [Logged level args]), tt)
    | StatusUpdate state =>
        Ret (mkWorld (application w) (network w) (reader w) (log w ++ [Notified state]), tt)
    | GetThis => Ret (w, application w)
    | SetThis app' => Ret (mkWorld app' (network w) (reader w) (log w), tt)
    end.

Definition run {A} (t : itree browserE A) (w : World) : itree void1 (World * A) :=
  interp_state handle t w.

(** The run of [t] from [w] ends in [w'] with result [a]. *)
Definition ends {A} (t : itree browserE A) (w : World) (w' : World) (a : A) : Prop :=
  run t w ≈ Ret (w', a).

(** * Vocabulary of the properties *)

(** ** Polling *)

(** The status request [getFileStatus] issues. *)
Definition statusRequest (this : GeminiClient) (fileName : string) : LogEntry :=
  Requested
    (baseUrl this ++ "/"
     ++ (if startsWith fileName "files/" then fileName else "files/" ++ fileName)
     ++ "?key=" ++ apiKey this)
    (mkInit "GET" [] NoBody).

(** The answer is a successful status response whose body parses to
    [status], in which [getState] finds [state]. *)
Definition carries (answer : Completion Response) (state : string) (status : JsVal)
  : Prop :=
  exists r, answer = Normal r /\ ok r = true /\ json r = Normal status
            /\ GeminiClient.getState status = Normal (JStr state).

(** A progress callback that records the state it is given. *)
Definition recorder : JsVal -> Async unit := fun state => request (StatusUpdate state).

Definition onStatusUpdate (supplied : bool) : option (JsVal -> Async unit) :=
  if supplied then Some recorder else None.

(** What one turn of the polling loop logs. *)
Definition round (this : GeminiClient) (fileName : string) (supplied : bool)
  : list LogEntry :=
  (if supplied then [Notified (JStr "PROCESSING")] else [])
  ++ [Slept 5000; statusRequest this fileName].

Fixpoint rounds (n : nat) (this : GeminiClient) (fileName : string) (supplied : bool)
  : list LogEntry :=
  match n with
  | O => []
  | S n' => round this fileName supplied ++ rounds n' this fileName supplied
  end.

(** The loop of [waitForFileProcessing], as the method writes it. *)
Definition pollingLoop this fileName supplied : JsVal -> Async JsVal :=
  while (fun fileStatus =>
           let? state := GeminiClient.getState fileStatus in
           Normal (strict_eq_str state "PROCESSING"))
        (fun fileStatus =>
           currentState <-- eval (GeminiClient.getState fileStatus) ;;
           match onStatusUpdate supplied with
           | Some callback => callback currentState
           | None => Browser.ret tt
           end ;;;
           request (SetTimeout 5000) ;;;
           GeminiClient.getFileStatus this fileName).

(** The delays and the callback arguments found in a log. *)
Fixpoint delays (entries : list LogEntry) : list Z :=
  match entries with
  | [] => []
  | Slept ms :: rest => ms :: delays rest
  | _ :: rest => delays rest
  end.

Fixpoint notifications (entries : list LogEntry) : list JsVal :=
  match entries with
  | [] => []
  | Notified state :: rest => state :: notifications rest
  | _ :: rest => notifications rest
  end.

(** The URL of the content-generation endpoint. *)
Definition generationUrl (this : GeminiClient) : string :=
  baseUrl this ++ "/models/gemini-2.5-flash:generateContent?key=" ++ apiKey this.

Definition toGenerationEndpoint (this : GeminiClient) (entry : LogEntry) : Prop :=
  exists init, entry = Requested (generationUrl this) init.

(** ** Upload *)

Definition ingestionRequest (this : GeminiClient) (file : File) : LogEntry :=
  Requested (baseUrl this ++ "/files?key=" ++ apiKey this)
    (mkInit "POST" []
       (FormData [FileEntry "file" file (file_name file);
                  BlobEntry "metadata" (JObj [("displayName", JStr (file_name file))])
                            "application/json"])).

(** The bodies the upload treats as empty. *)
Definition emptyBody (responseText : string) : Prop :=
  responseText = "" \/ trim responseText = "" \/ responseText = "{}".

(** What is sent during an upload that gets an answer. *)
Definition requestsOf (entries : list LogEntry) : list LogEntry :=
  filter (fun entry => match entry with Requested _ _ => true | _ => false end) entries.

(** ** Generation *)

(** The request of the direct-URI strategy. *)
Definition fileDataRequest (this : GeminiClient) (fileUri mimeType : string) : LogEntry :=
  Requested (generationUrl this)
    (mkInit "POST" [("Content-Type", "application/json")]
       (JSON_stringify
          (JObj [("contents", JArr [JObj [("parts", JArr [
             JObj [("text", JStr "Summarize this document")];
             JObj [("fileData", JObj [("fileUri", JStr fileUri);
                                      ("mimeType", JStr mimeType)])]])]])]))).

(** The request of the inline strategy. *)
Definition inlineDataRequest (this : GeminiClient) (base64Data : JsVal)
    (mimeType : string) : LogEntry :=
  Requested (generationUrl this)
    (mkInit "POST" [("Content-Type", "application/json")]
       (JSON_stringify
          (JObj [("contents", JArr [JObj [("parts", JArr [
             JObj [("text", JStr "Summarize this document")];
             JObj [("inlineData", JObj [("mimeType", JStr mimeType);
                                        ("data", base64Data)])]])]])]))).

(** ** Extraction of the summary *)

(** [null] and [undefined], on which a property read throws. *)
Definition nullish (v : JsVal) : bool :=
  match v with
  | JUndefined | JNull => true
  | _ => false
  end.

(** The [text] field of a part, [undefined] when there is none. *)
Definition textOf (part : JsVal) : JsVal :=
  match getProp part "text" with
  | Normal v => v
  | Throw _ => JUndefined
  end.

(** A text-bearing part is one the filter keeps: its text is truthy. *)
Definition textBearing (part : JsVal) : bool := truthy (textOf part).

(** The text fields of the text-bearing parts, in order. *)
Definition textFields (parts : list JsVal) : list JsVal :=
  List.map textOf (filter textBearing parts).

(** [result.candidates[0].content], when every step of the condition
    [result.candidates && result.candidates[0] && result.candidates[0].content]
    is truthy. *)
Definition firstCandidateContent (result : JsVal) : option JsVal :=
  match getProp result "candidates" with
  | Normal candidates =>
      if truthy candidates then
        match getIndex0 candidates with
        | Normal first =>
            if truthy first then
              match getProp first "content" with
              | Normal content => if truthy content then Some content else None
              | Throw _ => None
              end
            else None
        | Throw _ => None
        end
      else None
  | Throw _ => None
  end.

(** The parts of the first candidate's content, when they form an array. *)
Definition contentParts (result : JsVal) : option (list JsVal) :=
  match firstCandidateContent result with
  | Some content =>
      match getProp content "parts" with
      | Normal (JArr items) => Some items
      | _ => None
      end
  | None => None
  end.

(** Whether the response has a text-bearing part in the first candidate's
    content. *)
Definition hasTextPart (result : JsVal) : bool :=
  match contentParts result with
  | Some items => existsb textBearing items
  | None => false
  end.

(** ** What a method can ask of the browser *)

(** [performs P Q t]: whatever the browser answers, [t] performs only
    events that satisfy [P], and completes after finitely many of them
    with a result that satisfies [Q]. *)
Inductive performs (P : forall T, browserE T -> Prop) {R : Type} (Q : R -> Prop)
  : itree browserE R -> Prop :=
| performs_ret t r :
    observe t = RetF r -> Q r -> performs P Q t
| performs_tau t t' :
    observe t = TauF t' -> performs P Q t' -> performs P Q t
| performs_vis t T (e : browserE T) k :
    observe t = VisF e k -> P T e -> (forall x, performs P Q (k x)) ->
    performs P Q t.

(** The same, whatever the result. *)
Definition performsOnly (P : forall T, browserE T -> Prop) {R : Type}
    (t : itree browserE R) : Prop :=
  performs P (fun _ => True) t.

(** The events of the inline strategy: reading the file, one generation
    request carrying inline data, the console and the application object;
    no timer and no progress callback. *)
Definition inlineWorkflowEvent : forall T, browserE T -> Prop :=
  fun T e =>
    match e with
    | Fetch url init =>
        exists client base64Data mimeType,
          Requested url init = inlineDataRequest client base64Data mimeType
    | SetTimeout _ => False
    | StatusUpdate _ => False
    | ReadAsDataURL _ => True
    | Console _ _ => True
    | GetThis => True
    | SetThis _ => True
    end.

(** [uploadFileBase64] only reads the file. *)
Definition readsFile : forall T, browserE T -> Prop :=
  fun T e => match e with ReadAsDataURL _ => True | _ => False end.

(** [generateSummaryFromBase64] only sends its inline-data request. *)
Definition sendsInlineData : forall T, browserE T -> Prop :=
  fun T e =>
    match e with
    | Fetch url init =>
        exists client base64Data mimeType,
          Requested url init = inlineDataRequest client base64Data mimeType
    | _ => False
    end.

(** The log entries the inline strategy can leave. *)
Definition inlineEntry (entry : LogEntry) : Prop :=
  match entry with
  | Requested url init =>
      exists client base64Data mimeType,
        entry = inlineDataRequest client base64Data mimeType
  | FileRead _ => True
  | Logged _ _ => True
  | Slept _ => False
  | Notified _ => False
  end.

(** The run has added entries satisfying [Q] to the log. *)
Definition logged (Q : LogEntry -> Prop) (w w' : World) : Prop :=
  exists entries, log w' = log w ++ entries /\ Forall Q entries.

(** ** The orchestrator *)

(** The inputs the validation rejects. *)
Definition invalidInput (u : UploadUI.t) : Prop :=
  UploadUI.selectedFile u = None
  \/ UploadUI.apiKey u = None
  \/ UploadUI.apiKey u = Some ""
  \/ (exists file, UploadUI.selectedFile u = Some file
                   /\ file_type file <> "application/pdf")
  \/ (exists file, UploadUI.selectedFile u = Some file
                   /\ file_size file > 20 * 2 ^ 20).

(** The reasons the validation gives. *)
Definition validationMessages : list string :=
  ["Please select a PDF file and enter your API key";
   "Please select a valid PDF file";
   "File size exceeds 20MB limit"].

(** What the controller maintains: an enabled trigger means a selected
    file and a key that is not blank; a selected file is a PDF. *)
Definition consistent (u : UploadUI.t) : Prop :=
  (UploadUI.summarizeBtn_disabled u = false ->
   UploadUI.hasFile u && UploadUI.hasApiKey u = true)
  /\ (forall file, UploadUI.selectedFile u = Some file ->
                   file_type file = "application/pdf").

(** The message the catch block shows:
    [error.message || 'An unexpected error occurred']. *)
Definition shownMessage (error : Exception) : string :=
  match messageOf error with
  | JStr m => if String.eqb m "" then "An unexpected error occurred" else m
  | _ => "An unexpected error occurred"
  end.

(** The events of the two client calls of the workflow. *)
Definition clientEvent : forall T, browserE T -> Prop :=
  fun T e => readsFile T e \/ sendsInlineData T e.

(** The world in which the client is called: loading shown, client set. *)
Definition loading (w : World) (key : string) : World :=
  mkWorld (mkApp (UploadUI.showLoading (ui (application w)))
                 (Some (newGeminiClient key)))
          (network w) (reader w) (log w).

(** One of the two client calls of the workflow throws [error], leaving
    the world [w2]. *)
Definition clientFails (w : World) (file : File) (key : string)
    (error : Exception) (w2 : World) : Prop :=
  ends (GeminiClient.uploadFileBase64 (newGeminiClient key) file)
       (loading w key) w2 (Throw error)
  \/ exists fileData w1,
       ends (GeminiClient.uploadFileBase64 (newGeminiClient key) file)
            (loading w key) w1 (Normal fileData)
       /\ ends (GeminiClient.generateSummaryFromBase64 (newGeminiClient key)
                  (GeminiClient.data fileData) (GeminiClient.mimeType fileData))
               w1 w2 (Throw error).

(** ** Sample runs *)

Module Sample.

Definition DQ : string := String (ascii_of_nat 34) EmptyString.

Definition file : File :=
  mkFile "report.pdf" "application/pdf" 2097152 "%PDF-1.7".

Definition client : GeminiClient := newGeminiClient "KEY".

(** The page as loaded, nothing stored. *)
Definition page : UploadUI.t :=
  UploadUI.mk None None None "" "" "none" "" true "none" "none" "" "none" "".

(** The controller after the user typed a key and selected the file. *)
Definition controller : UploadUI.t :=
  UploadUI.perform (UploadUI.SelectFile (Some file))
    (UploadUI.perform (UploadUI.TypeApiKey "KEY") (UploadUI.constructor page)).

(** A status response [{"state": state}]. *)
Definition statusResponse (state : string) : Completion Response :=
  Normal (mkResponse 200 "OK"
            ("{" ++ DQ ++ "state" ++ DQ ++ ":" ++ DQ ++ state ++ DQ ++ "}")
            (Normal (JObj [("state", JStr state)]))).

(** A generation response whose first candidate has the given parts. *)
Definition generated (bodyText : string) (parts : list JsVal) : Completion Response :=
  Normal (mkResponse 200 "OK" bodyText
            (Normal (JObj [("candidates",
               JArr [JObj [("content", JObj [("parts", JArr parts)])]])]))).

Definition world (u : UploadUI.t) (answers : list (Completion Response))
    (reads : list (option string)) : World :=
  mkWorld (mkApp u None) answers reads [].



(** The answer of a gateway in front of the service that is down: status
    502 and an HTML page, on which [JSON.parse] throws. *)
Definition badGateway : Response :=
  mkResponse 502 "Bad Gateway" "<html><body>502 Bad Gateway</body></html>"
             (Throw (SyntaxError "Unexpected token < in JSON at position 0")).

End Sample.

(** ** Further vocabulary *)

(** [error.error?.message] of a parsed error body. *)
Definition serviceMessage (error : JsVal) : Completion JsVal :=
  let? inner := getProp error "error" in
  getPropOpt inner "message".

(** A string without a comma. *)
Fixpoint noComma (s : string) : bool :=
  match s with
  | EmptyString => true
  | String c rest => negb (Ascii.eqb c ",") && noComma rest
  end.

(** The result and the error sections are not both displayed. *)
Definition exclusive (u : UploadUI.t) : Prop :=
  ~ (UploadUI.resultSection_display u = "block"
     /\ UploadUI.errorSection_display u = "block").

(** The controller's states from a given page on. *)
Inductive reachableFrom (page : UploadUI.t) : UploadUI.t -> Prop :=
| from_init : reachableFrom page (UploadUI.constructor page)
| from_step (a : UploadUI.action) (u : UploadUI.t) :
    reachableFrom page u -> reachableFrom page (UploadUI.perform a u).

(** The requests of a client: the client's base URL, a path, and the key
    as the only query parameter; nothing but requests and console output. *)
Definition keyedRequest (this : GeminiClient) : forall T, browserE T -> Prop :=
  fun T e =>
    match e with
    | Fetch url init =>
        exists path, url = (baseUrl this ++ path ++ "?key=" ++ apiKey this)%string
    | Console _ _ => True
    | _ => False
    end.

(** The world of a run that passed validation with [file] and [key]. *)
Definition validInput (w : World) (file : File) (key : string) : Prop :=
  UploadUI.selectedFile (ui (application w)) = Some file
  /\ UploadUI.apiKey (ui (application w)) = Some key
  /\ key <> ""
  /\ file_type file = "application/pdf"
  /\ file_size file <= 20 * 2 ^ 20.

(** [new Error(error.error?.message || fallback)], as the methods build
    the exception of an HTTP failure. *)
Definition failureOf (error : JsVal) (fallback : string) : Completion Exception :=
  let? inner := getProp error "error" in
  let? message := getPropOpt inner "message" in
  newError (or_else message (JStr fallback)).

(** What is thrown for an HTTP failure whose body parsed to [error]. *)
Definition thrownFor (error : JsVal) (fallback : string) : Exception :=
  match failureOf error fallback with
  | Normal e => e
  | Throw e => e
  end.

(** An HTTP failure whose body is not JSON. *)
Definition unparsableFailure (answer : Completion Response) : Prop :=
  exists r e, answer = Normal r /\ ok r = false /\ json r = Throw e.

(** What [getFileStatus] completes with, by the answer to its request. *)
Definition statusOutcome (answer : Completion Response) : Completion JsVal :=
  match answer with
  | Throw e => Throw e
  | Normal r =>
      if ok r then json r
      else
        match json r with
        | Throw _ =>
            Throw (Error ("Failed to get file status: " ++ showZ (status r)
                          ++ " " ++ statusText r))
        | Normal error => Throw (thrownFor error "Failed to get file status")
        end
  end.

(** The answer ends the polling: it is no status in state PROCESSING. *)
Definition stopsPolling (answer : Completion Response) : Prop :=
  forall status state,
    statusOutcome answer = Normal status ->
    GeminiClient.getState status = Normal state ->
    strict_eq_str state "PROCESSING" = false.

(** What [waitForFileProcessing] completes with, by the answer that ends
    the polling. *)
Definition pollingResult (answer : Completion Response) : Completion JsVal :=
  let? status := statusOutcome answer in
  let? state := GeminiClient.getState status in
  if strict_eq_str state "FAILED" then Throw (Error "File processing failed")
  else Normal status.

(** * Properties *)

(** ** Validation *)

(** C8: the size check holds exactly when the byte length is at most the
    configured limit, the boundary included, and the default limit is
    20 * 2^20 bytes. *)
Theorem isValidFileSize_spec :
  (forall (file : File) (maxSizeMB : Z),
      FileHandler.isValidFileSize file (Some maxSizeMB) = true
      <-> file_size file <= maxSizeMB * 1024 * 1024)
  /\ (forall (file : File) (maxSizeMB : Z),
      file_size file = maxSizeMB * 1024 * 1024 ->
      FileHandler.isValidFileSize file (Some maxSizeMB) = true)
  /\ (forall (file : File) (maxSizeMB : Z),
      file_size file > maxSizeMB * 1024 * 1024 ->
      FileHandler.isValidFileSize file (Some maxSizeMB) = false)
  /\ (forall file : File,
      FileHandler.isValidFileSize file None = true
      <-> file_size file <= 20 * 2 ^ 20).
Proof.
  unfold FileHandler.isValidFileSize.
  repeat split; intros.
  - apply Z.leb_le; assumption.
  - apply Z.leb_le; assumption.
  - apply Z.leb_le; lia.
  - apply Z.leb_gt; lia.
  - rewrite Z.leb_le in H. change (20 * 2 ^ 20) with (20 * 1024 * 1024). exact H.
  - apply Z.leb_le. change (20 * 2 ^ 20) with (20 * 1024 * 1024) in H. exact H.
Qed.

Lemma default_size_limit file :
  FileHandler.isValidFileSize file None = true <-> file_size file <= 20 * 2 ^ 20.
Proof.
  unfold FileHandler.isValidFileSize. rewrite Z.leb_le.
  change (20 * 2 ^ 20) with (20 * 1024 * 1024). reflexivity.
Qed.

(** ** Reasoning about runs *)

Lemma ends_Ret {A} (a : A) (w : World) : ends (Ret a) w w a.
Proof. unfold ends, run. rewrite interp_state_ret. reflexivity. Qed.

Lemma ends_bind {A B} (t : itree browserE A) (k : A -> itree browserE B) w w1 a w2 b :
  ends t w w1 a -> ends (k a) w1 w2 b -> ends (ITree.bind t k) w w2 b.
Proof.
  unfold ends, run. intros Ht Hk.
  rewrite interp_state_bind, Ht, bind_ret_l. cbn. exact Hk.
Qed.

Lemma ends_trigger {A} (e : browserE A) w w' a :
  handle A e w = Ret (w', a) -> ends (ITree.trigger e) w w' a.
Proof.
  unfold ends, run. intros H. rewrite interp_state_trigger, H. reflexivity.
Qed.

Lemma ends_unique {A} (t : itree browserE A) w w1 a1 w2 a2 :
  ends t w w1 a1 -> ends t w w2 a2 -> w1 = w2 /\ a1 = a2.
Proof.
  unfold ends. intros H1 H2. rewrite H1 in H2.
  apply eutt_inv_Ret in H2. inversion H2. auto.
Qed.

Lemma ends_ret {A} (a : A) w : ends (Browser.ret a) w w (Normal a).
Proof. apply ends_Ret. Qed.

Lemma ends_throw {A} (e : Exception) w : ends (@Browser.throw A e) w w (Throw e).
Proof. apply ends_Ret. Qed.

Lemma ends_eval {A} (c : Completion A) w : ends (eval c) w w c.
Proof. apply ends_Ret. Qed.

Lemma ends_request {A} (e : browserE A) w w' a :
  handle A e w = Ret (w', a) -> ends (request e) w w' (Normal a).
Proof.
  intros H. unfold request.
  eapply ends_bind; [apply ends_trigger; exact H | apply ends_Ret].
Qed.

Lemma ends_fetch url init w answer rest :
  network w = answer :: rest ->
  ends (fetch url init) w
       (mkWorld (application w) rest (reader w) (log w ++ [Requested url init])) answer.
Proof.
  intros H. apply ends_trigger. cbn. rewrite H. reflexivity.
Qed.

(** A normal completion runs the continuation. *)
Lemma ends_then {A B} (m : Async A) (k : A -> Async B) w w1 a w2 c :
  ends m w w1 (Normal a) -> ends (k a) w1 w2 c -> ends (Browser.bind m k) w w2 c.
Proof.
  intros Hm Hk. unfold Browser.bind.
  eapply ends_bind; [exact Hm | exact Hk].
Qed.

Lemma ends_then_eq {A B} (m : Async A) (k : A -> Async B) w w1 c a w2 c2 :
  ends m w w1 c -> c = Normal a -> ends (k a) w1 w2 c2 ->
  ends (Browser.bind m k) w w2 c2.
Proof. intros Hm -> Hk. eapply ends_then; eassumption. Qed.

(** An exception skips the continuation. *)
Lemma ends_abrupt {A B} (m : Async A) (k : A -> Async B) w w1 e :
  ends m w w1 (Throw e) -> ends (Browser.bind m k) w w1 (Throw e).
Proof.
  intros Hm. unfold Browser.bind.
  eapply ends_bind; [exact Hm | apply ends_Ret].
Qed.

Lemma ends_try_normal {A} (body : Async A) handler w w1 a :
  ends body w w1 (Normal a) -> ends (tryCatch body handler) w w1 (Normal a).
Proof.
  intros Hb. unfold tryCatch. eapply ends_bind; [exact Hb | apply ends_Ret].
Qed.

Lemma ends_try_caught {A} (body : Async A) handler w w1 e w2 c :
  ends body w w1 (Throw e) -> ends (handler e) w1 w2 c ->
  ends (tryCatch body handler) w w2 c.
Proof.
  intros Hb Hh. unfold tryCatch. eapply ends_bind; [exact Hb | exact Hh].
Qed.

Lemma ends_while_exit {S} (cond : S -> Completion bool) body (s : S) w :
  cond s = Normal false -> ends (while cond body s) w w (Normal s).
Proof.
  intros Hc. unfold ends, run, while.
  rewrite unfold_iter, Hc, bind_ret_l, interp_state_ret. reflexivity.
Qed.

Lemma ends_while_cond_throws {S} (cond : S -> Completion bool) body (s : S) w e :
  cond s = Throw e -> ends (while cond body s) w w (Throw e).
Proof.
  intros Hc. unfold ends, run, while.
  rewrite unfold_iter, Hc, bind_ret_l, interp_state_ret. reflexivity.
Qed.

Lemma ends_while_again {S} (cond : S -> Completion bool) body (s s' : S) w w1 w2 c :
  cond s = Normal true ->
  ends (body s) w w1 (Normal s') ->
  ends (while cond body s') w1 w2 c ->
  ends (while cond body s) w w2 c.
Proof.
  intros Hc Hb Hrest. unfold ends, run, while in *.
  rewrite unfold_iter, Hc, bind_bind, interp_state_bind, Hb, bind_ret_l.
  cbn. rewrite bind_ret_l, interp_state_tau, tau_eutt. exact Hrest.
Qed.

Lemma ends_while_body_throws {S} (cond : S -> Completion bool) body (s : S) w w1 e :
  cond s = Normal true ->
  ends (body s) w w1 (Throw e) ->
  ends (while cond body s) w w1 (Throw e).
Proof.
  intros Hc Hb. unfold ends, run, while in *.
  rewrite unfold_iter, Hc, bind_bind, interp_state_bind, Hb, bind_ret_l.
  cbn. rewrite bind_ret_l, interp_state_ret. reflexivity.
Qed.

(** ** Polling *)

Lemma getFileStatus_ok this fileName w r rest :
  network w = Normal r :: rest ->
  ok r = true ->
  ends (GeminiClient.getFileStatus this fileName) w
       (mkWorld (application w) rest (reader w) (log w ++ [statusRequest this fileName]))
       (json r).
Proof.
  intros Hnet Hok. unfold GeminiClient.getFileStatus.
  eapply ends_then. { apply ends_fetch. exact Hnet. }
  rewrite Hok. cbn [negb]. apply ends_eval.
Qed.

(** One turn of the loop body: notify, sleep, ask again. *)
Lemma polling_turn this fileName supplied status w r rest :
  GeminiClient.getState status = Normal (JStr "PROCESSING") ->
  network w = Normal r :: rest ->
  ok r = true ->
  ends (currentState <-- eval (GeminiClient.getState status) ;;
        match onStatusUpdate supplied with
        | Some callback => callback currentState
        | None => Browser.ret tt
        end ;;;
        request (SetTimeout 5000) ;;;
        GeminiClient.getFileStatus this fileName)
       w
       (mkWorld (application w) rest (reader w) (log w ++ round this fileName supplied))
       (json r).
Proof.
  intros Hstate Hnet Hok.
  rewrite Hstate.
  eapply ends_then. { apply ends_eval. }
  destruct supplied; cbn [onStatusUpdate].
  - eapply ends_then. { unfold recorder. apply ends_request. reflexivity. }
    eapply ends_then. { apply ends_request. reflexivity. }
    replace (log w ++ round this fileName true)
      with (((log w ++ [Notified (JStr "PROCESSING")]) ++ [Slept 5000])
            ++ [statusRequest this fileName])
      by (unfold round; rewrite <- !app_assoc; reflexivity).
    apply (getFileStatus_ok this fileName
             (mkWorld (application w) (network w) (reader w)
                ((log w ++ [Notified (JStr "PROCESSING")]) ++ [Slept 5000])) r rest);
      assumption.
  - eapply ends_then. { apply ends_ret. }
    eapply ends_then. { apply ends_request. reflexivity. }
    replace (log w ++ round this fileName false)
      with ((log w ++ [Slept 5000]) ++ [statusRequest this fileName])
      by (unfold round; rewrite <- !app_assoc; reflexivity).
    apply (getFileStatus_ok this fileName
             (mkWorld (application w) (network w) (reader w) (log w ++ [Slept 5000])) r rest);
      assumption.
Qed.

Lemma strict_eq_str_other st lit : st <> lit -> strict_eq_str (JStr st) lit = false.
Proof. intros H. cbn. apply String.eqb_neq. exact H. Qed.

(** While the answers carry PROCESSING the loop goes round; the first
    other state ends it. *)
Lemma pollingLoop_ends this fileName supplied :
  forall pending status w final st sf rest,
    Forall (fun a => exists s, carries a "PROCESSING" s) pending ->
    GeminiClient.getState status = Normal (JStr "PROCESSING") ->
    network w = pending ++ final :: rest ->
    carries final st sf ->
    st <> "PROCESSING" ->
    ends (pollingLoop this fileName supplied status) w
         (mkWorld (application w) rest (reader w)
                  (log w ++ rounds (S (length pending)) this fileName supplied))
         (Normal sf).
Proof.
  induction pending as [| a pending IH];
    intros status w final st sf rest Hall Hstate Hnet Hfinal Hst.
  - destruct Hfinal as (r & -> & Hok & Hjson & Hsf).
    cbn [List.app length rounds] in *. rewrite app_nil_r.
    unfold pollingLoop.
    eapply ends_while_again.
    + rewrite Hstate. reflexivity.
    + rewrite <- Hjson. apply polling_turn; eassumption.
    + apply ends_while_exit. rewrite Hsf. cbn [andThen].
      rewrite (strict_eq_str_other _ _ Hst). reflexivity.
  - inversion Hall as [| ? ? (s & r & -> & Hok & Hjson & Hs) Hall']; subst.
    cbn [List.app] in Hnet.
    unfold pollingLoop.
    eapply ends_while_again.
    + rewrite Hstate. reflexivity.
    + rewrite <- Hjson. apply polling_turn; eassumption.
    + fold (pollingLoop this fileName supplied).
      cbn [length]. change (rounds (S (S (length pending))) this fileName supplied)
        with (round this fileName supplied
              ++ rounds (S (length pending)) this fileName supplied).
      rewrite app_assoc.
      apply (IH s (mkWorld (application w) (pending ++ final :: rest) (reader w)
                     (log w ++ round this fileName supplied))
                final st sf rest); auto.
Qed.

(** Any polling sequence: answers carrying PROCESSING, then one carrying
    another state. *)
Lemma waitForFileProcessing_ends this fileName supplied :
  forall pending w final st sf rest,
    Forall (fun a => exists s, carries a "PROCESSING" s) pending ->
    network w = pending ++ final :: rest ->
    carries final st sf ->
    st <> "PROCESSING" ->
    ends (GeminiClient.waitForFileProcessing this fileName (onStatusUpdate supplied)) w
         (mkWorld (application w) rest (reader w)
                  (log w ++ statusRequest this fileName
                         :: rounds (length pending) this fileName supplied))
         (if String.eqb st "FAILED" then Throw (Error "File processing failed")
          else Normal sf).
Proof.
  intros pending w final st sf rest Hall Hnet Hfinal Hst.
  unfold GeminiClient.waitForFileProcessing.
  fold (pollingLoop this fileName supplied).
  assert (Hend : forall w', ends
            (failed <-- eval (let? state := GeminiClient.getState sf in
                              Normal (strict_eq_str state "FAILED")) ;;
             if (failed : bool) then Browser.throw (Error "File processing failed")
             else Browser.ret sf) w' w'
            (if String.eqb st "FAILED" then Throw (Error "File processing failed")
             else Normal sf)).
  { intros w'. destruct Hfinal as (r & _ & _ & _ & Hsf). rewrite Hsf. cbn [andThen].
    eapply ends_then. { apply ends_eval. }
    cbn [strict_eq_str]. destruct (String.eqb st "FAILED").
    - apply ends_throw.
    - apply ends_ret. }
  destruct pending as [| a pending].
  - pose proof Hfinal as (r & -> & Hok & Hjson & Hsf). cbn [List.app] in Hnet.
    eapply ends_then. { rewrite <- Hjson. apply getFileStatus_ok; eassumption. }
    eapply ends_then.
    { apply ends_while_exit. rewrite Hsf. cbn [andThen].
      rewrite (strict_eq_str_other _ _ Hst). reflexivity. }
    apply Hend.
  - inversion Hall as [| ? ? (s & r & -> & Hok & Hjson & Hs) Hall']; subst.
    cbn [List.app] in Hnet.
    eapply ends_then. { rewrite <- Hjson. apply getFileStatus_ok; eassumption. }
    eapply ends_then.
    { apply (pollingLoop_ends this fileName supplied pending s
               (mkWorld (application w) (pending ++ final :: rest) (reader w)
                  (log w ++ [statusRequest this fileName]))
               final st sf rest); auto. }
    cbn [application network reader log].
    replace (log w ++ statusRequest this fileName
                   :: rounds (length (Normal r :: pending)) this fileName supplied)
      with ((log w ++ [statusRequest this fileName])
            ++ rounds (S (length pending)) this fileName supplied)
      by (rewrite <- app_assoc; reflexivity).
    apply Hend.
Qed.

Lemma append_cancel_l (p a b : string) : (p ++ a = p ++ b)%string -> a = b.
Proof.
  induction p as [| c p IH]; cbn; intros H.
  - exact H.
  - inversion H. auto.
Qed.

Lemma statusRequest_not_generation this fileName :
  ~ toGenerationEndpoint this (statusRequest this fileName).
Proof.
  intros [init H]. unfold statusRequest, generationUrl in H.
  injection H as Hurl _.
  apply append_cancel_l in Hurl.
  destruct (startsWith fileName "files/") eqn:Hprefix.
  - destruct fileName as [| c fileName]; cbn -[ascii_dec] in Hprefix; [discriminate |].
    destruct (ascii_dec "f" c) as [<- | _]; [| discriminate].
    cbn in Hurl. discriminate.
  - cbn in Hurl. discriminate.
Qed.

Lemma rounds_not_generation this fileName supplied n entry :
  In entry (rounds n this fileName supplied) -> ~ toGenerationEndpoint this entry.
Proof.
  induction n as [| n IH]; cbn [rounds]; intros Hin.
  - destruct Hin.
  - apply in_app_or in Hin. destruct Hin as [Hin | Hin]; [| auto].
    unfold round in Hin. apply in_app_or in Hin.
    destruct Hin as [Hin | [<- | [<- | []]]].
    + destruct supplied; [destruct Hin as [<- | []] | destruct Hin];
        intros [init H]; discriminate.
    + intros [init H]; discriminate.
    + apply statusRequest_not_generation.
Qed.

(** C1: on status answers carrying PROCESSING, PROCESSING, ACTIVE the
    method polls, then twice notifies the callback (when one is supplied)
    with "PROCESSING", waits 5000 ms and polls again, and returns the
    third status: two delayed re-polls, two notifications. *)
Theorem waitForFileProcessing_processing_processing_active :
  forall this fileName supplied w a1 a2 a3 s1 s2 s3 rest,
    network w = a1 :: a2 :: a3 :: rest ->
    carries a1 "PROCESSING" s1 ->
    carries a2 "PROCESSING" s2 ->
    carries a3 "ACTIVE" s3 ->
    exists w' entries,
      ends (GeminiClient.waitForFileProcessing this fileName (onStatusUpdate supplied))
           w w' (Normal s3)
      /\ network w' = rest
      /\ log w' = log w ++ entries
      /\ entries =
           [statusRequest this fileName]
           ++ (if supplied then [Notified (JStr "PROCESSING")] else [])
           ++ [Slept 5000; statusRequest this fileName]
           ++ (if supplied then [Notified (JStr "PROCESSING")] else [])
           ++ [Slept 5000; statusRequest this fileName]
      /\ delays entries = [5000; 5000]
      /\ notifications entries =
           (if supplied then [JStr "PROCESSING"; JStr "PROCESSING"] else []).
Proof.
  intros this fileName supplied w a1 a2 a3 s1 s2 s3 rest Hnet H1 H2 H3.
  pose proof (waitForFileProcessing_ends this fileName supplied
                [a1; a2] w a3 "ACTIVE" s3 rest) as Hends.
  cbn [String.eqb Ascii.eqb Bool.eqb] in Hends.
  eexists. eexists. split; [| split; [| split; [| split; [| split]]]].
  - apply Hends.
    + repeat constructor; eauto.
    + exact Hnet.
    + exact H3.
    + discriminate.
  - reflexivity.
  - reflexivity.
  - destruct supplied; reflexivity.
  - destruct supplied; reflexivity.
  - destruct supplied; reflexivity.
Qed.

(** C2: when the polling sequence ends in FAILED, the method throws
    'File processing failed'; nothing sequenced after it runs, and no
    request of the run goes to the content-generation endpoint. *)
Theorem waitForFileProcessing_failed :
  forall this fileName supplied pending w final sf rest,
    Forall (fun a => exists s, carries a "PROCESSING" s) pending ->
    network w = pending ++ final :: rest ->
    carries final "FAILED" sf ->
    exists w' entries,
      ends (GeminiClient.waitForFileProcessing this fileName (onStatusUpdate supplied))
           w w' (Throw (Error "File processing failed"))
      /\ log w' = log w ++ entries
      /\ (forall entry, In entry entries -> ~ toGenerationEndpoint this entry)
      /\ (forall fileUri mimeType,
             ends (fileStatus <-- GeminiClient.waitForFileProcessing this fileName
                                    (onStatusUpdate supplied) ;;
                   GeminiClient.generateSummary this fileUri mimeType)
                  w w' (Throw (Error "File processing failed")))
      /\ (forall B (k : JsVal -> Async B),
             ends (fileStatus <-- GeminiClient.waitForFileProcessing this fileName
                                    (onStatusUpdate supplied) ;;
                   k fileStatus)
                  w w' (Throw (Error "File processing failed"))).
Proof.
  intros this fileName supplied pending w final sf rest Hall Hnet Hfinal.
  pose proof (waitForFileProcessing_ends this fileName supplied
                pending w final "FAILED" sf rest Hall Hnet Hfinal) as Hends.
  cbn [String.eqb Ascii.eqb Bool.eqb] in Hends.
  assert (Hne : "FAILED" <> "PROCESSING") by discriminate.
  specialize (Hends Hne).
  eexists. eexists. split; [exact Hends |]. split; [reflexivity |].
  split; [| split].
  - intros entry [<- | Hin].
    + apply statusRequest_not_generation.
    + eapply rounds_not_generation. exact Hin.
  - intros fileUri mimeType. apply ends_abrupt. exact Hends.
  - intros B k. apply ends_abrupt. exact Hends.
Qed.

(** ** Upload *)

(** C5: a successful ingestion response with an empty body (no text,
    only white space, or an empty object) makes [uploadFile] throw its
    empty-response error instead of returning an upload record; whatever is
    sequenced after the upload, polling included, does not run, and the
    only request sent is the upload. *)
Theorem uploadFile_empty_response :
  forall this file w r rest,
    network w = Normal r :: rest ->
    ok r = true ->
    emptyBody (text r) ->
    exists w' entries,
      ends (GeminiClient.uploadFile this file) w w'
           (Throw (Error "File upload returned empty response. Trying alternative method..."))
      /\ network w' = rest
      /\ log w' = log w ++ entries
      /\ requestsOf entries = [ingestionRequest this file]
      /\ (forall supplied,
             ends (uploaded <-- GeminiClient.uploadFile this file ;;
                   fileName <-- eval (let? name := getProp uploaded "name" in
                                      ToString name) ;;
                   GeminiClient.waitForFileProcessing this fileName
                     (onStatusUpdate supplied))
                  w w'
                  (Throw (Error "File upload returned empty response. Trying alternative method...")))
      /\ (forall B (k : JsVal -> Async B),
             ends (uploaded <-- GeminiClient.uploadFile this file ;; k uploaded) w w'
                  (Throw (Error "File upload returned empty response. Trying alternative method..."))).
Proof.
  intros this file w r rest Hnet Hok Hempty.
  assert (Htest : (String.eqb (text r) "" || String.eqb (trim (text r)) ""
                   || String.eqb (text r) "{}")%bool = true).
  { destruct Hempty as [H | [H | H]]; rewrite H.
    - reflexivity.
    - rewrite String.eqb_refl. apply orb_true_iff. left. apply orb_true_r.
    - reflexivity. }
  assert (Hends : ends (GeminiClient.uploadFile this file) w
            (mkWorld (application w) rest (reader w)
               (((((log w
                    ++ [Logged "log" [LVal (JStr "Uploading file:");
                                      LVal (JStr (file_name file));
                                      LVal (JStr "Size:");
                                      LVal (JNum (showZ (file_size file)))]])
                   ++ [ingestionRequest this file])
                  ++ [Logged "log" [LVal (JStr "Response status:");
                                    LVal (JNum (showZ (status r)))]])
                 ++ [Logged "log" [LVal (JStr "Response text:"); LVal (JStr (text r))]])
                ++ [Logged "warn" [LVal (JStr "Empty response received. This might indicate a CORS issue or API format problem.")]]))
            (Throw (Error "File upload returned empty response. Trying alternative method..."))).
  { unfold GeminiClient.uploadFile.
    eapply ends_then. { apply ends_request. reflexivity. }
    eapply ends_then. { apply ends_fetch. cbn. exact Hnet. }
    eapply ends_then. { apply ends_request. reflexivity. }
    eapply ends_then. { apply ends_request. reflexivity. }
    rewrite Hok, Htest. cbn [negb].
    eapply ends_then. { apply ends_request. reflexivity. }
    apply ends_throw. }
  eexists. eexists. split; [exact Hends |]. split; [reflexivity |].
  split; [cbn [log]; rewrite <- !app_assoc; reflexivity |].
  split; [reflexivity |]. split.
  - intros supplied. apply ends_abrupt. exact Hends.
  - intros B k. apply ends_abrupt. exact Hends.
Qed.

(** ** Generation *)

Lemma generateSummary_ok this fileUri mimeType w r rest :
  network w = Normal r :: rest ->
  ok r = true ->
  ends (GeminiClient.generateSummary this fileUri mimeType) w
       (mkWorld (application w) rest (reader w) (log w ++ [fileDataRequest this fileUri mimeType]))
       (let? result := json r in GeminiClient.generateSummary_result result).
Proof.
  intros Hnet Hok. unfold GeminiClient.generateSummary.
  eapply ends_then. { apply ends_fetch. exact Hnet. }
  rewrite Hok. cbn [negb].
  destruct (json r) as [result | e]; cbn [andThen].
  - eapply ends_then. { apply ends_eval. } apply ends_eval.
  - apply ends_abrupt. apply ends_eval.
Qed.

Lemma generateSummaryFromBase64_ok this base64Data mimeType w r rest :
  network w = Normal r :: rest ->
  ok r = true ->
  ends (GeminiClient.generateSummaryFromBase64 this base64Data mimeType) w
       (mkWorld (application w) rest (reader w)
                (log w ++ [inlineDataRequest this base64Data mimeType]))
       (let? result := json r in GeminiClient.generateSummaryFromBase64_result result).
Proof.
  intros Hnet Hok. unfold GeminiClient.generateSummaryFromBase64.
  eapply ends_then. { apply ends_fetch. exact Hnet. }
  rewrite Hok. cbn [negb].
  destruct (json r) as [result | e]; cbn [andThen].
  - eapply ends_then. { apply ends_eval. } apply ends_eval.
  - apply ends_abrupt. apply ends_eval.
Qed.

Lemma generateSummary_rejected this fileUri mimeType w e rest :
  network w = Throw e :: rest ->
  ends (GeminiClient.generateSummary this fileUri mimeType) w
       (mkWorld (application w) rest (reader w) (log w ++ [fileDataRequest this fileUri mimeType]))
       (Throw e).
Proof.
  intros Hnet. unfold GeminiClient.generateSummary.
  apply ends_abrupt. apply ends_fetch. exact Hnet.
Qed.

Lemma generateSummaryFromBase64_rejected this base64Data mimeType w e rest :
  network w = Throw e :: rest ->
  ends (GeminiClient.generateSummaryFromBase64 this base64Data mimeType) w
       (mkWorld (application w) rest (reader w)
                (log w ++ [inlineDataRequest this base64Data mimeType]))
       (Throw e).
Proof.
  intros Hnet. unfold GeminiClient.generateSummaryFromBase64.
  apply ends_abrupt. apply ends_fetch. exact Hnet.
Qed.

(** ** Extraction of the summary *)

Lemma truthy_not_nullish v : truthy v = true -> nullish v = false.
Proof. destruct v; cbn; congruence. Qed.

Lemma getProp_not_nullish v key : nullish v = false -> exists x, getProp v key = Normal x.
Proof.
  destruct v; cbn; try discriminate; intros _; eauto.
  destruct (lookup key props); eauto.
Qed.

Lemma getProp_text part : nullish part = false -> getProp part "text" = Normal (textOf part).
Proof.
  intros H. unfold textOf.
  destruct (getProp_not_nullish part "text" H) as [x ->]. reflexivity.
Qed.

Lemma getProp_throws_nullish v key e : getProp v key = Throw e -> nullish v = true.
Proof.
  destruct v; cbn; try discriminate; auto.
  destruct (lookup key props); discriminate.
Qed.

Lemma getIndex0_truthy v : truthy v = true -> exists x, getIndex0 v = Normal x.
Proof.
  destruct v; cbn; try discriminate; intros _; eauto.
  - destruct s; eauto.
  - destruct items; eauto.
  - destruct (lookup "0" props); eauto.
Qed.

Lemma Array_filter_text items :
  Forall (fun part => nullish part = false) items ->
  Array_filter (fun part => getProp part "text") items
  = Normal (filter textBearing items).
Proof.
  induction 1 as [| part items Hpart _ IH]; cbn [Array_filter filter].
  - reflexivity.
  - rewrite (getProp_text part Hpart), IH. cbn [andThen].
    unfold textBearing. destruct (truthy (textOf part)); reflexivity.
Qed.

Lemma Array_filter_text_inv items filtered :
  Array_filter (fun part => getProp part "text") items = Normal filtered ->
  Forall (fun part => nullish part = false) items
  /\ filtered = filter textBearing items.
Proof.
  revert filtered. induction items as [| part items IH]; cbn [Array_filter filter];
    intros filtered H.
  - inversion H. auto.
  - destruct (getProp part "text") as [keep | e] eqn:Hkeep; [| discriminate].
    cbn [andThen] in H.
    destruct (Array_filter (fun part => getProp part "text") items) as [kept | e] eqn:Hkept;
      [| discriminate].
    cbn [andThen] in H. destruct (IH kept eq_refl) as [Hall ->].
    assert (Hpart : nullish part = false).
    { destruct part; cbn in *; congruence. }
    split; [constructor; assumption |].
    unfold textBearing, textOf. rewrite Hkeep. inversion H. reflexivity.
Qed.

Lemma Array_map_text items :
  Forall (fun part => nullish part = false) items ->
  Array_map (fun part => getProp part "text") items = Normal (List.map textOf items).
Proof.
  unfold Array_map.
  induction 1 as [| part items Hpart _ IH]; cbn [traverse List.map].
  - reflexivity.
  - rewrite (getProp_text part Hpart), IH. reflexivity.
Qed.

Lemma Forall_filter {A} (P : A -> Prop) f (l : list A) :
  Forall P l -> Forall P (filter f l).
Proof.
  induction 1 as [| x l Hx _ IH]; cbn; [constructor |].
  destruct (f x); [constructor |]; assumption.
Qed.

Lemma joinElement_truthy v : truthy v = true -> joinElement v = ToString v.
Proof. destruct v; cbn; congruence. Qed.

Lemma textFields_truthy items : Forall (fun v => truthy v = true) (textFields items).
Proof.
  unfold textFields. induction items as [| part items IH]; cbn [filter List.map].
  - constructor.
  - destruct (textBearing part) eqn:H; [| exact IH].
    cbn [List.map]. constructor; assumption.
Qed.

Lemma Array_join_inv values sep s :
  Forall (fun v => truthy v = true) values ->
  Array_join values sep = Normal s ->
  exists strs, Forall2 (fun v str => ToString v = Normal str) values strs
               /\ s = String.concat sep strs.
Proof.
  unfold Array_join. intros Htruthy H.
  destruct (traverse joinElement values) as [strs | e] eqn:Htr; [| discriminate].
  cbn [andThen] in H. inversion H. subst s. clear H.
  exists strs. split; [| reflexivity].
  revert strs Htr. induction Htruthy as [| v values Hv _ IH]; cbn [traverse]; intros strs Htr.
  - inversion Htr. constructor.
  - rewrite (joinElement_truthy v Hv) in Htr.
    destruct (ToString v) as [str | e] eqn:Hstr; [| discriminate].
    cbn [andThen] in Htr.
    destruct (traverse joinElement values) as [strs' | e]; [| discriminate].
    cbn [andThen] in Htr. inversion Htr. constructor; auto.
Qed.

Lemma Array_join_strings strs sep :
  Array_join (List.map JStr strs) sep = Normal (String.concat sep strs).
Proof.
  unfold Array_join.
  assert (H : traverse joinElement (List.map JStr strs) = Normal strs).
  { induction strs as [| s strs IH]; cbn [List.map traverse]; [reflexivity |].
    rewrite IH. reflexivity. }
  rewrite H. reflexivity.
Qed.

Lemma results_agree result :
  GeminiClient.generateSummaryFromBase64_result result
  = GeminiClient.generateSummary_result result.
Proof. reflexivity. Qed.

Lemma result_without_content result :
  nullish result = false ->
  firstCandidateContent result = None ->
  GeminiClient.generateSummary_result result = Throw (Error "No summary generated").
Proof.
  intros Hresult Hnone.
  unfold firstCandidateContent in Hnone. unfold GeminiClient.generateSummary_result.
  destruct (getProp_not_nullish result "candidates" Hresult) as [candidates Hc].
  rewrite Hc in *. cbn [andThen].
  destruct (truthy candidates) eqn:Htc; cbn [negb].
  - destruct (getIndex0_truthy candidates Htc) as [first Hf].
    rewrite Hf in *. cbn [andThen].
    destruct (truthy first) eqn:Htf; cbn [negb].
    + destruct (getProp_not_nullish first "content" (truthy_not_nullish _ Htf))
        as [content Hcontent].
      rewrite Hcontent in *. cbn [andThen].
      destruct (truthy content); [discriminate | reflexivity].
    + cbn [andThen]. rewrite Htf. reflexivity.
  - cbn [andThen]. rewrite Htc. reflexivity.
Qed.

Lemma result_with_content result content :
  firstCandidateContent result = Some content ->
  GeminiClient.generateSummary_result result
  = (let? parts := getProp content "parts" in
     let? filtered := GeminiClient.parts_filter parts in
     let? textParts := Array_map (fun part => getProp part "text") filtered in
     Array_join textParts GeminiClient.LF).
Proof.
  intros Hsome.
  unfold firstCandidateContent in Hsome. unfold GeminiClient.generateSummary_result.
  destruct (getProp result "candidates") as [candidates | e]; [| discriminate].
  cbn [andThen].
  destruct (truthy candidates); [| discriminate]. cbn [negb].
  destruct (getIndex0 candidates) as [first | e]; [| discriminate].
  cbn [andThen].
  destruct (truthy first); [| discriminate]. cbn [negb].
  destruct (getProp first "content") as [content' | e]; [| discriminate].
  cbn [andThen].
  destruct (truthy content') eqn:Htc; [| discriminate].
  inversion Hsome. subst content'. reflexivity.
Qed.

(** With content and an array of parts, the result is the join of the
    text fields. *)
Lemma result_of_parts result items :
  contentParts result = Some items ->
  GeminiClient.generateSummary_result result
  = (let? filtered := Array_filter (fun part => getProp part "text") items in
     let? textParts := Array_map (fun part => getProp part "text") filtered in
     Array_join textParts GeminiClient.LF).
Proof.
  unfold contentParts. intros H.
  destruct (firstCandidateContent result) as [content |] eqn:Hc; [| discriminate].
  rewrite (result_with_content result content Hc).
  destruct (getProp content "parts") as [[] | e]; try discriminate.
  inversion H. subst. reflexivity.
Qed.

Lemma result_of_readable_parts result items :
  contentParts result = Some items ->
  Forall (fun part => nullish part = false) items ->
  GeminiClient.generateSummary_result result
  = Array_join (textFields items) GeminiClient.LF.
Proof.
  intros Hparts Hall. rewrite (result_of_parts result items Hparts).
  rewrite (Array_filter_text items Hall). cbn [andThen].
  rewrite (Array_map_text _ (Forall_filter _ _ _ Hall)). reflexivity.
Qed.

(** A returned summary comes from an array of parts of the first
    candidate's content. *)
Lemma result_normal_inv result s :
  GeminiClient.generateSummary_result result = Normal s ->
  exists items,
    contentParts result = Some items
    /\ Forall (fun part => nullish part = false) items
    /\ Array_join (textFields items) GeminiClient.LF = Normal s.
Proof.
  intros H.
  destruct (firstCandidateContent result) as [content |] eqn:Hc.
  - rewrite (result_with_content result content Hc) in H.
    unfold contentParts. rewrite Hc.
    destruct (getProp content "parts") as [parts | e]; [| discriminate].
    cbn [andThen] in H.
    destruct parts; try discriminate.
    cbn [GeminiClient.parts_filter] in H.
    destruct (Array_filter (fun part => getProp part "text") items) as [filtered | e] eqn:Hf;
      [| discriminate].
    cbn [andThen] in H.
    destruct (Array_filter_text_inv items filtered Hf) as [Hall ->].
    rewrite (Array_map_text _ (Forall_filter _ _ _ Hall)) in H.
    exists items. auto.
  - destruct (nullish result) eqn:Hn.
    + destruct result; try discriminate.
    + rewrite (result_without_content result Hn Hc) in H. discriminate.
Qed.

Lemma filter_none {A} (f : A -> bool) (l : list A) :
  existsb f l = false -> filter f l = [].
Proof.
  induction l as [| x l IH]; cbn; [reflexivity |].
  destruct (f x); cbn; [discriminate | exact IH].
Qed.

(** C4: a summary that either strategy returns is the text fields of the
    text-bearing parts of the first candidate's content, in order, joined
    by single line feeds (the one character of code 10); text fields that
    are strings are returned joined as they are, and the parts
    [{text:"A"},{text:"B"}] give the three characters 'A', line feed,
    'B'. *)
Theorem summary_joins_text_fields :
  forall this w r rest result,
    network w = Normal r :: rest ->
    ok r = true ->
    json r = Normal result ->
    (forall fileUri mimeType w' s,
        ends (GeminiClient.generateSummary this fileUri mimeType) w w' (Normal s) ->
        exists items strs,
          contentParts result = Some items
          /\ Forall2 (fun v str => ToString v = Normal str) (textFields items) strs
          /\ s = String.concat (String "010"%char EmptyString) strs)
    /\ (forall base64Data mimeType w' s,
        ends (GeminiClient.generateSummaryFromBase64 this base64Data mimeType) w w'
             (Normal s) ->
        exists items strs,
          contentParts result = Some items
          /\ Forall2 (fun v str => ToString v = Normal str) (textFields items) strs
          /\ s = String.concat (String "010"%char EmptyString) strs)
    /\ (forall items strs,
        contentParts result = Some items ->
        Forall (fun part => nullish part = false) items ->
        textFields items = List.map JStr strs ->
        (forall fileUri mimeType, exists w',
            ends (GeminiClient.generateSummary this fileUri mimeType) w w'
                 (Normal (String.concat (String "010"%char EmptyString) strs)))
        /\ (forall base64Data mimeType, exists w',
            ends (GeminiClient.generateSummaryFromBase64 this base64Data mimeType) w w'
                 (Normal (String.concat (String "010"%char EmptyString) strs))))
    /\ (contentParts result
        = Some [JObj [("text", JStr "A")]; JObj [("text", JStr "B")]] ->
        (forall fileUri mimeType, exists w',
            ends (GeminiClient.generateSummary this fileUri mimeType) w w'
                 (Normal (String "A"%char (String "010"%char (String "B"%char EmptyString)))))
        /\ (forall base64Data mimeType, exists w',
            ends (GeminiClient.generateSummaryFromBase64 this base64Data mimeType) w w'
                 (Normal (String "A"%char
                            (String "010"%char (String "B"%char EmptyString)))))).
Proof.
  intros this w r rest result Hnet Hok Hjson.
  assert (Hinv : forall s,
             GeminiClient.generateSummary_result result = Normal s ->
             exists items strs,
               contentParts result = Some items
               /\ Forall2 (fun v str => ToString v = Normal str) (textFields items) strs
               /\ s = String.concat (String "010"%char EmptyString) strs).
  { intros s Hs.
    destruct (result_normal_inv result s Hs) as (items & Hparts & _ & Hjoin).
    destruct (Array_join_inv _ _ _ (textFields_truthy items) Hjoin) as (strs & H2 & ->).
    exists items, strs. auto. }
  assert (Hstrings : forall items strs,
             contentParts result = Some items ->
             Forall (fun part => nullish part = false) items ->
             textFields items = List.map JStr strs ->
             (forall fileUri mimeType, exists w',
                 ends (GeminiClient.generateSummary this fileUri mimeType) w w'
                      (Normal (String.concat (String "010"%char EmptyString) strs)))
             /\ (forall base64Data mimeType, exists w',
                 ends (GeminiClient.generateSummaryFromBase64 this base64Data mimeType) w w'
                      (Normal (String.concat (String "010"%char EmptyString) strs)))).
  { intros items strs Hparts Hall Htexts.
    assert (Hres : GeminiClient.generateSummary_result result
                   = Normal (String.concat (String "010"%char EmptyString) strs)).
    { rewrite (result_of_readable_parts result items Hparts Hall), Htexts.
      apply Array_join_strings. }
    split.
    - intros fileUri mimeType. eexists.
      pose proof (generateSummary_ok this fileUri mimeType w r rest Hnet Hok) as H.
      rewrite Hjson in H. cbn [andThen] in H. rewrite Hres in H. exact H.
    - intros base64Data mimeType. eexists.
      pose proof (generateSummaryFromBase64_ok this base64Data mimeType w r rest Hnet Hok)
        as H.
      rewrite Hjson in H. cbn [andThen] in H. rewrite results_agree, Hres in H. exact H. }
  split; [| split; [| split]].
  - intros fileUri mimeType w' s Hends.
    pose proof (generateSummary_ok this fileUri mimeType w r rest Hnet Hok) as H.
    rewrite Hjson in H. cbn [andThen] in H.
    destruct (ends_unique _ _ _ _ _ _ Hends H) as [_ Heq].
    apply Hinv. symmetry. exact Heq.
  - intros base64Data mimeType w' s Hends.
    pose proof (generateSummaryFromBase64_ok this base64Data mimeType w r rest Hnet Hok)
      as H.
    rewrite Hjson in H. cbn [andThen] in H. rewrite results_agree in H.
    destruct (ends_unique _ _ _ _ _ _ Hends H) as [_ Heq].
    apply Hinv. symmetry. exact Heq.
  - exact Hstrings.
  - intros Hparts.
    apply (Hstrings _ ["A"; "B"]%string Hparts).
    + repeat constructor.
    + reflexivity.
Qed.

(** C3, as amended: on an HTTP-success response whose parsed body is
    neither null nor undefined and has no candidate content (no
    [candidates], none at index 0, or no [content] in the first), both
    strategies throw 'No summary generated'; when the first candidate's
    content has an array of parts, none of them null or undefined and none
    bearing text (only non-text parts, or the empty array), both return
    the empty string. *)
Theorem no_content_or_empty_summary :
  forall this w r rest result,
    network w = Normal r :: rest ->
    ok r = true ->
    json r = Normal result ->
    (nullish result = false ->
     firstCandidateContent result = None ->
     (forall fileUri mimeType, exists w',
         ends (GeminiClient.generateSummary this fileUri mimeType) w w'
              (Throw (Error "No summary generated")))
     /\ (forall base64Data mimeType, exists w',
         ends (GeminiClient.generateSummaryFromBase64 this base64Data mimeType) w w'
              (Throw (Error "No summary generated"))))
    /\ (forall props,
        result = JObj props ->
        lookup "candidates" props = None ->
        firstCandidateContent result = None)
    /\ (forall items,
        contentParts result = Some items ->
        Forall (fun part => nullish part = false) items ->
        existsb textBearing items = false ->
        (forall fileUri mimeType, exists w',
            ends (GeminiClient.generateSummary this fileUri mimeType) w w' (Normal ""))
        /\ (forall base64Data mimeType, exists w',
            ends (GeminiClient.generateSummaryFromBase64 this base64Data mimeType) w w'
                 (Normal ""))).
Proof.
  intros this w r rest result Hnet Hok Hjson.
  assert (Hboth : forall outcome,
             GeminiClient.generateSummary_result result = outcome ->
             (forall fileUri mimeType, exists w',
                 ends (GeminiClient.generateSummary this fileUri mimeType) w w' outcome)
             /\ (forall base64Data mimeType, exists w',
                 ends (GeminiClient.generateSummaryFromBase64 this base64Data mimeType)
                      w w' outcome)).
  { intros outcome Hres. split.
    - intros fileUri mimeType. eexists.
      pose proof (generateSummary_ok this fileUri mimeType w r rest Hnet Hok) as H.
      rewrite Hjson in H. cbn [andThen] in H. rewrite Hres in H. exact H.
    - intros base64Data mimeType. eexists.
      pose proof (generateSummaryFromBase64_ok this base64Data mimeType w r rest Hnet Hok)
        as H.
      rewrite Hjson in H. cbn [andThen] in H. rewrite results_agree, Hres in H. exact H. }
  split; [| split].
  - intros Hresult Hnone. apply Hboth. apply result_without_content; assumption.
  - intros props -> Hlookup. unfold firstCandidateContent. cbn [getProp].
    rewrite Hlookup. reflexivity.
  - intros items Hparts Hall Hnotext. apply Hboth.
    rewrite (result_of_readable_parts result items Hparts Hall).
    unfold textFields. rewrite (filter_none _ _ Hnotext). reflexivity.
Qed.

(** ** What a method can ask of the browser *)

Lemma performs_bind P {A B} (QA : A -> Prop) (Q : B -> Prop)
    (t : itree browserE A) (k : A -> itree browserE B) :
  performs P QA t -> (forall a, QA a -> performs P Q (k a)) ->
  performs P Q (ITree.bind t k).
Proof.
  intros Ht Hk.
  induction Ht as [t r Hobs Hr | t t' Hobs _ IH | t T e k' Hobs He _ IH].
  - specialize (Hk r Hr).
    assert (Heq : observe (ITree.bind t k) = observe (k r)).
    { rewrite observe_bind, Hobs. reflexivity. }
    destruct Hk as [u r' Hu Hr' | u u' Hu Hu' | u T e k' Hu He Hk'].
    + eapply performs_ret; [rewrite Heq; exact Hu | exact Hr'].
    + eapply performs_tau; [rewrite Heq; exact Hu | exact Hu'].
    + eapply performs_vis; [rewrite Heq; exact Hu | exact He | exact Hk'].
  - eapply performs_tau; [rewrite observe_bind, Hobs; reflexivity | exact IH].
  - eapply performs_vis; [rewrite observe_bind, Hobs; reflexivity | exact He | exact IH].
Qed.

Lemma performs_Ret P {A} (Q : A -> Prop) (a : A) :
  Q a -> performs P Q (Ret a : itree browserE A).
Proof. intros Ha. eapply performs_ret; [reflexivity | exact Ha]. Qed.

Lemma performs_trigger P {A} (Q : A -> Prop) (e : browserE A) :
  P A e -> (forall a, Q a) -> performs P Q (ITree.trigger e).
Proof.
  intros He HQ. eapply performs_vis; [reflexivity | exact He |].
  intros x. apply performs_Ret. apply HQ.
Qed.

Lemma performs_weaken (P P' : forall T, browserE T -> Prop) {R} (Q Q' : R -> Prop)
    (t : itree browserE R) :
  (forall T e, P T e -> P' T e) -> (forall r, Q r -> Q' r) ->
  performs P Q t -> performs P' Q' t.
Proof.
  intros HP HQ Ht.
  induction Ht as [t r Hobs Hr | t t' Hobs _ IH | t T e k Hobs He _ IH].
  - eapply performs_ret; [exact Hobs | apply HQ; exact Hr].
  - eapply performs_tau; [exact Hobs | exact IH].
  - eapply performs_vis; [exact Hobs | apply HP; exact He | exact IH].
Qed.

(** A run of [t] ends with a result that satisfies [Q], and a relation
    between worlds that every permitted event keeps is kept by the run. *)
Lemma performs_run (P : forall T, browserE T -> Prop) (keeps : World -> World -> Prop)
    {R} (Q : R -> Prop) (t : itree browserE R) :
  (forall w, keeps w w) ->
  (forall w1 w2 w3, keeps w1 w2 -> keeps w2 w3 -> keeps w1 w3) ->
  (forall T (e : browserE T) w w' x, P T e -> handle T e w ≈ Ret (w', x) -> keeps w w') ->
  performs P Q t ->
  forall w w' a, ends t w w' a -> keeps w w' /\ Q a.
Proof.
  intros Hrefl Htrans Hevent Ht.
  induction Ht as [t r Hobs Hr | t t' Hobs _ IH | t T e k Hobs He _ IH];
    intros w w' a Hends; unfold ends, run in Hends;
    rewrite unfold_interp_state, Hobs in Hends; cbn in Hends.
  - apply eutt_inv_Ret in Hends. inversion Hends. subst. split; [apply Hrefl | exact Hr].
  - rewrite tau_eutt in Hends. eapply IH. exact Hends.
  - apply eutt_inv_bind_ret in Hends. destruct Hends as ([w1 x] & Hh & Hk).
    cbn in Hk. rewrite tau_eutt in Hk.
    destruct (IH x w1 w' a Hk) as [Hkeeps Ha].
    split; [| exact Ha].
    eapply Htrans; [eapply Hevent; eassumption | exact Hkeeps].
Qed.

(** Sequencing: the continuation runs on normal completions, an
    exception is the result. *)
Lemma performs_then P {A B} (QA : Completion A -> Prop) (Q : Completion B -> Prop)
    (m : Async A) (k : A -> Async B) :
  performs P QA m ->
  (forall a, QA (Normal a) -> performs P Q (k a)) ->
  (forall e, QA (Throw e) -> Q (Throw e)) ->
  performs P Q (Browser.bind m k).
Proof.
  intros Hm Hk He. unfold Browser.bind. eapply performs_bind; [exact Hm |].
  intros [a | e] Hc; [apply Hk; exact Hc | apply performs_Ret; apply He; exact Hc].
Qed.

Lemma performs_request P {A} (Q : Completion A -> Prop) (e : browserE A) :
  P A e -> (forall a, Q (Normal a)) -> performs P Q (request e).
Proof.
  intros He HQ. unfold request.
  eapply performs_bind; [apply (performs_trigger P (fun _ => True)); auto |].
  intros a _. apply performs_Ret. apply HQ.
Qed.

Lemma performs_tryCatch P {A} (QB Q : Completion A -> Prop) (body : Async A) handler :
  performs P QB body ->
  (forall a, QB (Normal a) -> Q (Normal a)) ->
  (forall e, QB (Throw e) -> performs P Q (handler e)) ->
  performs P Q (tryCatch body handler).
Proof.
  intros Hb Hn Hh. unfold tryCatch. eapply performs_bind; [exact Hb |].
  intros [a | e] Hc; [apply performs_Ret; apply Hn; exact Hc | apply Hh; exact Hc].
Qed.

Lemma performsOnly_Ret P {A} (a : A) : performsOnly P (Ret a : itree browserE A).
Proof. apply performs_Ret. exact I. Qed.

Lemma performsOnly_trigger P {A} (e : browserE A) : P A e -> performsOnly P (ITree.trigger e).
Proof. intros He. apply performs_trigger; auto. Qed.

Lemma performsOnly_then P {A B} (m : Async A) (k : A -> Async B) :
  performsOnly P m -> (forall a, performsOnly P (k a)) -> performsOnly P (Browser.bind m k).
Proof.
  intros Hm Hk. unfold performsOnly in *.
  eapply performs_then; [exact Hm | intros a _; apply Hk | intros e _; exact I].
Qed.

Lemma performsOnly_request P {A} (e : browserE A) : P A e -> performsOnly P (request e).
Proof. intros He. apply performs_request; auto. Qed.

Lemma performsOnly_tryCatch P {A} (body : Async A) handler :
  performsOnly P body -> (forall e, performsOnly P (handler e)) ->
  performsOnly P (tryCatch body handler).
Proof.
  intros Hb Hh. unfold performsOnly in *.
  eapply performs_tryCatch; [exact Hb | intros a _; exact I | intros e _; apply Hh].
Qed.

Lemma performsOnly_weaken (P P' : forall T, browserE T -> Prop) {R} (t : itree browserE R) :
  (forall T e, P T e -> P' T e) -> performsOnly P t -> performsOnly P' t.
Proof. intros HP. apply performs_weaken; auto. Qed.

Lemma performsOnly_run (P : forall T, browserE T -> Prop) (keeps : World -> World -> Prop)
    {R} (t : itree browserE R) :
  (forall w, keeps w w) ->
  (forall w1 w2 w3, keeps w1 w2 -> keeps w2 w3 -> keeps w1 w3) ->
  (forall T (e : browserE T) w w' x, P T e -> handle T e w ≈ Ret (w', x) -> keeps w w') ->
  performsOnly P t ->
  forall w w' a, ends t w w' a -> keeps w w'.
Proof.
  intros Hrefl Htrans Hevent Ht w w' a Hends.
  apply (performs_run P keeps (fun _ => True) t Hrefl Htrans Hevent Ht w w' a Hends).
Qed.

Lemma ui_call_inline f : performsOnly inlineWorkflowEvent (PDFSummarizerApp.ui_call f).
Proof.
  unfold PDFSummarizerApp.ui_call.
  apply performsOnly_then; [apply performsOnly_request; exact I |].
  intros this. apply performsOnly_request. exact I.
Qed.

Lemma this_geminiClient_inline method :
  performsOnly inlineWorkflowEvent (PDFSummarizerApp.this_geminiClient method).
Proof.
  unfold PDFSummarizerApp.this_geminiClient.
  apply performsOnly_then; [apply performsOnly_request; exact I |].
  intros this. destruct (geminiClient this); apply performsOnly_Ret.
Qed.

Lemma uploadFileBase64_events client file :
  performsOnly readsFile (GeminiClient.uploadFileBase64 client file).
Proof.
  unfold GeminiClient.uploadFileBase64.
  apply performsOnly_then; [apply performsOnly_request; exact I |].
  intros [reader_result |]; apply performsOnly_Ret.
Qed.

Lemma generateSummaryFromBase64_events client base64Data mimeType :
  performsOnly sendsInlineData
    (GeminiClient.generateSummaryFromBase64 client base64Data mimeType).
Proof.
  unfold GeminiClient.generateSummaryFromBase64.
  apply performsOnly_then.
  { apply performsOnly_trigger. cbn. exists client, base64Data, mimeType. reflexivity. }
  intros response. destruct (negb (ok response)).
  - destruct (json response) as [error | e]; [| apply performsOnly_Ret].
    apply performsOnly_then; [apply performsOnly_Ret |].
    intros e. apply performsOnly_Ret.
  - apply performsOnly_then; [apply performsOnly_Ret |].
    intros result. apply performsOnly_Ret.
Qed.

Lemma uploadFileBase64_inline client file :
  performsOnly inlineWorkflowEvent (GeminiClient.uploadFileBase64 client file).
Proof.
  apply (performsOnly_weaken readsFile); [| apply uploadFileBase64_events].
  intros T []; cbn; tauto.
Qed.

Lemma generateSummaryFromBase64_inline client base64Data mimeType :
  performsOnly inlineWorkflowEvent
    (GeminiClient.generateSummaryFromBase64 client base64Data mimeType).
Proof.
  apply (performsOnly_weaken sendsInlineData);
    [| apply generateSummaryFromBase64_events].
  intros T []; cbn; tauto.
Qed.

Lemma logged_refl Q w : logged Q w w.
Proof. exists []. rewrite app_nil_r. auto. Qed.

Lemma logged_trans Q w1 w2 w3 : logged Q w1 w2 -> logged Q w2 w3 -> logged Q w1 w3.
Proof.
  intros (l1 & H1 & F1) (l2 & H2 & F2). exists (l1 ++ l2). split.
  - rewrite H2, H1, app_assoc. reflexivity.
  - apply Forall_app. auto.
Qed.

Lemma Ret_inv {A} (a b : A) : (Ret a : itree void1 A) ≈ Ret b -> a = b.
Proof. intros H. apply eutt_inv_Ret in H. exact H. Qed.

Lemma inline_event_logged T (e : browserE T) w w' x :
  inlineWorkflowEvent T e -> handle T e w ≈ Ret (w', x) -> logged inlineEntry w w'.
Proof.
  intros He Hh. destruct e; cbn in He, Hh.
  - destruct (network w) as [| answer rest].
    + exfalso. eapply eutt_spin_Ret_abs. exact Hh.
    + apply Ret_inv in Hh. inversion Hh. subst.
      eexists. split; [reflexivity |]. constructor; [| constructor].
      destruct He as (c & d & m & Heq). cbn. rewrite Heq. eauto.
  - destruct He.
  - destruct (reader w) as [| answer rest].
    + exfalso. eapply eutt_spin_Ret_abs. exact Hh.
    + apply Ret_inv in Hh. inversion Hh. subst.
      eexists. split; [reflexivity |]. repeat constructor.
  - apply Ret_inv in Hh. inversion Hh. subst.
    eexists. split; [reflexivity |]. repeat constructor.
  - destruct He.
  - apply Ret_inv in Hh. inversion Hh. subst. apply logged_refl.
  - apply Ret_inv in Hh. inversion Hh. subst.
    exists []. cbn [log]. rewrite app_nil_r. auto.
Qed.

Lemma ToString_message error :
  ToString (or_else (messageOf error) (JStr "An unexpected error occurred"))
  = Normal (shownMessage error).
Proof.
  unfold shownMessage, or_else.
  destruct error as [m | m | m |]; cbn; try (destruct (String.eqb m "")); reflexivity.
Qed.

(** A request completes normally. *)
Lemma request_resolves P {A} (e : browserE A) :
  P A e -> performs P (fun c => exists a, c = Normal a) (request e).
Proof. intros He. apply performs_request; [exact He | eauto]. Qed.

Lemma ui_call_resolves f :
  performs inlineWorkflowEvent (fun c => c = Normal tt) (PDFSummarizerApp.ui_call f).
Proof.
  unfold PDFSummarizerApp.ui_call.
  eapply performs_then.
  - apply (request_resolves inlineWorkflowEvent GetThis). exact I.
  - intros this _. apply performs_request; [exact I |]. intros []. reflexivity.
  - intros e [a H]. discriminate.
Qed.

(** In every run [handleSummarize] stays within the inline strategy and
    returns normally: no exception leaves it. *)
Lemma handleSummarize_resolves :
  performs inlineWorkflowEvent (fun c => c = Normal tt) PDFSummarizerApp.handleSummarize.
Proof.
  unfold PDFSummarizerApp.handleSummarize.
  eapply performs_then;
    [apply (request_resolves inlineWorkflowEvent GetThis); exact I
    | | intros e [a H]; discriminate].
  intros this _.
  destruct (UploadUI.getSelectedFile (ui this)) as [file |];
    [| destruct (UploadUI.getApiKey (ui this)); apply ui_call_resolves].
  destruct (UploadUI.getApiKey (ui this)) as [key |]; [| apply ui_call_resolves].
  destruct (String.eqb key ""); [apply ui_call_resolves |].
  destruct (negb (FileHandler.isValidPDF (Some file))); [apply ui_call_resolves |].
  destruct (negb (FileHandler.isValidFileSize file None)); [apply ui_call_resolves |].
  eapply (performs_tryCatch _ (fun _ => True)).
  - apply performsOnly_then; [apply ui_call_inline | intros _].
    apply performsOnly_then.
    { apply performsOnly_then; [apply performsOnly_request; exact I |].
      intros this'. apply performsOnly_request. exact I. }
    intros _.
    apply performsOnly_then; [apply this_geminiClient_inline | intros client].
    apply performsOnly_then; [apply uploadFileBase64_inline | intros fileData].
    apply performsOnly_then; [apply this_geminiClient_inline | intros client'].
    apply performsOnly_then; [apply generateSummaryFromBase64_inline | intros summary].
    apply performsOnly_then; [apply ui_call_inline | intros _].
    apply ui_call_inline.
  - intros [] _. reflexivity.
  - intros error _.
    eapply performs_then;
      [apply (request_resolves inlineWorkflowEvent
                (Console "error" [LVal (JStr "Error:"); LExn error])); exact I
      | | intros e [a H]; discriminate].
    intros _ _.
    eapply performs_then;
      [apply ui_call_resolves | | intros e H; discriminate].
    intros _ _.
    rewrite ToString_message.
    eapply performs_then;
      [apply (performs_Ret _ (fun c => c = Normal (shownMessage error))); reflexivity
      | | intros e H; discriminate].
    intros message _. apply ui_call_resolves.
Qed.

(** C10: whatever the selected file, the key and the browser's answers,
    all that [handleSummarize] asks of the browser belongs to the inline
    strategy: it reads the file and sends at most inline-data generation
    requests, and that is all a run leaves in the log.  The upload request,
    the status request, the polling delay and the file-data generation
    request of the direct-URI path are not among these events. *)
Theorem handleSummarize_inline_only :
  performsOnly inlineWorkflowEvent PDFSummarizerApp.handleSummarize
  /\ (forall w w' outcome,
         ends PDFSummarizerApp.handleSummarize w w' outcome ->
         logged inlineEntry w w')
  /\ (forall client file url init,
         Requested url init = ingestionRequest client file ->
         ~ inlineWorkflowEvent _ (Fetch url init))
  /\ (forall client fileName url init,
         Requested url init = statusRequest client fileName ->
         ~ inlineWorkflowEvent _ (Fetch url init))
  /\ (forall client fileUri mimeType url init,
         Requested url init = fileDataRequest client fileUri mimeType ->
         ~ inlineWorkflowEvent _ (Fetch url init))
  /\ (forall ms, ~ inlineWorkflowEvent _ (SetTimeout ms)).
Proof.
  assert (Hevents : performsOnly inlineWorkflowEvent PDFSummarizerApp.handleSummarize);
    [| split; [exact Hevents | split; [| split; [| split; [| split]]]]].
  - apply (performs_weaken inlineWorkflowEvent inlineWorkflowEvent
             (fun c => c = Normal tt) (fun _ => True));
      [auto | auto | apply handleSummarize_resolves].
  - intros w w' outcome Hends.
    eapply (performsOnly_run inlineWorkflowEvent (logged inlineEntry));
      [apply logged_refl | apply logged_trans | apply inline_event_logged
      | exact Hevents | exact Hends].
  - intros client file url init Heq (c & d & m & H). rewrite Heq in H. discriminate.
  - intros client fileName url init Heq (c & d & m & H). rewrite Heq in H. discriminate.
  - intros client fileUri mimeType url init Heq (c & d & m & H). rewrite Heq in H.
    discriminate.
  - intros ms H. exact H.
Qed.

(** ** The orchestrator *)

(** Enter [handleSummarize]: read the application object and look at the
    selected file and the key. *)
Ltac enter_handleSummarize :=
  unfold PDFSummarizerApp.handleSummarize;
  eapply ends_then; [apply ends_request; reflexivity |];
  cbn beta; cbn [application];
  unfold UploadUI.getSelectedFile, UploadUI.getApiKey.

Lemma ends_ui_call f w :
  ends (PDFSummarizerApp.ui_call f) w
       (mkWorld (mkApp (f (ui (application w))) (geminiClient (application w)))
                (network w) (reader w) (log w))
       (Normal tt).
Proof.
  unfold PDFSummarizerApp.ui_call.
  eapply ends_then. { apply ends_request. reflexivity. }
  apply ends_request. reflexivity.
Qed.

(** A rejected input: the message is shown and nothing else changes. *)
Lemma ends_rejected w message :
  (forall w', ends (PDFSummarizerApp.ui_call (UploadUI.showError message)) w w' (Normal tt) ->
              ends PDFSummarizerApp.handleSummarize w w' (Normal tt)) ->
  exists w',
    ends PDFSummarizerApp.handleSummarize w w' (Normal tt)
    /\ ui (application w') = UploadUI.showError message (ui (application w))
    /\ geminiClient (application w') = geminiClient (application w)
    /\ network w' = network w
    /\ reader w' = reader w
    /\ log w' = log w.
Proof.
  intros Hrun. eexists. split; [apply Hrun; apply ends_ui_call |].
  repeat split.
Qed.

(** C6: with no file, no key, a declared type other than PDF or a length
    over the limit, [handleSummarize] shows the validation message of the
    first failing check and returns; the run reads no file, sends no
    request (the scripted answers are untouched and the log is unchanged)
    and creates no client. *)
Theorem handleSummarize_validation :
  forall w,
    invalidInput (ui (application w)) ->
    exists message w',
      ends PDFSummarizerApp.handleSummarize w w' (Normal tt)
      /\ ui (application w') = UploadUI.showError message (ui (application w))
      /\ geminiClient (application w') = geminiClient (application w)
      /\ network w' = network w
      /\ reader w' = reader w
      /\ log w' = log w
      /\ In message validationMessages
      /\ (UploadUI.selectedFile (ui (application w)) = None
          \/ UploadUI.apiKey (ui (application w)) = None
          \/ UploadUI.apiKey (ui (application w)) = Some "" ->
          message = "Please select a PDF file and enter your API key")
      /\ (forall file key,
             UploadUI.selectedFile (ui (application w)) = Some file ->
             UploadUI.apiKey (ui (application w)) = Some key ->
             key <> "" ->
             file_type file <> "application/pdf" ->
             message = "Please select a valid PDF file")
      /\ (forall file key,
             UploadUI.selectedFile (ui (application w)) = Some file ->
             UploadUI.apiKey (ui (application w)) = Some key ->
             key <> "" ->
             file_type file = "application/pdf" ->
             file_size file > 20 * 2 ^ 20 ->
             message = "File size exceeds 20MB limit").
Proof.
  intros w Hinvalid. unfold invalidInput in Hinvalid.
  destruct (UploadUI.selectedFile (ui (application w))) as [file |] eqn:Hfile.
  - destruct (UploadUI.apiKey (ui (application w))) as [key |] eqn:Hkey.
    + destruct (String.eqb key "") eqn:Hempty.
      * apply String.eqb_eq in Hempty. subst key.
        exists "Please select a PDF file and enter your API key".
        destruct (ends_rejected w "Please select a PDF file and enter your API key")
          as (w' & H).
        { intros w' Hw'. enter_handleSummarize. rewrite Hfile, Hkey. exact Hw'. }
        exists w'. repeat (split; [apply H |]).
        split; [cbn; auto |]. split; [reflexivity |].
        split; intros f k Hf Hk Hne; inversion Hk; subst k; contradiction.
      * assert (Hkeyne : key <> "") by (apply String.eqb_neq; exact Hempty).
        destruct (String.eqb (file_type file) "application/pdf") eqn:Hpdf.
        -- apply String.eqb_eq in Hpdf.
           destruct (FileHandler.isValidFileSize file None) eqn:Hsize.
           ++ exfalso. apply default_size_limit in Hsize.
              destruct Hinvalid as [H | [H | [H | [(f & H & Hbad) | (f & H & Hbad)]]]];
                try discriminate.
              ** inversion H. subst key. contradiction.
              ** inversion H. subst f. contradiction.
              ** inversion H. subst f. lia.
           ++ exists "File size exceeds 20MB limit".
              destruct (ends_rejected w "File size exceeds 20MB limit") as (w' & H).
              { intros w' Hw'. enter_handleSummarize. rewrite Hfile, Hkey.
                rewrite (proj2 (String.eqb_neq key "") Hkeyne).
                cbn [FileHandler.isValidPDF]. rewrite Hpdf, Hsize. exact Hw'. }
              exists w'. repeat (split; [apply H |]).
              split; [cbn; auto |]. split; [| split].
              ** intros [Hc | [Hc | Hc]]; try discriminate.
                 inversion Hc. subst key. contradiction.
              ** intros f k Hf _ _ Hne. inversion Hf. subst f. contradiction.
              ** reflexivity.
        -- apply String.eqb_neq in Hpdf.
           exists "Please select a valid PDF file".
           destruct (ends_rejected w "Please select a valid PDF file") as (w' & H).
           { intros w' Hw'. enter_handleSummarize. rewrite Hfile, Hkey.
             rewrite (proj2 (String.eqb_neq key "") Hkeyne).
             cbn [FileHandler.isValidPDF].
             rewrite (proj2 (String.eqb_neq (file_type file) "application/pdf") Hpdf).
             exact Hw'. }
           exists w'. repeat (split; [apply H |]).
           split; [cbn; auto |]. split; [| split].
           ** intros [Hc | [Hc | Hc]]; try discriminate.
              inversion Hc. subst key. contradiction.
           ** reflexivity.
           ** intros f k Hf _ _ He. inversion Hf. subst f. contradiction.
    + exists "Please select a PDF file and enter your API key".
      destruct (ends_rejected w "Please select a PDF file and enter your API key")
        as (w' & H).
      { intros w' Hw'. enter_handleSummarize. rewrite Hfile, Hkey. exact Hw'. }
      exists w'. repeat (split; [apply H |]).
      split; [cbn; auto |]. split; [reflexivity |].
      split; intros f k Hf Hk; discriminate.
  - exists "Please select a PDF file and enter your API key".
    destruct (ends_rejected w "Please select a PDF file and enter your API key")
      as (w' & H).
    { intros w' Hw'. enter_handleSummarize. rewrite Hfile.
      destruct (UploadUI.apiKey (ui (application w))); exact Hw'. }
    exists w'. repeat (split; [apply H |]).
    split; [cbn; auto |]. split; [reflexivity |].
    split; intros f k Hf; discriminate.
Qed.

Lemma updateUI_consistent u :
  (forall file, UploadUI.selectedFile u = Some file ->
                file_type file = "application/pdf") ->
  consistent (UploadUI.updateUI u).
Proof.
  intros Hpdf. split.
  - cbn. intros H. apply negb_false_iff in H. exact H.
  - cbn. exact Hpdf.
Qed.

Lemma reachable_consistent u : UploadUI.reachable u -> consistent u.
Proof.
  induction 1 as [page | a u _ [IHenabled IHpdf]].
  - apply updateUI_consistent. cbn. discriminate.
  - destruct a as [file | | value | | | summary | message]; cbn [UploadUI.perform].
    + unfold UploadUI.handleFileSelect. destruct file as [f |]; [| split; assumption].
      destruct (String.eqb (file_type f) "application/pdf") eqn:Hf; cbn [negb].
      * apply updateUI_consistent. cbn. intros file H. inversion H. subst.
        apply String.eqb_eq. exact Hf.
      * split; assumption.
    + apply updateUI_consistent. cbn. discriminate.
    + apply updateUI_consistent. unfold UploadUI.saveApiKey.
      destruct (negb (String.eqb value "")); cbn; exact IHpdf.
    + split; [cbn; discriminate | exact IHpdf].
    + apply updateUI_consistent. cbn. exact IHpdf.
    + split; assumption.
    + split; assumption.
Qed.

Lemma client_event_keeps_application T (e : browserE T) w w' x :
  clientEvent T e -> handle T e w ≈ Ret (w', x) -> application w' = application w.
Proof.
  intros He Hh. destruct e; unfold clientEvent in He; cbn in He, Hh;
    try (exfalso; tauto).
  - destruct (network w) as [| answer rest].
    + exfalso. eapply eutt_spin_Ret_abs. exact Hh.
    + apply Ret_inv in Hh. inversion Hh. reflexivity.
  - destruct (reader w) as [| answer rest].
    + exfalso. eapply eutt_spin_Ret_abs. exact Hh.
    + apply Ret_inv in Hh. inversion Hh. reflexivity.
Qed.

Lemma client_keeps_application {R} (t : itree browserE R) w w' a :
  performsOnly clientEvent t -> ends t w w' a -> application w' = application w.
Proof.
  intros Ht Hends.
  apply (performsOnly_run clientEvent (fun w w' => application w' = application w) t)
    with (a := a); auto.
  - intros w1 w2 w3 H12 H23. congruence.
  - intros T e w1 w2 x. apply client_event_keeps_application.
Qed.

Lemma ends_this_geminiClient method w client :
  geminiClient (application w) = Some client ->
  ends (PDFSummarizerApp.this_geminiClient method) w w (Normal client).
Proof.
  intros H. unfold PDFSummarizerApp.this_geminiClient.
  eapply ends_then. { apply ends_request. reflexivity. }
  cbn beta. rewrite H. apply ends_ret.
Qed.

Lemma uploadFileBase64_client client file :
  performsOnly clientEvent (GeminiClient.uploadFileBase64 client file).
Proof.
  apply (performsOnly_weaken readsFile); [| apply uploadFileBase64_events].
  intros T e H. left. exact H.
Qed.

Lemma generateSummaryFromBase64_client client base64Data mimeType :
  performsOnly clientEvent
    (GeminiClient.generateSummaryFromBase64 client base64Data mimeType).
Proof.
  apply (performsOnly_weaken sendsInlineData);
    [| apply generateSummaryFromBase64_events].
  intros T e H. right. exact H.
Qed.

Lemma clientFails_keeps_application w file key error w2 :
  clientFails w file key error w2 -> application w2 = application (loading w key).
Proof.
  intros [H | (fileData & w1 & H1 & H2)].
  - eapply client_keeps_application; [apply uploadFileBase64_client | exact H].
  - transitivity (application w1).
    + eapply client_keeps_application;
        [apply generateSummaryFromBase64_client | exact H2].
    + eapply client_keeps_application; [apply uploadFileBase64_client | exact H1].
Qed.

(** The [try] block of [handleSummarize], up to the failing client call. *)
Lemma try_block_fails w file key error w2 (rest : string -> Async unit) :
  clientFails w file key error w2 ->
  ends (PDFSummarizerApp.ui_call UploadUI.showLoading ;;;
        (this <-- request GetThis ;;
         request (SetThis (mkApp (ui this) (Some (newGeminiClient key))))) ;;;
        client <-- PDFSummarizerApp.this_geminiClient "uploadFileBase64" ;;
        fileData <-- GeminiClient.uploadFileBase64 client file ;;
        client <-- PDFSummarizerApp.this_geminiClient "generateSummaryFromBase64" ;;
        summary <-- GeminiClient.generateSummaryFromBase64 client
                      (GeminiClient.data fileData)
                      (GeminiClient.mimeType fileData) ;;
        rest summary)
       w w2 (Throw error).
Proof.
  intros Hfails.
  eapply ends_then. { apply ends_ui_call. }
  eapply ends_then.
  { eapply ends_then. { apply ends_request. reflexivity. }
    apply ends_request. reflexivity. }
  cbn [application ui network reader log]. fold (loading w key).
  eapply ends_then. { apply ends_this_geminiClient. reflexivity. }
  destruct Hfails as [H | (fileData & w1 & H1 & H2)].
  - apply ends_abrupt. exact H.
  - eapply ends_then. { exact H1. }
    eapply ends_then.
    { apply ends_this_geminiClient.
      rewrite (client_keeps_application _ _ _ _ (uploadFileBase64_client _ _) H1).
      reflexivity. }
    apply ends_abrupt. exact H2.
Qed.

(** A failing client call after validation: the catch block runs. *)
Lemma handleSummarize_catches w file key error w2 :
  UploadUI.selectedFile (ui (application w)) = Some file ->
  UploadUI.apiKey (ui (application w)) = Some key ->
  String.eqb key "" = false ->
  file_type file = "application/pdf" ->
  FileHandler.isValidFileSize file None = true ->
  clientFails w file key error w2 ->
  ends PDFSummarizerApp.handleSummarize w
       (mkWorld
          (mkApp (UploadUI.showError ("Error: " ++ shownMessage error)
                    (UploadUI.hideLoading (UploadUI.showLoading (ui (application w)))))
                 (Some (newGeminiClient key)))
          (network w2) (reader w2)
          (log w2 ++ [Logged "error" [LVal (JStr "Error:"); LExn error]]))
       (Normal tt).
Proof.
  intros Hfile Hkey Hnonempty Hpdf Hsize Hfails.
  pose proof (clientFails_keeps_application _ _ _ _ _ Hfails) as Happ.
  enter_handleSummarize. rewrite Hfile, Hkey, Hnonempty.
  cbn [FileHandler.isValidPDF]. rewrite Hpdf, Hsize.
  replace (String.eqb "application/pdf" "application/pdf") with true by reflexivity.
  cbn [negb].
  eapply ends_try_caught.
  { apply try_block_fails. exact Hfails. }
  eapply ends_then. { apply ends_request. reflexivity. }
  eapply ends_then. { apply ends_ui_call. }
  rewrite ToString_message.
  eapply ends_then. { apply ends_eval. }
  cbn [application ui log network reader geminiClient]. rewrite Happ.
  apply (ends_ui_call (UploadUI.showError ("Error: " ++ shownMessage error))
           (mkWorld (mkApp (UploadUI.hideLoading (UploadUI.showLoading (ui (application w))))
                           (Some (newGeminiClient key)))
                    (network w2) (reader w2)
                    (log w2 ++ [Logged "error" [LVal (JStr "Error:"); LExn error]]))).
Qed.

(** After the catch block the trigger is enabled exactly when a file is
    selected and the key is not blank: [hideLoading] ends in [updateUI]. *)
Lemma trigger_after_failure message u :
  UploadUI.summarizeBtn_disabled
    (UploadUI.showError message (UploadUI.hideLoading (UploadUI.showLoading u)))
  = negb (UploadUI.hasFile u && UploadUI.hasApiKey u).
Proof. reflexivity. Qed.

(** A key of white space only passes the validation of [handleSummarize]
    but not [updateUI]: the trigger, disabled in such a state, stays so. *)
Remark blank_key_trigger u file :
  UploadUI.selectedFile u = Some file ->
  UploadUI.apiKey u = Some " " ->
  UploadUI.summarizeBtn_disabled (UploadUI.updateUI u) = true
  /\ forall message,
       UploadUI.summarizeBtn_disabled
         (UploadUI.showError message (UploadUI.hideLoading (UploadUI.showLoading u)))
       = true.
Proof.
  intros Hfile Hkey. split; [| intros message; rewrite trigger_after_failure];
    cbn; unfold UploadUI.hasFile, UploadUI.hasApiKey; rewrite Hfile, Hkey; reflexivity.
Qed.



(** ** Sample runs *)

Lemma size_check_witness :
  FileHandler.isValidFileSize Sample.file None = true
  /\ FileHandler.isValidFileSize (mkFile "a.pdf" "application/pdf" 20971520 "") (Some 20)
     = true
  /\ FileHandler.isValidFileSize (mkFile "a.pdf" "application/pdf" 20971521 "") (Some 20)
     = false.
Proof.
  split; [| split].
  - apply (proj2 (proj2 (proj2 isValidFileSize_spec))). cbn. lia.
  - apply (proj1 (proj2 isValidFileSize_spec)). reflexivity.
  - apply (proj1 (proj2 (proj2 isValidFileSize_spec))). cbn. lia.
Defined.

Lemma polling_witness :
  exists w' entries,
    ends (GeminiClient.waitForFileProcessing Sample.client "files/doc"
            (onStatusUpdate true))
         (Sample.world Sample.page
            [Sample.statusResponse "PROCESSING"; Sample.statusResponse "PROCESSING";
             Sample.statusResponse "ACTIVE"] [])
         w' (Normal (JObj [("state", JStr "ACTIVE")]))
    /\ network w' = []
    /\ log w' = [] ++ entries
    /\ entries =
         [statusRequest Sample.client "files/doc"]
         ++ [Notified (JStr "PROCESSING")]
         ++ [Slept 5000; statusRequest Sample.client "files/doc"]
         ++ [Notified (JStr "PROCESSING")]
         ++ [Slept 5000; statusRequest Sample.client "files/doc"]
    /\ delays entries = [5000; 5000]
    /\ notifications entries = [JStr "PROCESSING"; JStr "PROCESSING"].
Proof.
  apply (waitForFileProcessing_processing_processing_active
           Sample.client "files/doc" true
           (Sample.world Sample.page
              [Sample.statusResponse "PROCESSING"; Sample.statusResponse "PROCESSING";
               Sample.statusResponse "ACTIVE"] [])
           (Sample.statusResponse "PROCESSING") (Sample.statusResponse "PROCESSING")
           (Sample.statusResponse "ACTIVE")
           (JObj [("state", JStr "PROCESSING")]) (JObj [("state", JStr "PROCESSING")])
           (JObj [("state", JStr "ACTIVE")]) []).
  - reflexivity.
  - eexists. repeat split.
  - eexists. repeat split.
  - eexists. repeat split.
Defined.

Lemma polling_failed_witness :
  exists w' entries,
    ends (GeminiClient.waitForFileProcessing Sample.client "doc" (onStatusUpdate false))
         (Sample.world Sample.page
            [Sample.statusResponse "PROCESSING"; Sample.statusResponse "FAILED"] [])
         w' (Throw (Error "File processing failed"))
    /\ log w' = [] ++ entries
    /\ (forall entry, In entry entries -> ~ toGenerationEndpoint Sample.client entry)
    /\ (forall fileUri mimeType,
           ends (fileStatus <-- GeminiClient.waitForFileProcessing Sample.client "doc"
                                  (onStatusUpdate false) ;;
                 GeminiClient.generateSummary Sample.client fileUri mimeType)
                (Sample.world Sample.page
                   [Sample.statusResponse "PROCESSING"; Sample.statusResponse "FAILED"] [])
                w' (Throw (Error "File processing failed")))
    /\ (forall B (k : JsVal -> Async B),
           ends (fileStatus <-- GeminiClient.waitForFileProcessing Sample.client "doc"
                                  (onStatusUpdate false) ;;
                 k fileStatus)
                (Sample.world Sample.page
                   [Sample.statusResponse "PROCESSING"; Sample.statusResponse "FAILED"] [])
                w' (Throw (Error "File processing failed"))).
Proof.
  apply (waitForFileProcessing_failed Sample.client "doc" false
           [Sample.statusResponse "PROCESSING"]
           (Sample.world Sample.page
              [Sample.statusResponse "PROCESSING"; Sample.statusResponse "FAILED"] [])
           (Sample.statusResponse "FAILED") (JObj [("state", JStr "FAILED")]) []).
  - constructor; [| constructor].
    exists (JObj [("state", JStr "PROCESSING")]). eexists. repeat split.
  - reflexivity.
  - eexists. repeat split.
Defined.

Lemma upload_empty_witness :
  exists w' entries,
    ends (GeminiClient.uploadFile Sample.client Sample.file)
         (Sample.world Sample.page [Normal (mkResponse 200 "OK" "" (Throw (SyntaxError "Unexpected end of JSON input")))] [])
         w'
         (Throw (Error "File upload returned empty response. Trying alternative method..."))
    /\ network w' = []
    /\ log w' = [] ++ entries
    /\ requestsOf entries = [ingestionRequest Sample.client Sample.file].
Proof.
  destruct (uploadFile_empty_response Sample.client Sample.file
              (Sample.world Sample.page
                 [Normal (mkResponse 200 "OK" ""
                            (Throw (SyntaxError "Unexpected end of JSON input")))] [])
              (mkResponse 200 "OK" "" (Throw (SyntaxError "Unexpected end of JSON input")))
              [] eq_refl eq_refl (or_introl eq_refl))
    as (w' & entries & H1 & H2 & H3 & H4 & _).
  exists w', entries. auto.
Defined.

(** C3 as stated fails: a successful response whose first candidate has
    content with an empty list of parts has no text-bearing part, yet
    [generateSummary] returns the empty string instead of throwing
    'No summary generated'. *)
Lemma empty_parts_counterexample :
  ~ (forall this fileUri mimeType w r rest result,
        network w = Normal r :: rest ->
        ok r = true ->
        json r = Normal result ->
        hasTextPart result = false ->
        exists w',
          ends (GeminiClient.generateSummary this fileUri mimeType) w w'
               (Throw (Error "No summary generated"))).
Proof.
  intros Hclaim.
  destruct (Hclaim Sample.client "files/doc" "application/pdf"
              (Sample.world Sample.page [Sample.generated "" []] [])
              (mkResponse 200 "OK" ""
                 (Normal (JObj [("candidates",
                    JArr [JObj [("content", JObj [("parts", JArr [])])]])])))
              []
              (JObj [("candidates", JArr [JObj [("content", JObj [("parts", JArr [])])]])])
              eq_refl eq_refl eq_refl eq_refl)
    as [w' Hthrows].
  pose proof (generateSummary_ok Sample.client "files/doc" "application/pdf"
                (Sample.world Sample.page [Sample.generated "" []] [])
                (mkResponse 200 "OK" ""
                   (Normal (JObj [("candidates",
                      JArr [JObj [("content", JObj [("parts", JArr [])])]])])))
                [] eq_refl eq_refl) as Hreturns.
  destruct (ends_unique _ _ _ _ _ _ Hthrows Hreturns) as [_ Heq].
  vm_compute in Heq. discriminate.
Qed.

Lemma no_content_witness :
  ((forall fileUri mimeType, exists w',
       ends (GeminiClient.generateSummary Sample.client fileUri mimeType)
            (Sample.world Sample.page
               [Normal (mkResponse 200 "OK" "{}" (Normal (JObj [])))] [])
            w' (Throw (Error "No summary generated")))
   /\ (forall base64Data mimeType, exists w',
       ends (GeminiClient.generateSummaryFromBase64 Sample.client base64Data mimeType)
            (Sample.world Sample.page
               [Normal (mkResponse 200 "OK" "{}" (Normal (JObj [])))] [])
            w' (Throw (Error "No summary generated"))))
  /\ ((forall fileUri mimeType, exists w',
       ends (GeminiClient.generateSummary Sample.client fileUri mimeType)
            (Sample.world Sample.page
               [Sample.generated ""
                  [JObj [("inlineData", JObj [("data", JStr "JVBERi0=")])];
                   JObj [("text", JStr "")]]] [])
            w' (Normal ""))
      /\ (forall base64Data mimeType, exists w',
          ends (GeminiClient.generateSummaryFromBase64 Sample.client base64Data mimeType)
               (Sample.world Sample.page
                  [Sample.generated ""
                     [JObj [("inlineData", JObj [("data", JStr "JVBERi0=")])];
                      JObj [("text", JStr "")]]] [])
               w' (Normal ""))).
Proof.
  split.
  - apply (proj1 (no_content_or_empty_summary Sample.client
                    (Sample.world Sample.page
                       [Normal (mkResponse 200 "OK" "{}" (Normal (JObj [])))] [])
                    (mkResponse 200 "OK" "{}" (Normal (JObj []))) [] (JObj [])
                    eq_refl eq_refl eq_refl));
      reflexivity.
  - apply (proj2 (proj2 (no_content_or_empty_summary Sample.client
                    (Sample.world Sample.page
                       [Sample.generated ""
                          [JObj [("inlineData", JObj [("data", JStr "JVBERi0=")])];
                           JObj [("text", JStr "")]]] [])
                    (mkResponse 200 "OK" ""
                       (Normal (JObj [("candidates",
                          JArr [JObj [("content", JObj [("parts",
                            JArr [JObj [("inlineData", JObj [("data", JStr "JVBERi0=")])];
                                  JObj [("text", JStr "")]])])]])])))
                    []
                    (JObj [("candidates",
                       JArr [JObj [("content", JObj [("parts",
                         JArr [JObj [("inlineData", JObj [("data", JStr "JVBERi0=")])];
                               JObj [("text", JStr "")]])])]])])
                    eq_refl eq_refl eq_refl))
            [JObj [("inlineData", JObj [("data", JStr "JVBERi0=")])];
             JObj [("text", JStr "")]]).
    + reflexivity.
    + repeat constructor.
    + reflexivity.
Defined.

Lemma summary_witness :
  (forall fileUri mimeType, exists w',
      ends (GeminiClient.generateSummary Sample.client fileUri mimeType)
           (Sample.world Sample.page
              [Sample.generated "" [JObj [("text", JStr "A")]; JObj [("text", JStr "B")]]]
              [])
           w' (Normal (String "A"%char (String "010"%char (String "B"%char EmptyString)))))
  /\ (forall base64Data mimeType, exists w',
      ends (GeminiClient.generateSummaryFromBase64 Sample.client base64Data mimeType)
           (Sample.world Sample.page
              [Sample.generated "" [JObj [("text", JStr "A")]; JObj [("text", JStr "B")]]]
              [])
           w' (Normal (String "A"%char (String "010"%char (String "B"%char EmptyString)))))
  /\ List.map nat_of_ascii
       (list_ascii_of_string
          (String "A"%char (String "010"%char (String "B"%char EmptyString))))
     = [65; 10; 66]%nat.
Proof.
  split; [| split; [| reflexivity]];
    apply (proj2 (proj2 (proj2
             (summary_joins_text_fields Sample.client
                (Sample.world Sample.page
                   [Sample.generated ""
                      [JObj [("text", JStr "A")]; JObj [("text", JStr "B")]]] [])
                (mkResponse 200 "OK" ""
                   (Normal (JObj [("candidates",
                      JArr [JObj [("content",
                        JObj [("parts", JArr [JObj [("text", JStr "A")];
                                              JObj [("text", JStr "B")]])])]])])))
                []
                (JObj [("candidates",
                   JArr [JObj [("content",
                     JObj [("parts", JArr [JObj [("text", JStr "A")];
                                           JObj [("text", JStr "B")]])])]])])
                eq_refl eq_refl eq_refl))));
    reflexivity.
Defined.

Lemma validation_witness :
  exists message w',
    ends PDFSummarizerApp.handleSummarize
         (Sample.world (UploadUI.constructor Sample.page)
            [Sample.generated "" [JObj [("text", JStr "A")]]] [Some "data:,"])
         w' (Normal tt)
    /\ ui (application w')
       = UploadUI.showError message (UploadUI.constructor Sample.page)
    /\ geminiClient (application w') = None
    /\ network w' = [Sample.generated "" [JObj [("text", JStr "A")]]]
    /\ reader w' = [Some "data:,"]
    /\ log w' = []
    /\ message = "Please select a PDF file and enter your API key".
Proof.
  destruct (handleSummarize_validation
              (Sample.world (UploadUI.constructor Sample.page)
                 [Sample.generated "" [JObj [("text", JStr "A")]]] [Some "data:,"])
              (or_introl eq_refl))
    as (message & w' & H1 & H2 & H3 & H4 & H5 & H6 & _ & H8 & _).
  exists message, w'. repeat (split; [assumption |]).
  apply H8. left. reflexivity.
Defined.

Lemma sample_controller_reachable : UploadUI.reachable Sample.controller.
Proof. unfold Sample.controller. repeat constructor. Qed.

Lemma inline_only_witness :
  performsOnly inlineWorkflowEvent PDFSummarizerApp.handleSummarize
  /\ ~ inlineWorkflowEvent _
         (Fetch (baseUrl Sample.client ++ "/files?key=" ++ apiKey Sample.client)
            (mkInit "POST" []
               (FormData [FileEntry "file" Sample.file (file_name Sample.file);
                          BlobEntry "metadata"
                            (JObj [("displayName", JStr (file_name Sample.file))])
                            "application/json"]))).
Proof.
  split.
  - exact (proj1 handleSummarize_inline_only).
  - apply (proj1 (proj2 (proj2 handleSummarize_inline_only)) Sample.client Sample.file).
    reflexivity.
Defined.

(** C7, where the code departs from it: the two strategies do not produce
    the same result on every response.  On an HTTP failure whose body is
    not JSON (status 502 with an HTML page) [generateSummaryFromBase64],
    which guards [JSON.parse], throws the Error 'Failed to generate
    summary: 502 Bad Gateway', while [generateSummary], which awaits
    [response.json()] unguarded, is rejected with the SyntaxError of the
    parser: no outcome is common to the two runs. *)
Theorem strategies_differ_on_unparsable_failure :
  (exists w',
      ends (GeminiClient.generateSummary Sample.client "files/doc" "application/pdf")
           (Sample.world Sample.page [Normal Sample.badGateway] []) w'
           (Throw (SyntaxError "Unexpected token < in JSON at position 0")))
  /\ (exists w',
      ends (GeminiClient.generateSummaryFromBase64 Sample.client (JStr "JVBERi0=")
              "application/pdf")
           (Sample.world Sample.page [Normal Sample.badGateway] []) w'
           (Throw (Error "Failed to generate summary: 502 Bad Gateway")))
  /\ ~ (exists wA wB outcome,
          ends (GeminiClient.generateSummary Sample.client "files/doc" "application/pdf")
               (Sample.world Sample.page [Normal Sample.badGateway] []) wA outcome
          /\ ends (GeminiClient.generateSummaryFromBase64 Sample.client (JStr "JVBERi0=")
                     "application/pdf")
                  (Sample.world Sample.page [Normal Sample.badGateway] []) wB outcome).
Proof.
  assert (HA : ends (GeminiClient.generateSummary Sample.client "files/doc"
                       "application/pdf")
                    (Sample.world Sample.page [Normal Sample.badGateway] [])
                    (mkWorld (mkApp Sample.page None) [] []
                       [fileDataRequest Sample.client "files/doc" "application/pdf"])
                    (Throw (SyntaxError "Unexpected token < in JSON at position 0"))).
  { unfold GeminiClient.generateSummary.
    eapply ends_then. { apply ends_fetch. reflexivity. }
    cbn. apply ends_abrupt. apply ends_eval. }
  assert (HB : ends (GeminiClient.generateSummaryFromBase64 Sample.client
                       (JStr "JVBERi0=") "application/pdf")
                    (Sample.world Sample.page [Normal Sample.badGateway] [])
                    (mkWorld (mkApp Sample.page None) [] []
                       [inlineDataRequest Sample.client (JStr "JVBERi0=")
                          "application/pdf"])
                    (Throw (Error "Failed to generate summary: 502 Bad Gateway"))).
  { unfold GeminiClient.generateSummaryFromBase64.
    eapply ends_then. { apply ends_fetch. reflexivity. }
    cbn. apply ends_throw. }
  split; [eexists; exact HA | split; [eexists; exact HB |]].
  intros (wA & wB & outcome & HA' & HB').
  destruct (ends_unique _ _ _ _ _ _ HA HA') as [_ EA].
  destruct (ends_unique _ _ _ _ _ _ HB HB') as [_ EB].
  rewrite <- EA in EB. discriminate.
Qed.

(** The end-to-end scenario: a 2 MB PDF, a key, and a generation answer
    with the one text part "This document discusses X.". *)
Example handleSummarize_end_to_end :
  exists w',
    ends PDFSummarizerApp.handleSummarize
         (Sample.world Sample.controller
            [Sample.generated "" [JObj [("text", JStr "This document discusses X.")]]]
            [Some "data:application/pdf;base64,JVBERi0xLjc="])
         w' (Normal tt)
    /\ UploadUI.summaryContent_textContent (ui (application w'))
       = "This document discusses X."
    /\ UploadUI.resultSection_display (ui (application w')) = "block"
    /\ UploadUI.loadingSection_display (ui (application w')) = "none"
    /\ UploadUI.summarizeBtn_disabled (ui (application w')) = false
    /\ log w' = [FileRead Sample.file;
                 inlineDataRequest Sample.client (JStr "JVBERi0xLjc=") "application/pdf"].
Proof.
  eexists. split.
  - enter_handleSummarize. cbn.
    apply ends_try_normal.
    eapply ends_then. { apply ends_ui_call. }
    eapply ends_then.
    { eapply ends_then. { apply ends_request. reflexivity. }
      apply ends_request. reflexivity. }
    eapply ends_then. { apply ends_this_geminiClient. reflexivity. }
    eapply ends_then.
    { unfold GeminiClient.uploadFileBase64.
      eapply ends_then. { apply ends_request. reflexivity. }
      apply ends_ret. }
    eapply ends_then. { apply ends_this_geminiClient. reflexivity. }
    eapply ends_then_eq.
    { apply generateSummaryFromBase64_ok; reflexivity. }
    { vm_compute. reflexivity. }
    eapply ends_then. { apply ends_ui_call. }
    apply ends_ui_call.
  - repeat split.
Qed.

(** * Further properties of the code *)

(** ** uploadFile *)

(** The first steps of [uploadFile]: log, send, log the status and text. *)
Ltac enter_uploadFile Hnet :=
  unfold GeminiClient.uploadFile;
  eapply ends_then; [apply ends_request; reflexivity |];
  eapply ends_then; [apply ends_fetch; cbn; exact Hnet |];
  eapply ends_then; [apply ends_request; reflexivity |];
  eapply ends_then; [apply ends_request; reflexivity |].

Lemma not_empty_test responseText :
  responseText <> "" -> trim responseText <> "" -> responseText <> "{}" ->
  (String.eqb responseText "" || String.eqb (trim responseText) ""
   || String.eqb responseText "{}")%bool = false.
Proof.
  intros H1 H2 H3.
  rewrite (proj2 (String.eqb_neq _ _) H1), (proj2 (String.eqb_neq _ _) H2),
    (proj2 (String.eqb_neq _ _) H3).
  reflexivity.
Qed.

(** X1: an upload answered with HTTP success and a body that is neither
    empty, blank nor '{}' returns the parsed body, after exactly one
    request; if the body does not parse, the call throws
    'Invalid JSON response: ' followed by the body. *)
Theorem uploadFile_parsed_body :
  forall this file w r rest,
    network w = Normal r :: rest ->
    ok r = true ->
    text r <> "" -> trim (text r) <> "" -> text r <> "{}" ->
    exists w',
      ends (GeminiClient.uploadFile this file) w w'
           (match json r with
            | Normal result => Normal result
            | Throw _ => Throw (Error ("Invalid JSON response: " ++ text r))
            end)
      /\ network w' = rest
      /\ requestsOf (log w') = requestsOf (log w) ++ [ingestionRequest this file]
      /\ application w' = application w.
Proof.
  intros this file w r rest Hnet Hok H1 H2 H3.
  pose proof (not_empty_test _ H1 H2 H3) as Htest.
  destruct (json r) as [result | e] eqn:Hjson.
  - eexists. split.
    + enter_uploadFile Hnet. rewrite Hok, Htest, Hjson. cbn [negb].
      eapply ends_then. { apply ends_request. reflexivity. }
      apply ends_ret.
    + cbn [network log application]. repeat split.
      unfold requestsOf. rewrite <- !app_assoc, filter_app. reflexivity.
  - eexists. split.
    + enter_uploadFile Hnet. rewrite Hok, Htest, Hjson. cbn [negb].
      apply ends_throw.
    + cbn [network log application]. repeat split.
      unfold requestsOf. rewrite <- !app_assoc, filter_app. reflexivity.
Qed.

Lemma failureOf_message error fallback m :
  serviceMessage error = Normal (JStr m) -> m <> "" ->
  thrownFor error fallback = Error m.
Proof.
  unfold serviceMessage, thrownFor, failureOf. intros H Hm.
  destruct (getProp error "error") as [inner | e]; [| discriminate].
  cbn [andThen] in *. rewrite H. cbn [andThen]. unfold or_else. cbn [truthy].
  rewrite (proj2 (String.eqb_neq _ _) Hm). reflexivity.
Qed.

Lemma failureOf_default error fallback v :
  serviceMessage error = Normal v -> truthy v = false ->
  thrownFor error fallback = Error fallback.
Proof.
  unfold serviceMessage, thrownFor, failureOf. intros H Hv.
  destruct (getProp error "error") as [inner | e]; [| discriminate].
  cbn [andThen] in *. rewrite H. cbn [andThen]. unfold or_else. rewrite Hv.
  reflexivity.
Qed.

Lemma failureOf_throws error fallback e :
  serviceMessage error = Throw e -> thrownFor error fallback = e.
Proof.
  unfold serviceMessage, thrownFor, failureOf. intros H.
  destruct (getProp error "error") as [inner | e']; cbn [andThen] in *.
  - rewrite H. reflexivity.
  - inversion H. reflexivity.
Qed.

(** The exception of an HTTP failure is thrown, whichever way it is built. *)
Lemma ends_failure {A} error fallback w :
  ends (e <-- eval (let? inner := getProp error "error" in
                    let? message := getPropOpt inner "message" in
                    newError (or_else message (JStr fallback))) ;;
        @Browser.throw A e) w w (Throw (thrownFor error fallback)).
Proof.
  fold (failureOf error fallback). unfold thrownFor.
  destruct (failureOf error fallback) as [e | e].
  - eapply ends_then; [apply ends_eval | apply ends_throw].
  - apply ends_abrupt. apply ends_eval.
Qed.

(** X2: an upload answered with an HTTP failure never returns a record.
    It throws the service's [error.message] when the body is JSON carrying
    one, 'Failed to upload file: <status>' when the JSON carries none, and
    'Failed to upload file: <status> <statusText>' when the body is not
    JSON; a JSON body [null] makes the property read itself throw. *)
Theorem uploadFile_http_failure :
  forall this file w r rest,
    network w = Normal r :: rest ->
    ok r = false ->
    exists w' thrown,
      ends (GeminiClient.uploadFile this file) w w' (Throw thrown)
      /\ network w' = rest
      /\ requestsOf (log w') = requestsOf (log w) ++ [ingestionRequest this file]
      /\ (forall e, json r = Throw e ->
            thrown = Error ("Failed to upload file: " ++ showZ (status r)
                            ++ " " ++ statusText r))
      /\ (forall error m,
            json r = Normal error -> serviceMessage error = Normal (JStr m) ->
            m <> "" -> thrown = Error m)
      /\ (forall error v,
            json r = Normal error -> serviceMessage error = Normal v ->
            truthy v = false ->
            thrown = Error ("Failed to upload file: " ++ showZ (status r)))
      /\ (forall error e,
            json r = Normal error -> serviceMessage error = Throw e -> thrown = e).
Proof.
  intros this file w r rest Hnet Hok.
  destruct (json r) as [error | e] eqn:Hjson.
  - eexists. exists (thrownFor error ("Failed to upload file: " ++ showZ (status r))).
    split; [| split; [| split; [| split; [| split; [| split]]]]].
    + enter_uploadFile Hnet. rewrite Hok, Hjson. cbn [negb].
      apply ends_failure.
    + reflexivity.
    + cbn [log]. unfold requestsOf. rewrite <- !app_assoc, filter_app. reflexivity.
    + intros e He. discriminate.
    + intros error' m He Hm Hne. inversion He. subst error'.
      apply failureOf_message; assumption.
    + intros error' v He Hv Hfalsy. inversion He. subst error'.
      eapply failureOf_default; eassumption.
    + intros error' e He Hthrows. inversion He. subst error'.
      apply failureOf_throws. assumption.
  - eexists. eexists.
    split; [| split; [| split; [| split; [| split; [| split]]]]].
    + enter_uploadFile Hnet. rewrite Hok, Hjson. cbn [negb].
      apply ends_throw.
    + reflexivity.
    + cbn [log]. unfold requestsOf. rewrite <- !app_assoc, filter_app. reflexivity.
    + intros e0 _. reflexivity.
    + intros error m He. discriminate.
    + intros error v He. discriminate.
    + intros error e0 He. discriminate.
Qed.

(** ** getFileStatus *)

Lemma startsWith_append (p s : string) : startsWith (p ++ s) p = true.
Proof.
  unfold startsWith. induction p as [| a p IH]; cbn -[ascii_dec];
    [destruct s; reflexivity |].
  destruct (ascii_dec a a) as [_ | Hne]; [exact IH | exfalso; apply Hne; reflexivity].
Qed.

(** X3: a file name is addressed the same with or without its 'files/'
    prefix: [getFileStatus] and [waitForFileProcessing] on 'files/' ++ name
    are the very programs they are on the name. *)
Theorem fileName_prefix_optional :
  forall this fileName,
    startsWith fileName "files/" = false ->
    GeminiClient.getFileStatus this ("files/" ++ fileName)
    = GeminiClient.getFileStatus this fileName
    /\ (forall callback,
           GeminiClient.waitForFileProcessing this ("files/" ++ fileName) callback
           = GeminiClient.waitForFileProcessing this fileName callback)
    /\ statusRequest this ("files/" ++ fileName) = statusRequest this fileName.
Proof.
  intros this fileName Hprefix.
  assert (Hstatus : GeminiClient.getFileStatus this ("files/" ++ fileName)
                    = GeminiClient.getFileStatus this fileName).
  { unfold GeminiClient.getFileStatus.
    rewrite Hprefix, (startsWith_append "files/" fileName). reflexivity. }
  split; [exact Hstatus | split].
  - intros callback. unfold GeminiClient.waitForFileProcessing.
    rewrite Hstatus. reflexivity.
  - unfold statusRequest.
    rewrite Hprefix, (startsWith_append "files/" fileName). reflexivity.
Qed.

Lemma getFileStatus_answered this fileName w answer rest :
  network w = answer :: rest ->
  ends (GeminiClient.getFileStatus this fileName) w
       (mkWorld (application w) rest (reader w) (log w ++ [statusRequest this fileName]))
       (statusOutcome answer).
Proof.
  intros Hnet. unfold GeminiClient.getFileStatus.
  destruct answer as [r | e]; cbn [statusOutcome].
  - eapply ends_then. { apply ends_fetch. exact Hnet. }
    destruct (ok r); cbn [negb].
    + apply ends_eval.
    + destruct (json r) as [error | e].
      * apply ends_failure.
      * apply ends_throw.
  - apply ends_abrupt. apply ends_fetch. exact Hnet.
Qed.

(** X4: a status request answered with an HTTP failure throws the
    service's [error.message] when the body is JSON carrying one,
    'Failed to get file status' when it carries none, and
    'Failed to get file status: <status> <statusText>' when the body is
    not JSON; a rejected request rejects the call with the same reason. *)
Theorem getFileStatus_failure :
  forall this fileName w answer rest,
    network w = answer :: rest ->
    (forall r, answer = Normal r -> ok r = false) ->
    exists w' thrown,
      ends (GeminiClient.getFileStatus this fileName) w w' (Throw thrown)
      /\ network w' = rest
      /\ log w' = log w ++ [statusRequest this fileName]
      /\ (forall e, answer = Throw e -> thrown = e)
      /\ (forall r e, answer = Normal r -> json r = Throw e ->
            thrown = Error ("Failed to get file status: " ++ showZ (status r)
                            ++ " " ++ statusText r))
      /\ (forall r error m,
            answer = Normal r -> json r = Normal error ->
            serviceMessage error = Normal (JStr m) -> m <> "" -> thrown = Error m)
      /\ (forall r error v,
            answer = Normal r -> json r = Normal error ->
            serviceMessage error = Normal v -> truthy v = false ->
            thrown = Error "Failed to get file status").
Proof.
  intros this fileName w answer rest Hnet Hfail.
  pose proof (getFileStatus_answered this fileName w answer rest Hnet) as Hends.
  destruct answer as [r | e]; cbn [statusOutcome] in Hends.
  - rewrite (Hfail r eq_refl) in Hends.
    destruct (json r) as [error | e] eqn:Hjson.
    + eexists. eexists. split; [exact Hends |].
      split; [reflexivity |]. split; [reflexivity |].
      split; [intros e H; discriminate |].
      split; [intros r' e H H'; inversion H; subst r'; congruence |].
      split.
      * intros r' error' m H H' Hm Hne. inversion H. subst r'.
        rewrite Hjson in H'. inversion H'. subst error'.
        apply failureOf_message; assumption.
      * intros r' error' v H H' Hv Hfalsy. inversion H. subst r'.
        rewrite Hjson in H'. inversion H'. subst error'.
        eapply failureOf_default; eassumption.
    + eexists. eexists. split; [exact Hends |].
      split; [reflexivity |]. split; [reflexivity |].
      split; [intros e0 H; discriminate |].
      split; [intros r' e0 H _; inversion H; reflexivity |].
      split.
      * intros r' error m H H'. inversion H. subst r'. congruence.
      * intros r' error v H H'. inversion H. subst r'. congruence.
  - eexists. eexists. split; [exact Hends |].
    split; [reflexivity |]. split; [reflexivity |].
    split; [intros e0 H; inversion H; reflexivity |].
    split; [intros r e0 H; discriminate |].
    split; intros r error ? H; discriminate.
Qed.

(** ** waitForFileProcessing *)

Lemma carries_outcome answer status :
  carries answer "PROCESSING" status ->
  statusOutcome answer = Normal status
  /\ GeminiClient.getState status = Normal (JStr "PROCESSING").
Proof.
  intros (r & -> & Hok & Hjson & Hstate). cbn [statusOutcome].
  rewrite Hok. auto.
Qed.

Lemma polling_turn_any this fileName supplied status w answer rest :
  GeminiClient.getState status = Normal (JStr "PROCESSING") ->
  network w = answer :: rest ->
  ends (currentState <-- eval (GeminiClient.getState status) ;;
        match onStatusUpdate supplied with
        | Some callback => callback currentState
        | None => Browser.ret tt
        end ;;;
        request (SetTimeout 5000) ;;;
        GeminiClient.getFileStatus this fileName)
       w
       (mkWorld (application w) rest (reader w) (log w ++ round this fileName supplied))
       (statusOutcome answer).
Proof.
  intros Hstate Hnet.
  rewrite Hstate.
  eapply ends_then. { apply ends_eval. }
  destruct supplied; cbn [onStatusUpdate].
  - eapply ends_then. { unfold recorder. apply ends_request. reflexivity. }
    eapply ends_then. { apply ends_request. reflexivity. }
    replace (log w ++ round this fileName true)
      with (((log w ++ [Notified (JStr "PROCESSING")]) ++ [Slept 5000])
            ++ [statusRequest this fileName])
      by (unfold round; rewrite <- !app_assoc; reflexivity).
    apply (getFileStatus_answered this fileName
             (mkWorld (application w) (network w) (reader w)
                ((log w ++ [Notified (JStr "PROCESSING")]) ++ [Slept 5000]))
             answer rest).
    exact Hnet.
  - eapply ends_then. { apply ends_ret. }
    eapply ends_then. { apply ends_request. reflexivity. }
    replace (log w ++ round this fileName false)
      with ((log w ++ [Slept 5000]) ++ [statusRequest this fileName])
      by (unfold round; rewrite <- !app_assoc; reflexivity).
    apply (getFileStatus_answered this fileName
             (mkWorld (application w) (network w) (reader w) (log w ++ [Slept 5000]))
             answer rest).
    exact Hnet.
Qed.

(** The loop from a status that is not, or cannot be seen to be, in
    state PROCESSING. *)
Lemma pollingLoop_stops this fileName supplied answer status w :
  stopsPolling answer ->
  statusOutcome answer = Normal status ->
  ends (pollingLoop this fileName supplied status) w w
       (let? state := GeminiClient.getState status in Normal status).
Proof.
  intros Hstops Hstatus. unfold pollingLoop.
  destruct (GeminiClient.getState status) as [state | e] eqn:Hstate; cbn [andThen].
  - apply ends_while_exit. rewrite Hstate. cbn [andThen].
    rewrite (Hstops status state Hstatus Hstate). reflexivity.
  - apply ends_while_cond_throws. rewrite Hstate. reflexivity.
Qed.

Lemma pollingLoop_any this fileName supplied :
  forall pending status w final rest,
    Forall (fun a => exists s, carries a "PROCESSING" s) pending ->
    GeminiClient.getState status = Normal (JStr "PROCESSING") ->
    network w = pending ++ final :: rest ->
    stopsPolling final ->
    ends (pollingLoop this fileName supplied status) w
         (mkWorld (application w) rest (reader w)
                  (log w ++ rounds (S (length pending)) this fileName supplied))
         (let? status := statusOutcome final in
          let? state := GeminiClient.getState status in
          Normal status).
Proof.
  induction pending as [| a pending IH];
    intros status w final rest Hall Hstate Hnet Hstops.
  - cbn [List.app length rounds] in *. rewrite app_nil_r.
    unfold pollingLoop.
    destruct (statusOutcome final) as [sf | e] eqn:Hfinal; cbn [andThen].
    + eapply ends_while_again.
      * rewrite Hstate. reflexivity.
      * rewrite <- Hfinal. apply polling_turn_any; eassumption.
      * apply (pollingLoop_stops this fileName supplied final sf); assumption.
    + eapply ends_while_body_throws.
      * rewrite Hstate. reflexivity.
      * rewrite <- Hfinal. apply polling_turn_any; eassumption.
  - inversion Hall as [| ? ? (s & Hs) Hall']; subst.
    destruct (carries_outcome _ _ Hs) as [Hout Hsstate].
    cbn [List.app] in Hnet.
    unfold pollingLoop.
    eapply ends_while_again.
    + rewrite Hstate. reflexivity.
    + rewrite <- Hout. apply polling_turn_any; eassumption.
    + fold (pollingLoop this fileName supplied).
      cbn [length]. change (rounds (S (S (length pending))) this fileName supplied)
        with (round this fileName supplied
              ++ rounds (S (length pending)) this fileName supplied).
      rewrite app_assoc.
      apply (IH s (mkWorld (application w) (pending ++ final :: rest) (reader w)
                     (log w ++ round this fileName supplied))
                final rest); auto.
Qed.

(** Any polling sequence, whatever ends it. *)
Lemma waitForFileProcessing_any this fileName supplied :
  forall pending w final rest,
    Forall (fun a => exists s, carries a "PROCESSING" s) pending ->
    network w = pending ++ final :: rest ->
    stopsPolling final ->
    ends (GeminiClient.waitForFileProcessing this fileName (onStatusUpdate supplied)) w
         (mkWorld (application w) rest (reader w)
                  (log w ++ statusRequest this fileName
                         :: rounds (length pending) this fileName supplied))
         (pollingResult final).
Proof.
  intros pending w final rest Hall Hnet Hstops.
  unfold GeminiClient.waitForFileProcessing.
  fold (pollingLoop this fileName supplied).
  assert (Hloop : forall w0 w1 c,
            ends (pollingLoop this fileName supplied c) w0 w1
                 (let? state := GeminiClient.getState c in Normal c) ->
            ends
              (fileStatus <-- pollingLoop this fileName supplied c ;;
               failed <-- eval (let? state := GeminiClient.getState fileStatus in
                                Normal (strict_eq_str state "FAILED")) ;;
               if (failed : bool) then Browser.throw (Error "File processing failed")
               else Browser.ret fileStatus) w0 w1
              (let? state := GeminiClient.getState c in
               if strict_eq_str state "FAILED" then Throw (Error "File processing failed")
               else Normal c)).
  { intros w0 w1 c Hl.
    destruct (GeminiClient.getState c) as [state | e] eqn:Hc; cbn [andThen] in *.
    - eapply ends_then. { exact Hl. }
      rewrite Hc. cbn [andThen].
      eapply ends_then. { apply ends_eval. }
      destruct (strict_eq_str state "FAILED"); [apply ends_throw | apply ends_ret].
    - apply ends_abrupt. exact Hl. }
  unfold pollingResult.
  destruct pending as [| a pending].
  - cbn [List.app] in Hnet. cbn [length rounds].
    destruct (statusOutcome final) as [sf | e] eqn:Hfinal; cbn [andThen].
    + eapply ends_then.
      { rewrite <- Hfinal. apply getFileStatus_answered. exact Hnet. }
      apply Hloop.
      apply (pollingLoop_stops this fileName supplied final sf); assumption.
    + apply ends_abrupt. rewrite <- Hfinal. apply getFileStatus_answered. exact Hnet.
  - inversion Hall as [| ? ? (s & Hs) Hall']; subst.
    destruct (carries_outcome _ _ Hs) as [Hout Hsstate].
    cbn [List.app] in Hnet.
    eapply ends_then.
    { rewrite <- Hout. apply getFileStatus_answered. exact Hnet. }
    replace (log w ++ statusRequest this fileName
                   :: rounds (length (a :: pending)) this fileName supplied)
      with ((log w ++ [statusRequest this fileName])
            ++ rounds (S (length pending)) this fileName supplied)
      by (rewrite <- app_assoc; reflexivity).
    pose proof (pollingLoop_any this fileName supplied pending s
                  (mkWorld (application w) (pending ++ final :: rest) (reader w)
                     (log w ++ [statusRequest this fileName]))
                  final rest Hall' Hsstate eq_refl Hstops) as Hl.
    cbn [application network reader log] in Hl.
    destruct (statusOutcome final) as [sf | e] eqn:Hfinal; cbn [andThen] in *.
    + destruct (GeminiClient.getState sf) as [state | e] eqn:Hsf; cbn [andThen] in *.
      * eapply ends_then. { exact Hl. }
        rewrite Hsf. cbn [andThen].
        eapply ends_then. { apply ends_eval. }
        destruct (strict_eq_str state "FAILED"); [apply ends_throw | apply ends_ret].
      * apply ends_abrupt. exact Hl.
    + apply ends_abrupt. exact Hl.
Qed.

Lemma delays_app l1 l2 : delays (l1 ++ l2) = delays l1 ++ delays l2.
Proof.
  induction l1 as [| entry l1 IH]; [reflexivity |].
  destruct entry; cbn; rewrite ?IH; reflexivity.
Qed.

Lemma notifications_app l1 l2 :
  notifications (l1 ++ l2) = notifications l1 ++ notifications l2.
Proof.
  induction l1 as [| entry l1 IH]; [reflexivity |].
  destruct entry; cbn; rewrite ?IH; reflexivity.
Qed.

Lemma delays_rounds n this fileName supplied :
  delays (rounds n this fileName supplied) = repeat 5000 n.
Proof.
  induction n as [| n IH]; [reflexivity |].
  cbn [rounds repeat]. rewrite delays_app, IH. destruct supplied; reflexivity.
Qed.

Lemma notifications_rounds n this fileName supplied :
  notifications (rounds n this fileName supplied)
  = if supplied then repeat (JStr "PROCESSING") n else [].
Proof.
  induction n as [| n IH]; [destruct supplied; reflexivity |].
  cbn [rounds repeat]. rewrite notifications_app, IH. destruct supplied; reflexivity.
Qed.

Lemma requestsOf_rounds n this fileName supplied :
  requestsOf (rounds n this fileName supplied) = repeat (statusRequest this fileName) n.
Proof.
  induction n as [| n IH]; [reflexivity |].
  cbn [rounds repeat]. unfold requestsOf in *. rewrite filter_app, IH.
  destruct supplied; reflexivity.
Qed.

(** X5: the polling has no bound of its own: after any number n of
    answers in state PROCESSING and one that ends the polling, the call
    has waited n times 5000 ms, notified the callback n times with
    "PROCESSING" and sent n + 1 status requests, all the same. *)
Theorem polling_counts :
  forall this fileName supplied pending w final rest,
    Forall (fun a => exists s, carries a "PROCESSING" s) pending ->
    network w = pending ++ final :: rest ->
    stopsPolling final ->
    exists w' entries,
      ends (GeminiClient.waitForFileProcessing this fileName (onStatusUpdate supplied))
           w w' (pollingResult final)
      /\ network w' = rest
      /\ log w' = log w ++ entries
      /\ delays entries = repeat 5000 (length pending)
      /\ notifications entries
         = (if supplied then repeat (JStr "PROCESSING") (length pending) else [])
      /\ requestsOf entries
         = repeat (statusRequest this fileName) (S (length pending)).
Proof.
  intros this fileName supplied pending w final rest Hall Hnet Hstops.
  eexists. eexists. split.
  { apply waitForFileProcessing_any; eassumption. }
  split; [reflexivity |]. split; [reflexivity |].
  split; [| split].
  - cbn [delays]. apply delays_rounds.
  - cbn [notifications]. apply notifications_rounds.
  - change (requestsOf (statusRequest this fileName
                       :: rounds (length pending) this fileName supplied))
      with (statusRequest this fileName
            :: requestsOf (rounds (length pending) this fileName supplied)).
    rewrite requestsOf_rounds. reflexivity.
Qed.

(** X6: a first status that shows neither PROCESSING nor FAILED, a status
    without any state included, is returned as ready after the single
    request: no delay, no notification. *)
Theorem other_state_is_ready :
  forall this fileName supplied w r rest status state,
    network w = Normal r :: rest ->
    ok r = true ->
    json r = Normal status ->
    GeminiClient.getState status = Normal state ->
    strict_eq_str state "PROCESSING" = false ->
    strict_eq_str state "FAILED" = false ->
    ends (GeminiClient.waitForFileProcessing this fileName (onStatusUpdate supplied)) w
         (mkWorld (application w) rest (reader w) (log w ++ [statusRequest this fileName]))
         (Normal status)
    /\ (forall props,
           lookup "state" props = None -> lookup "file" props = None ->
           GeminiClient.getState (JObj props) = Normal JUndefined).
Proof.
  intros this fileName supplied w r rest status state Hnet Hok Hjson Hstate Hp Hf.
  split.
  - pose proof (waitForFileProcessing_any this fileName supplied [] w (Normal r) rest
                  (Forall_nil _) Hnet) as Hends.
    unfold pollingResult in Hends. cbn [statusOutcome length rounds] in Hends.
    rewrite Hok, Hjson in Hends. cbn [andThen] in Hends.
    rewrite Hstate in Hends. cbn [andThen] in Hends. rewrite Hf in Hends.
    apply Hends.
    intros status' state' Hs Hs'. cbn [statusOutcome] in Hs.
    rewrite Hok, Hjson in Hs. inversion Hs. subst status'.
    rewrite Hstate in Hs'. inversion Hs'. subst state'. exact Hp.
  - intros props Hs Hfile. unfold GeminiClient.getState. cbn [getProp].
    rewrite Hs, Hfile. reflexivity.
Qed.

(** X7: an error while polling ends the call with that error and leaves
    the answers that follow unread: a rejected or failed status request
    after any number of PROCESSING answers, or a status body [null], on
    which reading the state throws. *)
Theorem polling_error :
  forall this fileName supplied pending w final rest e,
    Forall (fun a => exists s, carries a "PROCESSING" s) pending ->
    network w = pending ++ final :: rest ->
    statusOutcome final = Throw e
    \/ (statusOutcome final = Normal JNull /\ e = cannot_read "null" "state") ->
    exists w',
      ends (GeminiClient.waitForFileProcessing this fileName (onStatusUpdate supplied))
           w w' (Throw e)
      /\ network w' = rest
      /\ delays (skipn (List.length (log w)) (log w')) = repeat 5000 (length pending).
Proof.
  intros this fileName supplied pending w final rest e Hall Hnet Hfinal.
  assert (Hstops : stopsPolling final).
  { intros status state Hs Hstate. destruct Hfinal as [H | [H _]]; rewrite H in Hs.
    - discriminate.
    - inversion Hs. subst status. discriminate. }
  pose proof (waitForFileProcessing_any this fileName supplied pending w final rest
                Hall Hnet Hstops) as Hends.
  assert (Hresult : pollingResult final = Throw e).
  { unfold pollingResult. destruct Hfinal as [H | [H ->]]; rewrite H; reflexivity. }
  rewrite Hresult in Hends.
  eexists. split; [exact Hends |]. split; [reflexivity |].
  cbn [log]. rewrite skipn_app, skipn_all, Nat.sub_diag. cbn [skipn List.app delays].
  apply delays_rounds.
Qed.

(** ** generateSummary and generateSummaryFromBase64 *)

Lemma generateSummary_failed this fileUri mimeType w r rest :
  network w = Normal r :: rest ->
  ok r = false ->
  ends (GeminiClient.generateSummary this fileUri mimeType) w
       (mkWorld (application w) rest (reader w) (log w ++ [fileDataRequest this fileUri mimeType]))
       (match json r with
        | Normal error => Throw (thrownFor error "Failed to generate summary")
        | Throw e => Throw e
        end).
Proof.
  intros Hnet Hok. unfold GeminiClient.generateSummary.
  eapply ends_then. { apply ends_fetch. exact Hnet. }
  rewrite Hok. cbn [negb].
  destruct (json r) as [error | e].
  - eapply ends_then. { apply ends_eval. } apply ends_failure.
  - apply ends_abrupt. apply ends_eval.
Qed.

Lemma generateSummaryFromBase64_failed this base64Data mimeType w r rest :
  network w = Normal r :: rest ->
  ok r = false ->
  ends (GeminiClient.generateSummaryFromBase64 this base64Data mimeType) w
       (mkWorld (application w) rest (reader w)
                (log w ++ [inlineDataRequest this base64Data mimeType]))
       (match json r with
        | Normal error => Throw (thrownFor error "Failed to generate summary")
        | Throw _ =>
            Throw (Error ("Failed to generate summary: " ++ showZ (status r)
                          ++ " " ++ statusText r))
        end).
Proof.
  intros Hnet Hok. unfold GeminiClient.generateSummaryFromBase64.
  eapply ends_then. { apply ends_fetch. exact Hnet. }
  rewrite Hok. cbn [negb].
  destruct (json r) as [error | e].
  - apply ends_failure.
  - apply ends_throw.
Qed.

(** Apart from an HTTP failure whose body is not JSON, the two strategies
    complete alike on every answer of the generation endpoint: the same
    summary, or the same exception. *)
Lemma strategies_agree this fileUri base64Data mimeTypeA mimeTypeB w answer rest :
  network w = answer :: rest ->
  ~ unparsableFailure answer ->
  exists wA wB outcome,
    ends (GeminiClient.generateSummary this fileUri mimeTypeA) w wA outcome
    /\ ends (GeminiClient.generateSummaryFromBase64 this base64Data mimeTypeB) w wB outcome
    /\ network wA = rest /\ network wB = rest.
Proof.
  intros Hnet Hparsable.
  destruct answer as [r | e].
  - destruct (ok r) eqn:Hok.
    + eexists. eexists. eexists. split; [| split; [| split]].
      * apply generateSummary_ok; eassumption.
      * apply generateSummaryFromBase64_ok; eassumption.
      * reflexivity.
      * reflexivity.
    + destruct (json r) as [error | e] eqn:Hjson.
      * pose proof (generateSummary_failed this fileUri mimeTypeA w r rest Hnet Hok) as HA.
        pose proof (generateSummaryFromBase64_failed this base64Data mimeTypeB w r rest
                      Hnet Hok) as HB.
        rewrite Hjson in HA, HB.
        eexists. eexists. eexists. split; [exact HA | split; [exact HB | split]];
          reflexivity.
      * exfalso. apply Hparsable. exists r, e. auto.
  - eexists. eexists. eexists. split; [| split; [| split]].
    + apply generateSummary_rejected; eassumption.
    + apply generateSummaryFromBase64_rejected; eassumption.
    + reflexivity.
    + reflexivity.
Qed.

(** X8: whatever the generation endpoint answers, either strategy sends
    exactly one request, its own, reads exactly that one answer and leaves
    the application object alone: nothing is retried. *)
Theorem generation_single_request :
  forall this w answer rest,
    network w = answer :: rest ->
    (forall fileUri mimeType, exists outcome,
        ends (GeminiClient.generateSummary this fileUri mimeType) w
             (mkWorld (application w) rest (reader w)
                      (log w ++ [fileDataRequest this fileUri mimeType]))
             outcome)
    /\ (forall base64Data mimeType, exists outcome,
        ends (GeminiClient.generateSummaryFromBase64 this base64Data mimeType) w
             (mkWorld (application w) rest (reader w)
                      (log w ++ [inlineDataRequest this base64Data mimeType]))
             outcome).
Proof.
  intros this w answer rest Hnet.
  destruct answer as [r | e].
  - destruct (ok r) eqn:Hok; split; intros; eexists.
    + apply generateSummary_ok; eassumption.
    + apply generateSummaryFromBase64_ok; eassumption.
    + apply generateSummary_failed; eassumption.
    + apply generateSummaryFromBase64_failed; eassumption.
  - split; intros; eexists.
    + apply generateSummary_rejected; eassumption.
    + apply generateSummaryFromBase64_rejected; eassumption.
Qed.

(** X9: on an HTTP failure of the generation endpoint both strategies
    throw the service's [error.message] when the body is JSON carrying
    one and 'Failed to generate summary' when it carries none.  When the
    body is not JSON, [generateSummaryFromBase64] throws
    'Failed to generate summary: <status> <statusText>' while
    [generateSummary] lets the parse error through. *)
Theorem generation_http_failure :
  forall this w r rest,
    network w = Normal r :: rest ->
    ok r = false ->
    (forall error m,
        json r = Normal error -> serviceMessage error = Normal (JStr m) -> m <> "" ->
        (forall fileUri mimeType, exists w',
            ends (GeminiClient.generateSummary this fileUri mimeType) w w'
                 (Throw (Error m)))
        /\ (forall base64Data mimeType, exists w',
            ends (GeminiClient.generateSummaryFromBase64 this base64Data mimeType) w w'
                 (Throw (Error m))))
    /\ (forall error v,
        json r = Normal error -> serviceMessage error = Normal v -> truthy v = false ->
        (forall fileUri mimeType, exists w',
            ends (GeminiClient.generateSummary this fileUri mimeType) w w'
                 (Throw (Error "Failed to generate summary")))
        /\ (forall base64Data mimeType, exists w',
            ends (GeminiClient.generateSummaryFromBase64 this base64Data mimeType) w w'
                 (Throw (Error "Failed to generate summary"))))
    /\ (forall e,
        json r = Throw e ->
        (forall fileUri mimeType, exists w',
            ends (GeminiClient.generateSummary this fileUri mimeType) w w' (Throw e))
        /\ (forall base64Data mimeType, exists w',
            ends (GeminiClient.generateSummaryFromBase64 this base64Data mimeType) w w'
                 (Throw (Error ("Failed to generate summary: " ++ showZ (status r)
                                ++ " " ++ statusText r))))).
Proof.
  intros this w r rest Hnet Hok.
  assert (HA : forall fileUri mimeType, exists w',
             ends (GeminiClient.generateSummary this fileUri mimeType) w w'
                  (match json r with
                   | Normal error => Throw (thrownFor error "Failed to generate summary")
                   | Throw e => Throw e
                   end)).
  { intros. eexists. apply generateSummary_failed; eassumption. }
  assert (HB : forall base64Data mimeType, exists w',
             ends (GeminiClient.generateSummaryFromBase64 this base64Data mimeType) w w'
                  (match json r with
                   | Normal error => Throw (thrownFor error "Failed to generate summary")
                   | Throw _ =>
                       Throw (Error ("Failed to generate summary: " ++ showZ (status r)
                                     ++ " " ++ statusText r))
                   end)).
  { intros. eexists. apply generateSummaryFromBase64_failed; eassumption. }
  split; [| split].
  - intros error m Hjson Hm Hne. rewrite Hjson in HA, HB.
    rewrite (failureOf_message error _ m Hm Hne) in HA, HB. auto.
  - intros error v Hjson Hv Hfalsy. rewrite Hjson in HA, HB.
    rewrite (failureOf_default error _ v Hv Hfalsy) in HA, HB. auto.
  - intros e Hjson. rewrite Hjson in HA, HB. auto.
Qed.

(** X10: only the first candidate counts: two parsed bodies whose
    candidate arrays begin with the same candidate give the same result,
    whatever candidates follow. *)
Theorem first_candidate_only :
  forall props props' first others others',
    lookup "candidates" props = Some (JArr (first :: others)) ->
    lookup "candidates" props' = Some (JArr (first :: others')) ->
    GeminiClient.generateSummary_result (JObj props)
    = GeminiClient.generateSummary_result (JObj props')
    /\ GeminiClient.generateSummaryFromBase64_result (JObj props)
       = GeminiClient.generateSummaryFromBase64_result (JObj props').
Proof.
  intros props props' first others others' H H'.
  assert (Heq : GeminiClient.generateSummary_result (JObj props)
                = GeminiClient.generateSummary_result (JObj props')).
  { unfold GeminiClient.generateSummary_result. cbn [getProp].
    rewrite H, H'. reflexivity. }
  split; [exact Heq | rewrite !results_agree; exact Heq].
Qed.

Lemma filter_textBearing_idem items :
  filter textBearing (filter textBearing items) = filter textBearing items.
Proof.
  induction items as [| part items IH]; [reflexivity |].
  cbn [filter]. destruct (textBearing part) eqn:H; [| exact IH].
  cbn [filter]. rewrite H, IH. reflexivity.
Qed.

(** X11: parts without text do not count: when no part is [null], the
    result for the parts is the result for the text-bearing parts alone,
    so adding or removing parts whose text is missing or empty changes
    nothing. *)
Theorem textless_parts_ignored :
  forall result result' items,
    contentParts result = Some items ->
    contentParts result' = Some (filter textBearing items) ->
    Forall (fun part => nullish part = false) items ->
    GeminiClient.generateSummary_result result
    = GeminiClient.generateSummary_result result'
    /\ GeminiClient.generateSummaryFromBase64_result result
       = GeminiClient.generateSummaryFromBase64_result result'.
Proof.
  intros result result' items Hparts Hparts' Hall.
  assert (Heq : GeminiClient.generateSummary_result result
                = GeminiClient.generateSummary_result result').
  { rewrite (result_of_readable_parts result items Hparts Hall).
    rewrite (result_of_readable_parts result' _ Hparts' (Forall_filter _ _ _ Hall)).
    unfold textFields. rewrite filter_textBearing_idem. reflexivity. }
  split; [exact Heq | rewrite !results_agree; exact Heq].
Qed.

(** X12: a first candidate whose content has no array of parts makes
    both strategies throw a TypeError, not 'No summary generated': a
    missing [parts] cannot be read for [filter], and any other value has
    no [filter] to call. *)
Theorem parts_must_be_array :
  forall result content parts,
    firstCandidateContent result = Some content ->
    getProp content "parts" = Normal parts ->
    (forall items, parts <> JArr items) ->
    exists message,
      GeminiClient.generateSummary_result result = Throw (TypeError message)
      /\ GeminiClient.generateSummaryFromBase64_result result = Throw (TypeError message)
      /\ (parts = JUndefined ->
          message = "Cannot read properties of undefined (reading 'filter')").
Proof.
  intros result content parts Hcontent Hparts Hnot.
  pose proof (result_with_content result content Hcontent) as Hres.
  rewrite Hparts in Hres. cbn [andThen] in Hres.
  destruct parts; cbn [GeminiClient.parts_filter andThen] in Hres;
    try (eexists; split; [exact Hres |];
         split; [rewrite results_agree; exact Hres |];
         intros H; try discriminate H; reflexivity).
  exfalso. apply (Hnot items). reflexivity.
Qed.

(** ** uploadFileBase64 and fileToBase64 *)

Lemma upToComma_noComma s : noComma s = true -> upToComma s = s.
Proof.
  induction s as [| c s IH]; cbn; [reflexivity |].
  destruct (Ascii.eqb c ","); cbn; [discriminate |].
  intros H. rewrite (IH H). reflexivity.
Qed.

Lemma splitComma1_append header payload :
  noComma header = true ->
  splitComma1 (header ++ "," ++ payload)%string = JStr (upToComma payload).
Proof.
  induction header as [| c header IH]; cbn; [reflexivity |].
  destruct (Ascii.eqb c ","); cbn; [discriminate | exact IH].
Qed.

Lemma splitComma1_noComma s : noComma s = true -> splitComma1 s = JUndefined.
Proof.
  induction s as [| c s IH]; cbn; [reflexivity |].
  destruct (Ascii.eqb c ","); cbn; [discriminate | exact IH].
Qed.

Lemma uploadFileBase64_read this file w result rest :
  reader w = Some result :: rest ->
  ends (GeminiClient.uploadFileBase64 this file) w
       (mkWorld (application w) (network w) rest (log w ++ [FileRead file]))
       (Normal (GeminiClient.mkFileData (file_name file) (file_type file)
                  (splitComma1 result))).
Proof.
  intros Hreader. unfold GeminiClient.uploadFileBase64.
  eapply ends_then.
  { apply ends_request. cbn. rewrite Hreader. reflexivity. }
  apply ends_ret.
Qed.

Lemma uploadFileBase64_error this file w rest :
  reader w = None :: rest ->
  ends (GeminiClient.uploadFileBase64 this file) w
       (mkWorld (application w) (network w) rest (log w ++ [FileRead file]))
       (Throw ProgressEvent).
Proof.
  intros Hreader. unfold GeminiClient.uploadFileBase64.
  eapply ends_then.
  { apply ends_request. cbn. rewrite Hreader. reflexivity. }
  apply ends_throw.
Qed.

(** X13: from a data URL, a header and a payload without commas joined by
    a comma, [uploadFileBase64] keeps exactly the payload, together with
    the file's name and declared type; a reader result without any comma
    leaves the data [undefined]. *)
Theorem uploadFileBase64_payload :
  forall this file w rest,
    (forall header payload,
        reader w = Some (header ++ "," ++ payload)%string :: rest ->
        noComma header = true ->
        noComma payload = true ->
        ends (GeminiClient.uploadFileBase64 this file) w
             (mkWorld (application w) (network w) rest (log w ++ [FileRead file]))
             (Normal (GeminiClient.mkFileData (file_name file) (file_type file)
                        (JStr payload))))
    /\ (forall result,
        reader w = Some result :: rest ->
        noComma result = true ->
        ends (GeminiClient.uploadFileBase64 this file) w
             (mkWorld (application w) (network w) rest (log w ++ [FileRead file]))
             (Normal (GeminiClient.mkFileData (file_name file) (file_type file)
                        JUndefined))).
Proof.
  intros this file w rest. split.
  - intros header payload Hreader Hheader Hpayload.
    pose proof (uploadFileBase64_read this file w _ rest Hreader) as H.
    rewrite (splitComma1_append header payload Hheader),
      (upToComma_noComma payload Hpayload) in H.
    exact H.
  - intros result Hreader Hresult.
    pose proof (uploadFileBase64_read this file w _ rest Hreader) as H.
    rewrite (splitComma1_noComma result Hresult) in H. exact H.
Qed.

(** X14: [FileHandler.fileToBase64] and [uploadFileBase64] read a file
    alike: on the same answer of the reader they end in the same world,
    the one with the data the other puts in its record, or both with the
    reader's error event. *)
Theorem fileToBase64_agrees :
  forall this file w answer rest,
    reader w = answer :: rest ->
    exists w' outcome,
      ends (GeminiClient.uploadFileBase64 this file) w w' outcome
      /\ ends (FileHandlerAsync.fileToBase64 file) w w'
              (let? fileData := outcome in Normal (GeminiClient.data fileData))
      /\ network w' = network w
      /\ (answer = None -> outcome = Throw ProgressEvent).
Proof.
  intros this file w answer rest Hreader.
  destruct answer as [result |].
  - eexists. eexists. split; [apply uploadFileBase64_read; exact Hreader |].
    split; [| split; [reflexivity | discriminate]].
    unfold FileHandlerAsync.fileToBase64.
    eapply ends_then.
    { apply ends_request. cbn. rewrite Hreader. reflexivity. }
    apply ends_ret.
  - eexists. eexists. split; [apply uploadFileBase64_error; exact Hreader |].
    split; [| split; reflexivity].
    unfold FileHandlerAsync.fileToBase64.
    eapply ends_then.
    { apply ends_request. cbn. rewrite Hreader. reflexivity. }
    apply ends_throw.
Qed.

(** ** The credential *)

(** X15: every request of [uploadFile], [getFileStatus], [generateSummary]
    and [generateSummaryFromBase64] goes to a path under the client's base
    URL with the key as the query parameter [key]; besides their requests
    the four methods only write to the console. *)
Theorem requests_carry_key :
  forall this,
    (forall file, performsOnly (keyedRequest this) (GeminiClient.uploadFile this file))
    /\ (forall fileName,
           performsOnly (keyedRequest this) (GeminiClient.getFileStatus this fileName))
    /\ (forall fileUri mimeType,
           performsOnly (keyedRequest this)
             (GeminiClient.generateSummary this fileUri mimeType))
    /\ (forall base64Data mimeType,
           performsOnly (keyedRequest this)
             (GeminiClient.generateSummaryFromBase64 this base64Data mimeType)).
Proof.
  intros this.
  assert (Hfail : forall A error fallback,
             performsOnly (keyedRequest this)
               (e <-- eval (let? inner := getProp error "error" in
                            let? message := getPropOpt inner "message" in
                            newError (or_else message (JStr fallback))) ;;
                @Browser.throw A e)).
  { intros A error fallback. apply performsOnly_then; [apply performsOnly_Ret |].
    intros e. apply performsOnly_Ret. }
  split; [| split; [| split]].
  - intros file. unfold GeminiClient.uploadFile.
    apply performsOnly_then; [apply performsOnly_request; exact I | intros _].
    apply performsOnly_then.
    { apply performsOnly_trigger. cbn. exists "/files". reflexivity. }
    intros response.
    apply performsOnly_then; [apply performsOnly_request; exact I | intros _].
    apply performsOnly_then; [apply performsOnly_request; exact I | intros _].
    destruct (negb (ok response)).
    + destruct (json response); [apply Hfail | apply performsOnly_Ret].
    + destruct (String.eqb (text response) "" || String.eqb (trim (text response)) ""
                || String.eqb (text response) "{}")%bool.
      * apply performsOnly_then; [apply performsOnly_request; exact I | intros _].
        apply performsOnly_Ret.
      * destruct (json response); [| apply performsOnly_Ret].
        apply performsOnly_then; [apply performsOnly_request; exact I | intros _].
        apply performsOnly_Ret.
  - intros fileName. unfold GeminiClient.getFileStatus.
    apply performsOnly_then.
    { apply performsOnly_trigger. cbn.
      exists ("/" ++ (if startsWith fileName "files/" then fileName
                      else "files/" ++ fileName))%string.
      reflexivity. }
    intros response. destruct (negb (ok response)); [| apply performsOnly_Ret].
    destruct (json response); [apply Hfail | apply performsOnly_Ret].
  - intros fileUri mimeType. unfold GeminiClient.generateSummary.
    apply performsOnly_then.
    { apply performsOnly_trigger. cbn.
      exists "/models/gemini-2.5-flash:generateContent".
      reflexivity. }
    intros response. destruct (negb (ok response)).
    + apply performsOnly_then; [apply performsOnly_Ret | intros error]. apply Hfail.
    + apply performsOnly_then; [apply performsOnly_Ret | intros result].
      apply performsOnly_Ret.
  - intros base64Data mimeType. unfold GeminiClient.generateSummaryFromBase64.
    apply performsOnly_then.
    { apply performsOnly_trigger. cbn.
      exists "/models/gemini-2.5-flash:generateContent".
      reflexivity. }
    intros response. destruct (negb (ok response)).
    + destruct (json response); [apply Hfail | apply performsOnly_Ret].
    + apply performsOnly_then; [apply performsOnly_Ret | intros result].
      apply performsOnly_Ret.
Qed.

(** ** handleSummarize, after validation *)

Lemma validInput_checks w file key :
  validInput w file key ->
  UploadUI.selectedFile (ui (application w)) = Some file
  /\ UploadUI.apiKey (ui (application w)) = Some key
  /\ String.eqb key "" = false
  /\ file_type file = "application/pdf"
  /\ FileHandler.isValidFileSize file None = true.
Proof.
  intros (Hfile & Hkey & Hne & Hpdf & Hsize).
  repeat split; try assumption.
  - apply String.eqb_neq. exact Hne.
  - apply default_size_limit. exact Hsize.
Qed.

Lemma handleSummarize_shows w file key result readerRest r networkRest summary :
  validInput w file key ->
  reader w = Some result :: readerRest ->
  network w = Normal r :: networkRest ->
  ok r = true ->
  (let? parsed := json r in GeminiClient.generateSummaryFromBase64_result parsed)
  = Normal summary ->
  ends PDFSummarizerApp.handleSummarize w
       (mkWorld
          (mkApp (UploadUI.showSummary summary
                    (UploadUI.hideLoading (UploadUI.showLoading (ui (application w)))))
                 (Some (newGeminiClient key)))
          networkRest readerRest
          (log w ++ [FileRead file;
                     inlineDataRequest (newGeminiClient key) (splitComma1 result)
                       "application/pdf"]))
       (Normal tt).
Proof.
  intros Hvalid Hreader Hnet Hok Hsummary.
  destruct (validInput_checks w file key Hvalid)
    as (Hfile & Hkey & Hnonempty & Hpdf & Hsize).
  enter_handleSummarize. rewrite Hfile, Hkey, Hnonempty.
  cbn [FileHandler.isValidPDF]. rewrite Hpdf, Hsize.
  replace (String.eqb "application/pdf" "application/pdf") with true by reflexivity.
  cbn [negb].
  apply ends_try_normal.
  eapply ends_then. { apply ends_ui_call. }
  eapply ends_then.
  { eapply ends_then. { apply ends_request. reflexivity. }
    apply ends_request. reflexivity. }
  cbn [application ui network reader log]. fold (loading w key).
  eapply ends_then. { apply ends_this_geminiClient. reflexivity. }
  eapply ends_then. { apply uploadFileBase64_read. exact Hreader. }
  eapply ends_then. { apply ends_this_geminiClient. reflexivity. }
  cbn [GeminiClient.data GeminiClient.mimeType]. rewrite Hpdf.
  eapply ends_then_eq.
  { apply generateSummaryFromBase64_ok; [exact Hnet | exact Hok]. }
  { exact Hsummary. }
  eapply ends_then. { apply ends_ui_call. }
  cbn [application ui network reader log loading geminiClient].
  rewrite <- app_assoc.
  apply (ends_ui_call (UploadUI.showSummary summary)
           (mkWorld (mkApp (UploadUI.hideLoading (UploadUI.showLoading (ui (application w))))
                           (Some (newGeminiClient key)))
                    networkRest readerRest
                    (log w ++ [FileRead file]
                           ++ [inlineDataRequest (newGeminiClient key) (splitComma1 result)
                                 "application/pdf"]))).
Qed.

(** X16: after validation, a file read and a successful generation answer
    from which a summary is extracted, [handleSummarize] shows exactly
    that summary: result section displayed, loading and error hidden.  The
    run has read the file once and sent one request, the inline-data
    request to the Gemini endpoint with the user's key, the payload of the
    data URL and the type application/pdf. *)
Theorem handleSummarize_shows_summary :
  forall w file key result readerRest r networkRest summary,
    validInput w file key ->
    reader w = Some result :: readerRest ->
    network w = Normal r :: networkRest ->
    ok r = true ->
    (let? parsed := json r in GeminiClient.generateSummaryFromBase64_result parsed)
    = Normal summary ->
    exists w',
      ends PDFSummarizerApp.handleSummarize w w' (Normal tt)
      /\ UploadUI.summaryContent_textContent (ui (application w')) = summary
      /\ UploadUI.resultSection_display (ui (application w')) = "block"
      /\ UploadUI.errorSection_display (ui (application w')) = "none"
      /\ UploadUI.loadingSection_display (ui (application w')) = "none"
      /\ UploadUI.summarizeBtn_disabled (ui (application w'))
         = negb (UploadUI.hasApiKey (ui (application w)))
      /\ geminiClient (application w') = Some (newGeminiClient key)
      /\ network w' = networkRest
      /\ reader w' = readerRest
      /\ log w' = log w ++ [FileRead file;
                            inlineDataRequest (newGeminiClient key) (splitComma1 result)
                              "application/pdf"].
Proof.
  intros w file key result readerRest r networkRest summary
         Hvalid Hreader Hnet Hok Hsummary.
  eexists. split.
  { apply (handleSummarize_shows w file key result readerRest r networkRest summary);
      assumption. }
  cbn [application ui network reader log geminiClient].
  repeat split.
  cbn. unfold UploadUI.hasFile. cbn.
  destruct Hvalid as (Hfile & _). rewrite Hfile. reflexivity.
Qed.

(** X17: after validation, a file that cannot be read ends the run before
    any request: the error section shows 'Error: An unexpected error
    occurred' (the reader's event has no message), loading is hidden and
    the scripted network answers are untouched. *)
Theorem unreadable_file_reported :
  forall w file key readerRest,
    validInput w file key ->
    reader w = None :: readerRest ->
    exists w',
      ends PDFSummarizerApp.handleSummarize w w' (Normal tt)
      /\ UploadUI.errorMessage_textContent (ui (application w'))
         = "Error: An unexpected error occurred"
      /\ UploadUI.errorSection_display (ui (application w')) = "block"
      /\ UploadUI.resultSection_display (ui (application w')) = "none"
      /\ UploadUI.loadingSection_display (ui (application w')) = "none"
      /\ network w' = network w
      /\ requestsOf (log w') = requestsOf (log w).
Proof.
  intros w file key readerRest Hvalid Hreader.
  destruct (validInput_checks w file key Hvalid)
    as (Hfile & Hkey & Hnonempty & Hpdf & Hsize).
  eexists. split.
  { apply (handleSummarize_catches w file key ProgressEvent
             (mkWorld (application (loading w key)) (network w) readerRest
                      (log w ++ [FileRead file])));
      try assumption.
    left. apply (uploadFileBase64_error (newGeminiClient key) file (loading w key)).
    exact Hreader. }
  cbn [application ui network reader log]. repeat split.
  unfold requestsOf. rewrite <- app_assoc, filter_app. cbn. apply app_nil_r.
Qed.

(** X18: after validation, the message of a failed generation request
    reaches the user word for word: when the endpoint answers with an HTTP
    failure whose JSON body carries [error.message], the error section
    shows 'Error: ' followed by that message; when the request itself is
    rejected, it shows the rejection's message. *)
Theorem service_message_shown :
  forall w file key result readerRest answer networkRest shown,
    validInput w file key ->
    reader w = Some result :: readerRest ->
    network w = answer :: networkRest ->
    (exists r error,
        answer = Normal r /\ ok r = false /\ json r = Normal error
        /\ serviceMessage error = Normal (JStr shown))
    \/ answer = Throw (TypeError shown) ->
    shown <> "" ->
    exists w',
      ends PDFSummarizerApp.handleSummarize w w' (Normal tt)
      /\ UploadUI.errorMessage_textContent (ui (application w'))
         = ("Error: " ++ shown)%string
      /\ UploadUI.errorSection_display (ui (application w')) = "block"
      /\ UploadUI.resultSection_display (ui (application w')) = "none"
      /\ UploadUI.loadingSection_display (ui (application w')) = "none"
      /\ network w' = networkRest.
Proof.
  intros w file key result readerRest answer networkRest shown
         Hvalid Hreader Hnet Hanswer Hshown.
  destruct (validInput_checks w file key Hvalid)
    as (Hfile & Hkey & Hnonempty & Hpdf & Hsize).
  assert (Hmsg : forall e, messageOf e = JStr shown -> shownMessage e = shown).
  { intros e He. unfold shownMessage. rewrite He.
    rewrite (proj2 (String.eqb_neq _ _) Hshown). reflexivity. }
  assert (Hfails : exists e,
             messageOf e = JStr shown
             /\ clientFails w file key e
                  (mkWorld (application (loading w key)) networkRest readerRest
                     ((log w ++ [FileRead file])
                      ++ [inlineDataRequest (newGeminiClient key) (splitComma1 result)
                            (file_type file)]))).
  { destruct Hanswer as [(r & error & -> & Hok & Hjson & Hservice) | ->].
    - exists (Error shown). split; [reflexivity |].
      right. eexists. eexists. split.
      + apply (uploadFileBase64_read (newGeminiClient key) file (loading w key)).
        exact Hreader.
      + cbn [GeminiClient.data GeminiClient.mimeType].
        pose proof (generateSummaryFromBase64_failed (newGeminiClient key)
                      (splitComma1 result) (file_type file)
                      (mkWorld (application (loading w key)) (network (loading w key))
                         readerRest (log (loading w key) ++ [FileRead file]))
                      r networkRest Hnet Hok) as H.
        rewrite Hjson, (failureOf_message error _ shown Hservice Hshown) in H.
        exact H.
    - exists (TypeError shown). split; [reflexivity |].
      right. eexists. eexists. split.
      + apply (uploadFileBase64_read (newGeminiClient key) file (loading w key)).
        exact Hreader.
      + cbn [GeminiClient.data GeminiClient.mimeType].
        apply (generateSummaryFromBase64_rejected (newGeminiClient key)
                 (splitComma1 result) (file_type file)
                 (mkWorld (application (loading w key)) (network (loading w key))
                    readerRest (log (loading w key) ++ [FileRead file]))
                 (TypeError shown) networkRest Hnet). }
  destruct Hfails as (e & He & Hfails).
  eexists. split.
  { apply (handleSummarize_catches w file key e _ Hfile Hkey Hnonempty Hpdf Hsize Hfails). }
  cbn [application ui network reader log]. rewrite (Hmsg e He). repeat split.
Qed.

(** ** The controller *)

(** X19: from an enabled trigger the first two checks of
    [handleSummarize] cannot fail: in every state the controller can
    reach, an enabled trigger means a selected file whose declared type is
    PDF and a key that is neither empty nor blank, so that only the size
    check can still reject the run. *)
Theorem enabled_trigger_passes_checks :
  forall u,
    UploadUI.reachable u ->
    UploadUI.summarizeBtn_disabled u = false ->
    exists file key,
      UploadUI.getSelectedFile u = Some file
      /\ UploadUI.getApiKey u = Some key
      /\ key <> ""
      /\ trim key <> ""
      /\ FileHandler.isValidPDF (Some file) = true.
Proof.
  intros u Hreach Henabled.
  destruct (reachable_consistent u Hreach) as [Hinv Hpdf].
  specialize (Hinv Henabled). apply andb_true_iff in Hinv.
  destruct Hinv as [HhasFile HhasKey].
  unfold UploadUI.hasFile in HhasFile. unfold UploadUI.hasApiKey in HhasKey.
  unfold UploadUI.getSelectedFile, UploadUI.getApiKey.
  destruct (UploadUI.selectedFile u) as [file |] eqn:Hfile; [| discriminate].
  destruct (UploadUI.apiKey u) as [key |] eqn:Hkey; [| discriminate].
  apply andb_true_iff in HhasKey. destruct HhasKey as [Hne Hlen].
  exists file, key. repeat split.
  - apply negb_true_iff in Hne. apply String.eqb_neq. exact Hne.
  - intros Htrim. rewrite Htrim in Hlen. discriminate.
  - cbn. apply String.eqb_eq. apply Hpdf. reflexivity.
Qed.

(** X20: the page follows the selection: in every state the controller
    can reach, the file info is displayed exactly when a file is selected,
    and then shows that file's name. *)
Theorem file_info_follows_selection :
  forall u,
    UploadUI.reachable u ->
    UploadUI.fileInfo_display u = (if UploadUI.hasFile u then "block" else "none")
    /\ (forall file, UploadUI.selectedFile u = Some file ->
                     UploadUI.fileName_textContent u = file_name file).
Proof.
  assert (Hupdate : forall v,
             UploadUI.fileInfo_display (UploadUI.updateUI v)
             = (if UploadUI.hasFile (UploadUI.updateUI v) then "block" else "none")
             /\ (forall file, UploadUI.selectedFile (UploadUI.updateUI v) = Some file ->
                   UploadUI.fileName_textContent (UploadUI.updateUI v) = file_name file)).
  { intros v. split; [reflexivity |]. cbn. intros file H. rewrite H. reflexivity. }
  induction 1 as [page | a u _ IH].
  - apply Hupdate.
  - destruct a as [file | | value | | | summary | message]; cbn [UploadUI.perform].
    + unfold UploadUI.handleFileSelect. destruct file as [f |]; [| exact IH].
      destruct (negb (String.eqb (file_type f) "application/pdf"));
        [exact IH | apply Hupdate].
    + apply Hupdate.
    + apply Hupdate.
    + exact IH.
    + apply Hupdate.
    + exact IH.
    + exact IH.
Qed.

(** X21: summary and error are never displayed together: if the page is
    loaded with at most one of the two sections displayed, so it stays in
    every state the controller reaches. *)
Theorem summary_and_error_exclusive :
  forall page u,
    exclusive page ->
    reachableFrom page u ->
    exclusive u.
Proof.
  intros page u Hpage Hreach.
  assert (Hupdate : forall v, exclusive v -> exclusive (UploadUI.updateUI v)).
  { intros v Hv. exact Hv. }
  induction Hreach as [| a u _ IH].
  - apply Hupdate. exact Hpage.
  - destruct a as [file | | value | | | summary | message]; cbn [UploadUI.perform].
    + unfold UploadUI.handleFileSelect. destruct file as [f |]; [| exact IH].
      destruct (negb (String.eqb (file_type f) "application/pdf")).
      * intros [H _]. discriminate.
      * apply Hupdate. exact IH.
    + apply Hupdate. exact IH.
    + apply Hupdate. unfold UploadUI.saveApiKey.
      destruct (negb (String.eqb value "")); exact IH.
    + intros [H _]. discriminate.
    + apply Hupdate. exact IH.
    + intros [_ H]. discriminate.
    + intros [H _]. discriminate.
Qed.

(** X22: the key survives a reload: a key typed into the field, unless
    empty, is stored, and a controller constructed on a page with that
    storage starts with this key, shows it in the field and counts it as
    present exactly as before; typing the empty key removes the stored
    one, and the next controller starts without a key. *)
Theorem apiKey_round_trip :
  forall u value page,
    UploadUI.storedApiKey page
    = UploadUI.loadApiKey (UploadUI.onApiKeyInput value u) ->
    (value <> "" ->
     UploadUI.getApiKey (UploadUI.constructor page) = Some value
     /\ UploadUI.apiKeyInput_value (UploadUI.constructor page) = value
     /\ UploadUI.hasApiKey (UploadUI.constructor page)
        = UploadUI.hasApiKey (UploadUI.onApiKeyInput value u))
    /\ (value = "" ->
        UploadUI.getApiKey (UploadUI.constructor page) = None
        /\ UploadUI.summarizeBtn_disabled (UploadUI.constructor page) = true).
Proof.
  intros u value page Hstored.
  unfold UploadUI.loadApiKey, UploadUI.onApiKeyInput, UploadUI.saveApiKey in Hstored.
  split.
  - intros Hne. rewrite (proj2 (String.eqb_neq _ _) Hne) in Hstored.
    cbn in Hstored.
    unfold UploadUI.getApiKey, UploadUI.constructor, UploadUI.loadApiKey.
    rewrite Hstored. cbn. rewrite (proj2 (String.eqb_neq _ _) Hne).
    repeat split.
    unfold UploadUI.hasApiKey, UploadUI.onApiKeyInput, UploadUI.saveApiKey.
    rewrite (proj2 (String.eqb_neq _ _) Hne). cbn.
    rewrite (proj2 (String.eqb_neq _ _) Hne). reflexivity.
  - intros ->. cbn in Hstored.
    unfold UploadUI.getApiKey, UploadUI.constructor, UploadUI.loadApiKey.
    rewrite Hstored. cbn. split; reflexivity.
Qed.

(** ** Sample runs of the further properties *)

Lemma upload_parsed_witness :
  exists w',
    ends (GeminiClient.uploadFile Sample.client Sample.file)
         (Sample.world Sample.page
            [Normal (mkResponse 200 "OK" "{file}"
                       (Normal (JObj [("file", JObj [("name", JStr "files/doc")])])))] [])
         w'
         (Normal (JObj [("file", JObj [("name", JStr "files/doc")])]))
    /\ network w' = []
    /\ requestsOf (log w') = [] ++ [ingestionRequest Sample.client Sample.file]
    /\ application w' = mkApp Sample.page None.
Proof.
  apply (uploadFile_parsed_body Sample.client Sample.file
           (Sample.world Sample.page
              [Normal (mkResponse 200 "OK" "{file}"
                         (Normal (JObj [("file", JObj [("name", JStr "files/doc")])])))] [])
           (mkResponse 200 "OK" "{file}"
              (Normal (JObj [("file", JObj [("name", JStr "files/doc")])]))) []);
    try reflexivity; cbn; discriminate.
Defined.

Lemma upload_failure_witness :
  exists w' thrown,
    ends (GeminiClient.uploadFile Sample.client Sample.file)
         (Sample.world Sample.page
            [Normal (mkResponse 403 "Forbidden" "{error}"
                       (Normal (JObj [("error", JObj [("message", JStr "API key not valid")])])))]
            [])
         w' (Throw thrown)
    /\ thrown = Error "API key not valid".
Proof.
  destruct (uploadFile_http_failure Sample.client Sample.file
              (Sample.world Sample.page
                 [Normal (mkResponse 403 "Forbidden" "{error}"
                            (Normal (JObj [("error",
                               JObj [("message", JStr "API key not valid")])])))] [])
              (mkResponse 403 "Forbidden" "{error}"
                 (Normal (JObj [("error", JObj [("message", JStr "API key not valid")])])))
              [] eq_refl eq_refl)
    as (w' & thrown & Hends & _ & _ & _ & Hmessage & _).
  exists w', thrown. split; [exact Hends |].
  apply (Hmessage (JObj [("error", JObj [("message", JStr "API key not valid")])])
           "API key not valid"); [reflexivity | reflexivity | discriminate].
Defined.

Lemma prefix_witness :
  GeminiClient.getFileStatus Sample.client "files/doc"
  = GeminiClient.getFileStatus Sample.client "doc".
Proof.
  apply (proj1 (fileName_prefix_optional Sample.client "doc" eq_refl)).
Defined.

Lemma status_failure_witness :
  exists w' thrown,
    ends (GeminiClient.getFileStatus Sample.client "doc")
         (Sample.world Sample.page
            [Normal (mkResponse 404 "Not Found" "gone" (Throw (SyntaxError "Unexpected token")))]
            [])
         w' (Throw thrown)
    /\ thrown = Error "Failed to get file status: 404 Not Found".
Proof.
  destruct (getFileStatus_failure Sample.client "doc"
              (Sample.world Sample.page
                 [Normal (mkResponse 404 "Not Found" "gone"
                            (Throw (SyntaxError "Unexpected token")))] [])
              (Normal (mkResponse 404 "Not Found" "gone"
                         (Throw (SyntaxError "Unexpected token")))) [] eq_refl)
    as (w' & thrown & Hends & _ & _ & _ & Hparse & _).
  - intros r H. inversion H. reflexivity.
  - exists w', thrown. split; [exact Hends |].
    apply (Hparse _ (SyntaxError "Unexpected token") eq_refl eq_refl).
Defined.

Lemma sample_processing :
  exists s, carries (Sample.statusResponse "PROCESSING") "PROCESSING" s.
Proof. eexists. eexists. repeat split. Qed.

Lemma sample_stops state :
  strict_eq_str (JStr state) "PROCESSING" = false ->
  state <> "" ->
  stopsPolling (Sample.statusResponse state).
Proof.
  intros Hstate Hne status state' Hs Hs'. cbn in Hs. inversion Hs. subst status.
  cbn in Hs'. rewrite (proj2 (String.eqb_neq _ _) Hne) in Hs'. cbn in Hs'.
  inversion Hs'. subst state'. exact Hstate.
Qed.

Lemma polling_counts_witness :
  exists w' entries,
    ends (GeminiClient.waitForFileProcessing Sample.client "doc" (onStatusUpdate true))
         (Sample.world Sample.page
            [Sample.statusResponse "PROCESSING"; Sample.statusResponse "PROCESSING";
             Sample.statusResponse "PROCESSING"; Sample.statusResponse "ACTIVE"] [])
         w' (pollingResult (Sample.statusResponse "ACTIVE"))
    /\ network w' = []
    /\ log w' = [] ++ entries
    /\ delays entries = [5000; 5000; 5000]
    /\ notifications entries = [JStr "PROCESSING"; JStr "PROCESSING"; JStr "PROCESSING"]
    /\ requestsOf entries = repeat (statusRequest Sample.client "doc") 4.
Proof.
  apply (polling_counts Sample.client "doc" true
           [Sample.statusResponse "PROCESSING"; Sample.statusResponse "PROCESSING";
            Sample.statusResponse "PROCESSING"]
           (Sample.world Sample.page
              [Sample.statusResponse "PROCESSING"; Sample.statusResponse "PROCESSING";
               Sample.statusResponse "PROCESSING"; Sample.statusResponse "ACTIVE"] [])
           (Sample.statusResponse "ACTIVE") []).
  - repeat constructor; apply sample_processing.
  - reflexivity.
  - apply sample_stops; [reflexivity | discriminate].
Defined.

Lemma stateless_status_witness :
  ends (GeminiClient.waitForFileProcessing Sample.client "doc" (onStatusUpdate true))
       (Sample.world Sample.page
          [Normal (mkResponse 200 "OK" "{name}" (Normal (JObj [("name", JStr "files/doc")])))]
          [])
       (mkWorld (mkApp Sample.page None) [] [] ([] ++ [statusRequest Sample.client "doc"]))
       (Normal (JObj [("name", JStr "files/doc")])).
Proof.
  apply (proj1 (other_state_is_ready Sample.client "doc" true
                  (Sample.world Sample.page
                     [Normal (mkResponse 200 "OK" "{name}"
                                (Normal (JObj [("name", JStr "files/doc")])))] [])
                  (mkResponse 200 "OK" "{name}" (Normal (JObj [("name", JStr "files/doc")])))
                  [] (JObj [("name", JStr "files/doc")]) JUndefined
                  eq_refl eq_refl eq_refl eq_refl eq_refl eq_refl)).
Defined.

Lemma polling_error_witness :
  exists w',
    ends (GeminiClient.waitForFileProcessing Sample.client "doc" (onStatusUpdate false))
         (Sample.world Sample.page
            [Sample.statusResponse "PROCESSING"; Throw (TypeError "Failed to fetch");
             Sample.statusResponse "ACTIVE"] [])
         w' (Throw (TypeError "Failed to fetch"))
    /\ network w' = [Sample.statusResponse "ACTIVE"].
Proof.
  destruct (polling_error Sample.client "doc" false
              [Sample.statusResponse "PROCESSING"]
              (Sample.world Sample.page
                 [Sample.statusResponse "PROCESSING"; Throw (TypeError "Failed to fetch");
                  Sample.statusResponse "ACTIVE"] [])
              (Throw (TypeError "Failed to fetch")) [Sample.statusResponse "ACTIVE"]
              (TypeError "Failed to fetch"))
    as (w' & Hends & Hnet & _).
  - repeat constructor. apply sample_processing.
  - reflexivity.
  - left. reflexivity.
  - exists w'. auto.
Defined.

Lemma single_request_witness :
  exists outcome,
    ends (GeminiClient.generateSummaryFromBase64 Sample.client (JStr "JVBERi0=")
            "application/pdf")
         (Sample.world Sample.page [Throw (TypeError "Failed to fetch")] [])
         (mkWorld (mkApp Sample.page None) [] []
            ([] ++ [inlineDataRequest Sample.client (JStr "JVBERi0=") "application/pdf"]))
         outcome.
Proof.
  apply (proj2 (generation_single_request Sample.client
                  (Sample.world Sample.page [Throw (TypeError "Failed to fetch")] [])
                  (Throw (TypeError "Failed to fetch")) [] eq_refl)).
Defined.

Lemma generation_failure_witness :
  (forall fileUri mimeType, exists w',
      ends (GeminiClient.generateSummary Sample.client fileUri mimeType)
           (Sample.world Sample.page
              [Normal (mkResponse 500 "Internal Server Error" "oops"
                         (Throw (SyntaxError "Unexpected token")))] [])
           w' (Throw (SyntaxError "Unexpected token")))
  /\ (forall base64Data mimeType, exists w',
      ends (GeminiClient.generateSummaryFromBase64 Sample.client base64Data mimeType)
           (Sample.world Sample.page
              [Normal (mkResponse 500 "Internal Server Error" "oops"
                         (Throw (SyntaxError "Unexpected token")))] [])
           w' (Throw (Error ("Failed to generate summary: " ++ showZ 500
                             ++ " " ++ "Internal Server Error")))).
Proof.
  apply (proj2 (proj2 (generation_http_failure Sample.client
                         (Sample.world Sample.page
                            [Normal (mkResponse 500 "Internal Server Error" "oops"
                                       (Throw (SyntaxError "Unexpected token")))] [])
                         (mkResponse 500 "Internal Server Error" "oops"
                            (Throw (SyntaxError "Unexpected token")))
                         [] eq_refl eq_refl))).
  reflexivity.
Defined.

Lemma first_candidate_witness :
  GeminiClient.generateSummary_result
    (JObj [("candidates",
            JArr [JObj [("content", JObj [("parts", JArr [JObj [("text", JStr "A")]])])];
                  JObj [("content", JObj [("parts", JArr [JObj [("text", JStr "B")]])])]])])
  = GeminiClient.generateSummary_result
      (JObj [("candidates",
              JArr [JObj [("content", JObj [("parts", JArr [JObj [("text", JStr "A")]])])]])]).
Proof.
  apply (proj1 (first_candidate_only
                  [("candidates",
                    JArr [JObj [("content", JObj [("parts", JArr [JObj [("text", JStr "A")]])])];
                          JObj [("content", JObj [("parts", JArr [JObj [("text", JStr "B")]])])]])]
                  [("candidates",
                    JArr [JObj [("content", JObj [("parts", JArr [JObj [("text", JStr "A")]])])]])]
                  (JObj [("content", JObj [("parts", JArr [JObj [("text", JStr "A")]])])])
                  [JObj [("content", JObj [("parts", JArr [JObj [("text", JStr "B")]])])]]
                  [] eq_refl eq_refl)).
Defined.

Lemma textless_parts_witness :
  GeminiClient.generateSummary_result
    (JObj [("candidates", JArr [JObj [("content", JObj [("parts",
       JArr [JObj [("text", JStr "A")]; JObj [("text", JStr "")];
             JObj [("inlineData", JObj [])]; JObj [("text", JStr "B")]])])]])])
  = GeminiClient.generateSummary_result
      (JObj [("candidates", JArr [JObj [("content", JObj [("parts",
         JArr [JObj [("text", JStr "A")]; JObj [("text", JStr "B")]])])]])]).
Proof.
  apply (proj1 (textless_parts_ignored
                  (JObj [("candidates", JArr [JObj [("content", JObj [("parts",
                     JArr [JObj [("text", JStr "A")]; JObj [("text", JStr "")];
                           JObj [("inlineData", JObj [])];
                           JObj [("text", JStr "B")]])])]])])
                  (JObj [("candidates", JArr [JObj [("content", JObj [("parts",
                     JArr [JObj [("text", JStr "A")]; JObj [("text", JStr "B")]])])]])])
                  [JObj [("text", JStr "A")]; JObj [("text", JStr "")];
                   JObj [("inlineData", JObj [])]; JObj [("text", JStr "B")]]
                  eq_refl eq_refl
                  ltac:(repeat constructor))).
Defined.

Lemma parts_missing_witness :
  exists message,
    GeminiClient.generateSummary_result
      (JObj [("candidates", JArr [JObj [("content", JObj [("role", JStr "model")])]])])
    = Throw (TypeError message)
    /\ message = "Cannot read properties of undefined (reading 'filter')".
Proof.
  destruct (parts_must_be_array
              (JObj [("candidates", JArr [JObj [("content", JObj [("role", JStr "model")])]])])
              (JObj [("role", JStr "model")]) JUndefined eq_refl eq_refl)
    as (message & H & _ & Hmessage).
  - intros items H. discriminate.
  - exists message. split; [exact H | apply Hmessage; reflexivity].
Defined.

Lemma payload_witness :
  ends (GeminiClient.uploadFileBase64 Sample.client Sample.file)
       (Sample.world Sample.page [] [Some "data:application/pdf;base64,JVBERi0xLjc="])
       (mkWorld (mkApp Sample.page None) [] [] ([] ++ [FileRead Sample.file]))
       (Normal (GeminiClient.mkFileData "report.pdf" "application/pdf"
                  (JStr "JVBERi0xLjc="))).
Proof.
  apply (proj1 (uploadFileBase64_payload Sample.client Sample.file
                  (Sample.world Sample.page []
                     [Some "data:application/pdf;base64,JVBERi0xLjc="]) [])
           "data:application/pdf;base64" "JVBERi0xLjc=" eq_refl eq_refl eq_refl).
Defined.

Lemma fileToBase64_witness :
  exists w' outcome,
    ends (GeminiClient.uploadFileBase64 Sample.client Sample.file)
         (Sample.world Sample.page [] [None]) w' outcome
    /\ ends (FileHandlerAsync.fileToBase64 Sample.file)
            (Sample.world Sample.page [] [None]) w'
            (let? fileData := outcome in Normal (GeminiClient.data fileData))
    /\ outcome = Throw ProgressEvent.
Proof.
  destruct (fileToBase64_agrees Sample.client Sample.file
              (Sample.world Sample.page [] [None]) None [] eq_refl)
    as (w' & outcome & H1 & H2 & _ & H4).
  exists w', outcome. auto.
Defined.

Lemma sample_valid answers reads :
  validInput (Sample.world Sample.controller answers reads) Sample.file "KEY".
Proof.
  repeat split; try reflexivity; [discriminate | cbn; lia].
Qed.

Lemma shows_summary_witness :
  exists w',
    ends PDFSummarizerApp.handleSummarize
         (Sample.world Sample.controller
            [Sample.generated "" [JObj [("text", JStr "This document discusses X.")]]]
            [Some "data:application/pdf;base64,JVBERi0xLjc="])
         w' (Normal tt)
    /\ UploadUI.summaryContent_textContent (ui (application w'))
       = "This document discusses X."
    /\ UploadUI.resultSection_display (ui (application w')) = "block".
Proof.
  destruct (handleSummarize_shows_summary
              (Sample.world Sample.controller
                 [Sample.generated "" [JObj [("text", JStr "This document discusses X.")]]]
                 [Some "data:application/pdf;base64,JVBERi0xLjc="])
              Sample.file "KEY" "data:application/pdf;base64,JVBERi0xLjc=" []
              (mkResponse 200 "OK" ""
                 (Normal (JObj [("candidates",
                    JArr [JObj [("content",
                      JObj [("parts",
                        JArr [JObj [("text", JStr "This document discusses X.")]])])]])])))
              [] "This document discusses X."
              (sample_valid _ _) eq_refl eq_refl eq_refl eq_refl)
    as (w' & H1 & H2 & H3 & _).
  exists w'. auto.
Defined.

Lemma unreadable_file_witness :
  exists w',
    ends PDFSummarizerApp.handleSummarize
         (Sample.world Sample.controller
            [Sample.generated "" [JObj [("text", JStr "A")]]] [None])
         w' (Normal tt)
    /\ UploadUI.errorMessage_textContent (ui (application w'))
       = "Error: An unexpected error occurred"
    /\ network w' = [Sample.generated "" [JObj [("text", JStr "A")]]].
Proof.
  destruct (unreadable_file_reported
              (Sample.world Sample.controller
                 [Sample.generated "" [JObj [("text", JStr "A")]]] [None])
              Sample.file "KEY" [] (sample_valid _ _) eq_refl)
    as (w' & H1 & H2 & _ & _ & _ & H6 & _).
  exists w'. auto.
Defined.

Lemma service_message_witness :
  exists w',
    ends PDFSummarizerApp.handleSummarize
         (Sample.world Sample.controller
            [Normal (mkResponse 400 "Bad Request" "{error}"
                       (Normal (JObj [("error",
                          JObj [("message", JStr "API key not valid")])])))]
            [Some "data:application/pdf;base64,JVBERi0xLjc="])
         w' (Normal tt)
    /\ UploadUI.errorMessage_textContent (ui (application w'))
       = "Error: API key not valid".
Proof.
  destruct (service_message_shown
              (Sample.world Sample.controller
                 [Normal (mkResponse 400 "Bad Request" "{error}"
                            (Normal (JObj [("error",
                               JObj [("message", JStr "API key not valid")])])))]
                 [Some "data:application/pdf;base64,JVBERi0xLjc="])
              Sample.file "KEY" "data:application/pdf;base64,JVBERi0xLjc=" []
              (Normal (mkResponse 400 "Bad Request" "{error}"
                         (Normal (JObj [("error",
                            JObj [("message", JStr "API key not valid")])]))))
              [] "API key not valid"
              (sample_valid _ _) eq_refl eq_refl)
    as (w' & H1 & H2 & _).
  - left. eexists. eexists. repeat split.
  - discriminate.
  - exists w'. auto.
Defined.

Lemma enabled_trigger_witness :
  exists file key,
    UploadUI.getSelectedFile Sample.controller = Some file
    /\ UploadUI.getApiKey Sample.controller = Some key
    /\ key <> ""
    /\ trim key <> ""
    /\ FileHandler.isValidPDF (Some file) = true.
Proof.
  apply (enabled_trigger_passes_checks Sample.controller
           sample_controller_reachable eq_refl).
Defined.

Lemma file_info_witness :
  UploadUI.fileInfo_display Sample.controller = "block"
  /\ UploadUI.fileName_textContent Sample.controller = "report.pdf".
Proof.
  destruct (file_info_follows_selection Sample.controller sample_controller_reachable)
    as [H1 H2].
  split; [exact H1 | apply (H2 Sample.file); reflexivity].
Defined.

Lemma exclusive_witness :
  exclusive
    (UploadUI.perform (UploadUI.ShowError "Error: oops")
       (UploadUI.perform (UploadUI.ShowSummary "A summary")
          (UploadUI.constructor Sample.page))).
Proof.
  apply (summary_and_error_exclusive Sample.page).
  - intros [H _]. discriminate.
  - repeat constructor.
Defined.

Lemma apiKey_round_trip_witness :
  UploadUI.getApiKey
    (UploadUI.constructor
       (UploadUI.mk None None (Some "KEY") "" "" "none" "" true "none" "none" "" "none" ""))
  = Some "KEY".
Proof.
  apply (proj1 (apiKey_round_trip Sample.page "KEY"
                  (UploadUI.mk None None (Some "KEY") "" "" "none" "" true
                     "none" "none" "" "none" "")
                  eq_refl)).
  discriminate.
Defined.

(** ** Sample runs of the recovery *)



